(** * SeisHub client (obspy.seishub.client): request construction and
    response decoding, embedded from [obspy/seishub/client.py].

    Python dictionaries are [gmap]s; their iteration order, which Python 2
    leaves unspecified, is the order of [map_to_list], and no statement
    below relies on it.  Functions that raise return a [result]; functions
    that talk to the server or the file system run in a small state and
    error monad over a [world].  The server, [lxml], [pickle] and the
    parts of [obspy.core] that the client calls are parameters, gathered
    in [externals]; floats are binary64. *)

From Stdlib Require Import ZArith Ascii String PrimFloat FloatOps SpecFloat.
From Stdlib Require Uint63.
From stdpp Require Import base option list gmap strings pretty.

Local Open Scope string_scope.
Local Open Scope Z_scope.
#[local] Set Warnings "-inexact-float".

(** ** Python values passed as keyword arguments *)

(** The values a caller hands to the client.  An object that is neither
    [None], a bool, an int, a [str], a tuple nor a list (a float, a
    [UTCDateTime], ...) is kept as its [bool(x)], [str(x)] and [repr(x)],
    which is all that [_fetch] asks of a value; it is taken to be neither
    iterable nor subscriptable, and its arithmetic is a collaborator's. *)
#[warnings="-register-all"]
Inductive pyval : Type :=
  | PNone
  | PBool (b : bool)
  | PInt (n : Z)
  | PStr (s : string)
  | PTuple (items : list pyval)
  | PList (items : list pyval)
  | PObj (nonzero : bool) (str_ repr_ : string).

Module Py.

(** [bool(x)]: the test behind [if not value]. *)
Definition truthy (v : pyval) : bool :=
  match v with
  | PNone => false
  | PBool b => b
  | PInt n => negb (n =? 0)
  | PStr s => negb (String.eqb s "")
  | PTuple l | PList l => negb (Nat.eqb (length l) 0)
  | PObj nz _ _ => nz
  end.

Definition isinstance_tuple (v : pyval) : bool :=
  match v with PTuple _ => true | _ => false end.

Definition isinstance_list (v : pyval) : bool :=
  match v with PList _ => true | _ => false end.

Definition isinstance_str (v : pyval) : bool :=
  match v with PStr _ => true | _ => false end.

(** [len(x)] of a sequence; 0 elsewhere (never asked there). *)
Definition len (v : pyval) : nat :=
  match v with
  | PTuple l | PList l => length l
  | PStr s => String.length s
  | _ => 0%nat
  end.

(** [x[i]] of a tuple or list; the code indexes only below [len]. *)
Definition item (v : pyval) (i : nat) : pyval :=
  match v with
  | PTuple l | PList l => default PNone (l !! i)
  | _ => PNone
  end.

Definition hex_digit (n : N) : ascii :=
  match n with
  | 0 => "0" | 1 => "1" | 2 => "2" | 3 => "3" | 4 => "4" | 5 => "5"
  | 6 => "6" | 7 => "7" | 8 => "8" | 9 => "9" | 10 => "a" | 11 => "b"
  | 12 => "c" | 13 => "d" | 14 => "e" | _ => "f"
  end%N%char.

(** The double quote character. *)
Definition dquote : ascii := ascii_of_N 34.

Fixpoint contains (c : ascii) (s : string) : bool :=
  match s with
  | EmptyString => false
  | String d s' => Ascii.eqb c d || contains c s'
  end.

(** One character of the [repr] of a [str] under quote character [q]. *)
Definition repr_char (q c : ascii) : string :=
  let n := N_of_ascii c in
  if Ascii.eqb c q || Ascii.eqb c "\"
  then String "\" (String c EmptyString)
  else if (n =? 9)%N then "\t"
  else if (n =? 10)%N then "\n"
  else if (n =? 13)%N then "\r"
  else if (n <? 32)%N || (127 <=? n)%N
  then String "\" (String "x" (String (hex_digit (n / 16))
                                (String (hex_digit (n mod 16)) EmptyString)))
  else String c EmptyString.

Fixpoint repr_chars (q : ascii) (s : string) : string :=
  match s with
  | EmptyString => EmptyString
  | String c s' => repr_char q c +:+ repr_chars q s'
  end.

(** [repr] of a [str]: single quotes, unless the text has a single
    quote and no double quote. *)
Definition repr_str (s : string) : string :=
  let q : ascii :=
    if contains "'" s && negb (contains dquote s) then dquote
    else "'"%char in
  String q (repr_chars q s +:+ String q EmptyString).

Definition join (sep : string) (l : list string) : string :=
  String.concat sep l.

Definition str_seq (opening closing : string) (tuple : bool)
    (reprs : list string) : string :=
  match reprs with
  | [r] => opening +:+ r +:+ (if tuple then "," else "") +:+ closing
  | _ => opening +:+ join ", " reprs +:+ closing
  end.

(** [repr(x)]. *)
Fixpoint repr (v : pyval) : string :=
  match v with
  | PNone => "None"
  | PBool true => "True"
  | PBool false => "False"
  | PInt n => pretty n
  | PStr s => repr_str s
  | PTuple l => str_seq "(" ")" true (map repr l)
  | PList l => str_seq "[" "]" false (map repr l)
  | PObj _ _ r => r
  end.

(** [str(x)]. *)
Definition str (v : pyval) : string :=
  match v with
  | PStr s => s
  | PObj _ s _ => s
  | _ => repr v
  end.

End Py.

(** ** Module constants *)

(** Python's [x in list_of_strings]. *)
Definition str_in (s : string) (l : list string) : bool :=
  bool_decide (s ∈ l).

Definition HTTP_ACCEPTED_DATA_METHODS : list string := ["PUT"; "POST"].
Definition HTTP_ACCEPTED_NODATA_METHODS : list string :=
  ["HEAD"; "GET"; "DELETE"].
Definition HTTP_ACCEPTED_METHODS : list string :=
  HTTP_ACCEPTED_DATA_METHODS ++ HTTP_ACCEPTED_NODATA_METHODS.

(** Both tables are dict literals, listed here in source order.  No old
    name of a table is a new name of it, so the order in which the
    keyword loop visits the entries does not matter. *)
Definition DEPRECATED_KEYWORDS : list (string * string) :=
  [("network_id", "network"); ("station_id", "station");
   ("location_id", "location"); ("channel_id", "channel");
   ("start_datetime", "starttime"); ("end_datetime", "endtime")].

Definition KEYWORDS : list (string * string) :=
  [("network", "network_id"); ("station", "station_id");
   ("location", "location_id"); ("channel", "channel_id");
   ("starttime", "start_datetime"); ("endtime", "end_datetime")].

(** ** Parameter normalisation of [Client._fetch] *)

Module Params.

(** One turn of the loop over [KEYWORDS.iteritems()]:
    [if key in kwargs: kwargs[value] = kwargs[key]; del kwargs[key]]. *)
Definition map_keyword (kwargs : gmap string pyval)
    (kw : string * string) : gmap string pyval :=
  match kwargs !! kw.1 with
  | Some v => delete kw.1 (<[kw.2 := v]> kwargs)
  | None => kwargs
  end.

Definition map_keywords (kwargs : gmap string pyval) : gmap string pyval :=
  foldl map_keyword kwargs KEYWORDS.

(** One turn of the loop over [kwargs.iteritems()] ("check for ranges
    and empty values"). *)
Definition fold_param (params : gmap string string)
    (kv : string * pyval) : gmap string string :=
  let key := kv.1 in
  let value := kv.2 in
  if negb (Py.truthy value) then params
  else if Py.isinstance_tuple value && Nat.eqb (Py.len value) 2 then
    <["max_" +:+ key := Py.str (Py.item value 1)]>
      (<["min_" +:+ key := Py.str (Py.item value 0)]> params)
  else if Py.isinstance_list value && Nat.eqb (Py.len value) 2 then
    <["max_" +:+ key := Py.str (Py.item value 1)]>
      (<["min_" +:+ key := Py.str (Py.item value 0)]> params)
  else <[key := Py.str value]> params.

(** The second loop of [_fetch], from [params = {}]. *)
Definition fold_params (kwargs : gmap string pyval) : gmap string string :=
  foldl fold_param ∅ (map_to_list kwargs).

(** The [params] dictionary that [_fetch] url-encodes. *)
Definition fetch_params (kwargs : gmap string pyval) : gmap string string :=
  fold_params (map_keywords kwargs).

(** A normalised mapping read again as keyword arguments. *)
Definition as_kwargs (params : gmap string string) : gmap string pyval :=
  PStr <$> params.

(** A value that takes a range branch: a tuple or a list of length 2. *)
Definition is_range (v : pyval) : bool :=
  (Py.isinstance_tuple v || Py.isinstance_list v) && Nat.eqb (Py.len v) 2.

(** The assignments to [params] that one turn of the second loop makes,
    in order. *)
Definition writes (kv : string * pyval) : list (string * string) :=
  if negb (Py.truthy kv.2) then []
  else if is_range kv.2 then
    [("min_" +:+ kv.1, Py.str (Py.item kv.2 0));
     ("max_" +:+ kv.1, Py.str (Py.item kv.2 1))]
  else [(kv.1, Py.str kv.2)].

Definition assign (p : gmap string string) (w : string * string) :=
  <[w.1 := w.2]> p.

(** A key that no range entry can produce. *)
Definition plain_key (q : string) : Prop :=
  ∀ j, q ≠ "min_" +:+ j ∧ q ≠ "max_" +:+ j.

(** A rename table whose old names are distinct, whose new names are
    distinct, and where no old name is a new name. *)
Record table_ok (t : list (string * string)) : Prop := {
  table_keys : NoDup t.*1;
  table_vals : NoDup t.*2;
  table_disj : ∀ x, x ∈ t.*1 → x ∉ t.*2
}.

(** The claim that a deprecated key [k] ends up under its canonical
    name [c]. *)
Definition sent_under_canonical (kwargs : gmap string pyval)
    (k c : string) : Prop :=
  is_Some (fetch_params kwargs !! c) ∧ fetch_params kwargs !! k = None.

(** Normalising the normalised mapping changes nothing. *)
Definition idempotent_at (kwargs : gmap string pyval) : Prop :=
  fetch_params (as_kwargs (fetch_params kwargs)) = fetch_params kwargs.

End Params.

(** ** Exceptions, the world and the request monad *)

Inductive exn : Type :=
  | ValueError (msg : string)
  | TypeError (msg : string)
  | KeyError (key : string)
  | IndexError
  | AttributeError (name : string)
  | ZeroDivisionError
  | OSError (msg : string)
  | Exception_ (msg : string)
  | URLError
  | HTTPError (code : Z) (msg : string)
  | ExternalError (origin : string).

Inductive result (A : Type) : Type :=
  | Ok (a : A)
  | Raise (e : exn).
Arguments Ok {A} a.
Arguments Raise {A} e.

(** A request as [urllib2] sends it. *)
Record request : Type := {
  req_method : string;
  req_url : string;
  req_data : string;
  req_headers : list (string * string)
}.

(** What [urllib2.urlopen] comes back with: a response, an [HTTPError]
    carrying a status, or no connection at all. *)
Inductive reply : Type :=
  | Response (code : Z) (msg body : string)
  | HTTPFailure (code : Z) (msg : string)
  | Unreachable.

(** [datetime.now()], seen through [timestamp.date()] and [str(timestamp)]. *)
Record timestamp : Type := { ts_date : string; ts_str : string }.

(** Everything outside the process that the client reads or changes. *)
Record world : Type := {
  sent : list request;
  files : gmap string string;
  warned : list string;
  now : timestamp
}.

Definition M (A : Type) : Type := world → result A * world.

Definition ret {A} (a : A) : M A := λ w, (Ok a, w).
Definition raise {A} (e : exn) : M A := λ w, (Raise e, w).
Definition bind {A B} (m : M A) (f : A → M B) : M B :=
  λ w, match m w with
       | (Ok a, w') => f a w'
       | (Raise e, w') => (Raise e, w')
       end.
Definition lift {A} (r : result A) : M A := λ w, (r, w).

#[global] Instance M_ret : MRet M := @ret.
#[global] Instance M_bind : MBind M := λ A B f m, bind m f.

(** The world after one more request, warning or file. *)
Definition issued (r : request) (w : world) : world :=
  {| sent := sent w ++ [r]; files := files w; warned := warned w;
     now := now w |}.

Definition warned_of (msg : string) (w : world) : world :=
  {| sent := sent w; files := files w; warned := warned w ++ [msg];
     now := now w |}.

Definition written (filename content : string) (w : world) : world :=
  {| sent := sent w; files := <[filename := content]> (files w);
     warned := warned w; now := now w |}.

Definition warn (msg : string) : M unit := λ w, (Ok tt, warned_of msg w).

Definition rbind {A B} (r : result A) (f : A → result B) : result B :=
  match r with Ok a => f a | Raise e => Raise e end.

Fixpoint rmap {A B} (f : A → result B) (l : list A) : result (list B) :=
  match l with
  | [] => Ok []
  | x :: l' => rbind (f x) (λ y, rbind (rmap f l') (λ ys, Ok (y :: ys)))
  end.

(** ** Documents *)

(** An element of a parsed response: tag, own text, child elements. *)
#[warnings="-register-all"]
Inductive oelem : Type :=
  | OElem (tag text : string) (children : list oelem).

(** The typed value [objectify] gives a leaf ([.pyval]). *)
Inductive oval : Type :=
  | ONone
  | OBool (b : bool)
  | OInt (n : Z)
  | OFloat (f : float)
  | OStr (s : string).

(** An element tree built with [lxml.etree.Element] and [SubElement]. *)
#[warnings="-register-all"]
Inductive xmltree : Type :=
  | Element (tag : string) (attrib : list (string * string)) (text : string)
      (children : list xmltree).

(** The instrument response dictionary of [getPAZ]. *)
Inductive pazval : Type :=
  | PazComplex (zs : list (float * float))
  | PazScalar (v : oval).

(** A trace of a stream: what the server pickled, and the two entries
    that [getWaveform] may add to its [stats]. *)
Record trace : Type := {
  tr_pickled : string;
  tr_paz : option (gmap string pazval);
  tr_coordinates : option (gmap string oval)
}.

(** ** External collaborators *)

(** The server and the library calls whose code lies outside
    [client.py]. *)
Record externals : Type := {
  (** the server: its reply to a request, given the requests so far *)
  urlopen : list request → request → reply;
  (** [lxml.objectify.fromstring] *)
  fromstring : string → result oelem;
  (** the Python value [objectify] infers from the text of a leaf *)
  pyval_of : string → oval;
  (** [pickle.loads] on a stream *)
  loads : string → result (list trace);
  (** [Stream.trim(starttime, endtime)] *)
  trim : list trace → pyval → pyval → result (list trace);
  (** [UTCDateTime(s)] *)
  UTCDateTime : string → result pyval;
  (** [t - x] and [t + x] for a time [t] and a float [x] *)
  time_sub : pyval → float → result pyval;
  time_add : pyval → float → result pyval;
  (** the table [obspy.core.util.BAND_CODE] *)
  BAND_CODE : string → option float;
  (** [base.xpath(expression)] where the expression is not one that
      [XPath] below reads *)
  xpath : string → oelem → result (list oelem);
  (** [str(x)] and [float(s)] where [Lib] below does not fix them,
      [math.log(x)] on floats; [float(n)] *)
  str_float : float → string;
  float_of_str : string → option float;
  math_log : float → option float;
  float_of_int : Z → float;
  (** ["%.Nf" % x] where Python falls back to the [%g] format *)
  format_g : nat → float → string;
  (** [lxml.etree.tostring(kml, pretty_print=True, xml_declaration=True)] *)
  tostring : xmltree → string
}.

(** ** Library functions with a fixed meaning *)

Module Lib.

Definition upper_hex_digit (n : N) : ascii :=
  match n with
  | 0 => "0" | 1 => "1" | 2 => "2" | 3 => "3" | 4 => "4" | 5 => "5"
  | 6 => "6" | 7 => "7" | 8 => "8" | 9 => "9" | 10 => "A" | 11 => "B"
  | 12 => "C" | 13 => "D" | 14 => "E" | _ => "F"
  end%N%char.

Definition always_safe (c : ascii) : bool :=
  let n := N_of_ascii c in
  ((65 <=? n) && (n <=? 90) || (97 <=? n) && (n <=? 122) ||
   (48 <=? n) && (n <=? 57) ||
   Ascii.eqb c "_" || Ascii.eqb c "." || Ascii.eqb c "-")%N.

(** [urllib.quote_plus]: a space becomes a plus sign, every other
    character outside letters, digits and [_.-] a percent escape. *)
Fixpoint quote_plus (s : string) : string :=
  match s with
  | EmptyString => EmptyString
  | String c s' =>
      (if always_safe c then String c EmptyString
       else if Ascii.eqb c " " then "+"
       else let n := N_of_ascii c in
            String "%" (String (upper_hex_digit (n / 16))
                          (String (upper_hex_digit (n mod 16)) EmptyString)))
      +:+ quote_plus s'
  end.

(** [urllib.urlencode] of a dictionary of strings. *)
Definition urlencode (params : gmap string string) : string :=
  Py.join "&"
    ((λ kv, quote_plus kv.1 +:+ "=" +:+ quote_plus kv.2) <$> map_to_list params).

(** The newline character. *)
Definition nl : string := String (ascii_of_N 10) EmptyString.

(** [s.split(" ")[0]]. *)
Fixpoint before_space (s : string) : string :=
  match s with
  | EmptyString => EmptyString
  | String c s' =>
      if Ascii.eqb c " " then EmptyString else String c (before_space s')
  end.

Definition round_half_even (n d : Z) : Z :=
  let q := n / d in
  let r := n mod d in
  if 2 * r <? d then q
  else if d <? 2 * r then q + 1
  else if Z.even q then q else q + 1.

Fixpoint zeros (n : nat) : string :=
  match n with O => EmptyString | S n' => String "0" (zeros n') end.

(** The decimal digits of [n ≥ 0] with a point before the last [p]. *)
Definition fixed_digits (p : nat) (n : Z) : string :=
  let s := pretty n in
  let s := zeros (S p - String.length s) +:+ s in
  let k := (String.length s - p)%nat in
  if Nat.eqb p 0 then s
  else substring 0 k s +:+ "." +:+ substring k p s.

(** ["%.Nf" % x]: the exact value of the float, rounded half-even to
    [p] decimals.  From 1e50 on Python 2 switches to the [%g] format,
    which is left to the collaborator. *)
Definition format_f (X : externals) (p : nat) (x : float) : string :=
  match Prim2SF x with
  | S754_nan => "nan"
  | S754_infinity _ => format_g X p x
  | S754_zero s => (if s then "-" else "") +:+ fixed_digits p 0
  | S754_finite s m e =>
      if PrimFloat.leb 0x1.08b2a2c280291p+83 (PrimFloat.abs x / 0x1.08b2a2c280291p+83)
      then format_g X p x
      else
        let num := Z.pos m * 10 ^ Z.of_nat p in
        let n := if 0 <=? e then num * 2 ^ e
                 else round_half_even num (2 ^ (- e)) in
        (if s then "-" else "") +:+ fixed_digits p n
  end.

(** The floats that the fixed notation above covers. *)
Definition in_fixed_range (x : float) : bool :=
  match Prim2SF x with
  | S754_zero _ => true
  | S754_finite _ _ _ =>
      negb (PrimFloat.leb 0x1.08b2a2c280291p+83
              (PrimFloat.abs x / 0x1.08b2a2c280291p+83))
  | _ => false
  end.

(** The number a string of decimal digits spells, read from the left
    onto [acc]. *)
Definition digit_value (c : ascii) : option Z :=
  let n := N_of_ascii c in
  if ((48 <=? n) && (n <=? 57))%N then Some (Z.of_N n - 48) else None.

Fixpoint digits_value_from (acc : Z) (s : string) : option Z :=
  match s with
  | EmptyString => Some acc
  | String c s' =>
      match digit_value c with
      | Some d => digits_value_from (acc * 10 + d) s'
      | None => None
      end
  end.

Definition digits_value (s : string) : option Z := digits_value_from 0 s.

(** The integer [n] is nearest to the quotient [num / den], and even
    when two integers are as near. *)
Definition nearest_even (num den n : Z) : Prop :=
  2 * Z.abs (num - n * den) ≤ den ∧
  (2 * Z.abs (num - n * den) = den → Z.even n = true).

(** [text] writes the float [x] with [p] decimals: a sign, digits, a
    point and [p] digits, which spell the integer nearest to [|x| * 10^p],
    the even one on a tie. *)
Definition decimal_of (p : nat) (x : float) (text : string) : Prop :=
  ∃ (negative : bool) (whole frac : string) (n : Z),
    text = (if negative then "-" else "") +:+ whole +:+ "." +:+ frac ∧
    whole ≠ "" ∧
    String.length frac = p ∧
    digits_value (whole +:+ frac) = Some n ∧
    match Prim2SF x with
    | S754_zero s => negative = s ∧ n = 0
    | S754_finite s m e =>
        negative = s ∧
        if 0 <=? e then n = Z.pos m * 2 ^ e * 10 ^ Z.of_nat p
        else nearest_even (Z.pos m * 10 ^ Z.of_nat p) (2 ^ (- e)) n
    | _ => False
    end.

(** [s.split(".")] of a string with a point: the text before the first
    point and the text after it. *)
Fixpoint split_point (s : string) : option (string * string) :=
  match s with
  | EmptyString => None
  | String c s' =>
      if Ascii.eqb c "." then Some (EmptyString, s')
      else match split_point s' with
           | Some (a, b) => Some (String c a, b)
           | None => None
           end
  end.

(** A plain decimal literal, an optional minus sign, digits, a point and
    digits, fifteen digits at most: its sign, its digits as an integer
    and the number of decimals. *)
Definition decimal_literal (s : string) : option (bool * Z * nat) :=
  let '(negative, body) :=
    match s with
    | String "-"%char s' => (true, s')
    | _ => (false, s)
    end in
  match split_point body with
  | Some (whole, frac) =>
      match digits_value (whole +:+ frac) with
      | Some n =>
          if negb (String.eqb whole "") && negb (String.eqb frac "")
             && (String.length whole + String.length frac <=? 15)%nat
          then Some (negative, n, String.length frac)
          else None
      | None => None
      end
  | None => None
  end.

(** [float(s)].  A plain decimal literal is the quotient of two integers
    that binary64 holds exactly, rounded once: the float nearest to the
    literal.  Every other text is left to the collaborator. *)
Definition float_of_text (X : externals) (s : string) : option float :=
  match decimal_literal s with
  | Some (negative, n, k) =>
      let q := (PrimFloat.of_uint63 (Uint63.of_Z n)
                / PrimFloat.of_uint63 (Uint63.of_Z (10 ^ Z.of_nat k)))%float in
      Some (if negative then (- q)%float else q)
  | None => float_of_str X s
  end.

(** [str(x)] of a float, which is ["%.12g" % x] with [.0] added to what
    looks like an integer.  A whole number below 10^12 is its digits and
    [.0]; every other float is left to the collaborator. *)
Definition str_of_float (X : externals) (x : float) : string :=
  match Prim2SF x with
  | S754_zero s => (if s then "-" else "") +:+ "0.0"
  | S754_finite s m e =>
      if (e <? 0) && (Z.pos m mod 2 ^ (- e) =? 0)
         && (Z.pos m / 2 ^ (- e) <? 10 ^ 12)
      then (if s then "-" else "") +:+ pretty (Z.pos m / 2 ^ (- e)) +:+ ".0"
      else str_float X x
  | _ => str_float X x
  end.

(** The float that a number stands for. *)
Definition number (X : externals) (v : oval) : option float :=
  match v with
  | OFloat f => Some f
  | OInt n => Some (float_of_int X n)
  | OBool b => Some (if b then 1 else 0)%float
  | _ => None
  end.

(** [str(x)] of a decoded field. *)
Definition ostr (X : externals) (v : oval) : string :=
  match v with
  | ONone => "None"
  | OBool true => "True"
  | OBool false => "False"
  | OInt n => pretty n
  | OFloat f => str_of_float X f
  | OStr s => s
  end.

(** ["%.Nf" % v] of a decoded field; only numbers can be formatted. *)
Definition format_f_val (X : externals) (p : nat) (v : oval) : result string :=
  match v with
  | OFloat f => Ok (format_f X p f)
  | OInt n => Ok (format_f X p (float_of_int X n))
  | OBool b => Ok (format_f X p (if b then 1 else 0)%float)
  | _ => Raise (TypeError "float argument required")
  end.

End Lib.

(** ** [RequestWithMethod] *)

Module RequestWithMethod.

(** [str(HTTP_ACCEPTED_METHODS)], as the messages print it. *)
Definition methods_text : string :=
  Py.str (PList (PStr <$> HTTP_ACCEPTED_METHODS)).

Definition __init__ (method url data : string)
    (headers : list (string * string)) : result request :=
  if negb (str_in method HTTP_ACCEPTED_METHODS) then
    Raise (ValueError ("HTTP Method not supported. " +:+
                       "Supported are: " +:+ methods_text +:+ "."))
  else Ok {| req_method := method; req_url := url; req_data := data;
             req_headers := headers |}.

Definition get_method (r : request) : string := req_method r.

End RequestWithMethod.

(** ** [Client] *)

Record client : Type := { base_url : string; timeout : Z }.

Module Client.
Section defs.
Context (X : externals) (self : client).

(** [urllib2.urlopen]: the request goes out and the server answers. *)
Definition send (r : request) : M reply :=
  λ w, (Ok (urlopen X (sent w) r), issued r w).

(** [urllib2.urlopen(remoteaddr)] on an address is a GET. *)
Definition get_request (remoteaddr : string) : request :=
  {| req_method := "GET"; req_url := remoteaddr; req_data := "";
     req_headers := [] |}.

Definition remoteaddr (url : string) (kwargs : gmap string pyval) : string :=
  base_url self +:+ url +:+ "?" +:+
  Lib.urlencode (Params.fetch_params kwargs).

Definition _fetch (url : string) (kwargs : gmap string pyval) : M string :=
  response ← send (get_request (remoteaddr url kwargs));
  match response with
  | Response _ _ doc => mret doc
  | HTTPFailure code msg => raise (HTTPError code msg)
  | Unreachable => raise URLError
  end.

Definition _HTTP_request (url method xml_string : string)
    (headers : list (string * string)) : M (Z * string) :=
  if negb (str_in method HTTP_ACCEPTED_METHODS) then
    raise (ValueError ("Method must be one of " +:+
                       RequestWithMethod.methods_text))
  else if str_in method HTTP_ACCEPTED_DATA_METHODS
          && negb (Py.truthy (PStr xml_string)) then
    raise (TypeError ("Missing data for " +:+ method +:+ " request."))
  else if str_in method HTTP_ACCEPTED_NODATA_METHODS
          && Py.truthy (PStr xml_string) then
    raise (TypeError ("Unexpected data for " +:+ method +:+ " request."))
  else
    req ← lift (RequestWithMethod.__init__ method url xml_string headers);
    response ← send req;
    match response with
    | Response code msg _ => mret (code, msg)
    | HTTPFailure code msg => mret (code, msg)
    | Unreachable => raise URLError
    end.

Definition _objectify (url : string) (kwargs : gmap string pyval) : M oelem :=
  doc ← _fetch url kwargs;
  lift (fromstring X doc).

Definition testAuth : M bool :=
  '(code, _) ← _HTTP_request (base_url self +:+ "/xml/") "HEAD" "" [];
  if code =? 200 then mret true
  else if code =? 401 then mret false
  else raise (Exception_ ("Unexpected request status code: " +:+ pretty code)).

End defs.
End Client.

(** ** Decoded documents ([lxml.objectify]) *)

Module Objectify.

Definition tag (e : oelem) : string := let 'OElem t _ _ := e in t.
Definition text (e : oelem) : string := let 'OElem _ t _ := e in t.
Definition getchildren (e : oelem) : list oelem := let 'OElem _ _ c := e in c.

(** [e.name[:]]: the children of [e] called [name]. *)
Definition children_named (name : string) (e : oelem) : list oelem :=
  filter (λ c, tag c = name) (getchildren e).

(** [e.name] and [e['name']]: the first such child. *)
Definition child (name : string) (e : oelem) : result oelem :=
  match children_named name e with
  | c :: _ => Ok c
  | [] => Raise (AttributeError ("no such child: " +:+ name))
  end.

(** [e.pyval]; an element with children is not a data element. *)
Definition pyval (X : externals) (e : oelem) : result oval :=
  match getchildren e with
  | [] => Ok (pyval_of X (text e))
  | _ => Raise (AttributeError "pyval")
  end.

(** [str(e)]. *)
Definition str (X : externals) (e : oelem) : string :=
  match getchildren e with
  | [] => Lib.ostr X (pyval_of X (text e))
  | _ => text e
  end.

(** [float(e)], as [complex(re, im)] asks of both arguments.  A leaf
    that holds a text converts that text and fails as [float(s)] does. *)
Definition to_float (X : externals) (e : oelem) : result float :=
  rbind (pyval X e) (λ v,
    match v with
    | OFloat f => Ok f
    | OInt n => Ok (float_of_int X n)
    | OBool b => Ok (if b then 1 else 0)%float
    | OStr s =>
        match Lib.float_of_text X s with
        | Some f => Ok f
        | None => Raise (ValueError ("could not convert string to float: " +:+ s))
        end
    | ONone => Raise (TypeError "complex() argument must be a number")
    end).

(** [e.__dict__]: the first child under each tag. *)
Definition __dict__ (e : oelem) : gmap string oelem :=
  list_to_map ((λ c, (tag c, c)) <$> getchildren e).

(** [dict((k, v.pyval) for k, v in node.__dict__.iteritems())]. *)
Definition record (X : externals) (node : oelem) : result (gmap string oval) :=
  rbind (rmap (λ kv, rbind (pyval X kv.2) (λ v, Ok (kv.1, v)))
           (map_to_list (__dict__ node)))
        (λ l, Ok (list_to_map l)).

Definition records (X : externals) (root : oelem)
    : result (list (gmap string oval)) :=
  rmap (record X) (getchildren root).

(** [[str(node[name]) for node in root.getchildren()]]. *)
Definition column (X : externals) (name : string) (root : oelem)
    : result (list string) :=
  rmap (λ node, rbind (child name node) (λ c, Ok (str X c)))
    (getchildren root).

End Objectify.

(** ** The XPath expressions of [getPAZ] *)

Module XPath.
Import Objectify.

(** The string value of an element.  The documents have no mixed
    content: an element's text is in [text], before its children. *)
Fixpoint string_value (e : oelem) : string :=
  let 'OElem _ t children := e in
  t +:+ Py.join "" (map string_value children).

(** The predicate [name='literal'] at [e]. *)
Definition child_is (name literal : string) (e : oelem) : bool :=
  existsb (λ c, bool_decide (tag c = name) && String.eqb (string_value c) literal)
    (getchildren e).

(** [channel_identifier[channel_identifier='C' and
    location_identifier='L']] as a test on a child of the header. *)
Definition identifies (channel location : string) (e : oelem) : bool :=
  bool_decide (tag e = "channel_identifier")
  && child_is "channel_identifier" channel e
  && child_is "location_identifier" location e.

Fixpoint after_first (p : oelem → bool) (l : list oelem) : list oelem :=
  match l with
  | [] => []
  | e :: l' => if p e then l' else after_first p l'
  end.

(** The expression that [getPAZ] builds around its two filters; [step]
    is the node test after [following-sibling::], with its predicate. *)
Definition expression (channel location step : string) : string :=
  "channel_identifier[channel_identifier='" +:+ channel +:+
  "' and location_identifier='" +:+ location +:+
  "']/following-sibling::" +:+ step.

(** [base.xpath("channel_identifier[...]/following-sibling::T[P]")],
    where [step] spells [T[P]] and [sel] tests it: in document order, the
    siblings selected by [sel] after the first identifier that matches,
    which are all there are.  A quote in a filter ends its literal early;
    what the expression then means, if anything, is the collaborator's
    to say. *)
Definition following (X : externals) (channel location step : string)
    (sel : oelem → bool) (base : oelem) : result (list oelem) :=
  if Py.contains "'" channel || Py.contains "'" location
  then xpath X (expression channel location step) base
  else Ok (filter (λ e, sel e = true)
             (after_first (identifies channel location) (getchildren base))).

Definition is_paz (e : oelem) : bool :=
  bool_decide (tag e = "response_poles_and_zeros").

Definition is_gain (stage : string) (e : oelem) : bool :=
  bool_decide (tag e = "channel_sensitivity_gain")
  && child_is "stage_sequence_number" stage e.

(** [nodes[0]]. *)
Definition first {A} (l : list A) : result A :=
  match l with x :: _ => Ok x | [] => Raise IndexError end.

End XPath.

(** ** [_BaseRESTClient] *)

(** The loop over the local variables that begins each operation
    ([kwargs[key] = value] for every named argument). *)
Definition with_locals (named : list (string * pyval))
    (kwargs : gmap string pyval) : gmap string pyval :=
  foldl (λ kw kv, <[kv.1 := kv.2]> kw) kwargs named.

Module _BaseRESTClient.
Section defs.
Context (X : externals) (self : client) (package resourcetype : string).

Definition getResource (resource_name : string) (format : pyval)
    (kwargs : gmap string pyval) : M string :=
  let kwargs := with_locals [("resource_name", PStr resource_name);
                             ("format", format)] kwargs in
  let url := "/xml/" +:+ package +:+ "/" +:+ resourcetype +:+ "/" +:+
             resource_name in
  Client._fetch X self url kwargs.

Definition getXMLResource (resource_name : string)
    (kwargs : gmap string pyval) : M oelem :=
  let url := "/xml/" +:+ package +:+ "/" +:+ resourcetype +:+ "/" +:+
             resource_name in
  Client._objectify X self url kwargs.

Definition putResource (resource_name xml_string : string)
    (headers : list (string * string)) : M (Z * string) :=
  let url := Py.join "/" [base_url self; "xml"; package; resourcetype;
                          resource_name] in
  Client._HTTP_request X url "PUT" xml_string headers.

Definition deleteResource (resource_name : string)
    (headers : list (string * string)) : M (Z * string) :=
  let url := Py.join "/" [base_url self; "xml"; package; resourcetype;
                          resource_name] in
  Client._HTTP_request X url "DELETE" "" headers.

End defs.
End _BaseRESTClient.

(** ** [_StationMapperClient] *)

Module _StationMapperClient.

Definition package : string := "seismology".
Definition resourcetype : string := "station".

(** [t in v] for a one-character string [t]. *)
Definition py_in (t : ascii) (v : pyval) : result bool :=
  match v with
  | PStr s => Ok (Py.contains t s)
  | PTuple l | PList l =>
      Ok (existsb (λ x, match x with
                        | PStr s => String.eqb s (String t EmptyString)
                        | _ => false
                        end) l)
  | _ => Raise (TypeError "argument is not iterable")
  end.

(** A string operand of [+] between strings. *)
Definition as_str (v : pyval) : result string :=
  match v with
  | PStr s => Ok s
  | _ => Raise (TypeError "cannot concatenate 'str' and other objects")
  end.

(** One turn of [for t in ['*', '?']]. *)
Definition reset_wildcard (cl : pyval * pyval) (t : ascii)
    : result (pyval * pyval) :=
  rbind (py_in t cl.1) (λ inc,
    let channel := if inc then PStr "" else cl.1 in
    rbind (py_in t cl.2) (λ inl,
      let location := if inl then PStr "" else cl.2 in
      Ok (channel, location))).

Definition reset_wildcards (channel location : pyval)
    : result (pyval * pyval) :=
  rbind (reset_wildcard (channel, location) "*") (λ cl,
    reset_wildcard cl "?").

(** [zip(reals, imags)] turned into complex numbers. *)
Definition complexes (X : externals) (reals imags : list oelem)
    : result (list (float * float)) :=
  rmap (λ p, rbind (Objectify.to_float X p.1) (λ re,
             rbind (Objectify.to_float X p.2) (λ im, Ok (re, im))))
    (zip reals imags).

(** The three nodes [getPAZ] reads: poles and zeros, overall
    sensitivity, seismometer gain. *)
Definition select_nodes (X : externals) (base_node : oelem)
    (channel location : pyval) : result (oelem * oelem * oelem) :=
  if Py.truthy channel || Py.truthy location then
    rbind (as_str channel) (λ ch,
    rbind (as_str location) (λ loc,
    rbind (rbind (XPath.following X ch loc "response_poles_and_zeros"
                    XPath.is_paz base_node)
             XPath.first) (λ paz_node,
    rbind (rbind (XPath.following X ch loc
                    "channel_sensitivity_gain[stage_sequence_number='0']"
                    (XPath.is_gain "0") base_node)
             XPath.first) (λ sensitivity_node,
    rbind (rbind (XPath.following X ch loc
                    "channel_sensitivity_gain[stage_sequence_number='1']"
                    (XPath.is_gain "1") base_node)
             XPath.first) (λ seismometer_gain_node,
    Ok (paz_node, sensitivity_node, seismometer_gain_node))))))
  else
    rbind (Objectify.child "response_poles_and_zeros" base_node) (λ paz_node,
    rbind (Objectify.child "channel_sensitivity_gain" base_node) (λ _,
      let gains := Objectify.children_named "channel_sensitivity_gain"
                     base_node in
      rbind (XPath.first (reverse gains)) (λ sensitivity_node,
      rbind (XPath.first gains) (λ seismometer_gain_node,
      Ok (paz_node, sensitivity_node, seismometer_gain_node))))).

(** The dictionary built from the selected nodes ([paz = {}] onwards). *)
Definition build_paz (X : externals)
    (paz_node sensitivity_node seismometer_gain_node : oelem)
    (seismometer_gain : pyval) : result (gmap string pazval) :=
  rbind (Objectify.child "complex_pole" paz_node) (λ cp,
  rbind (Objectify.child "real_pole" cp) (λ _,
  rbind (Objectify.child "imaginary_pole" cp) (λ _,
  rbind (complexes X (Objectify.children_named "real_pole" cp)
                     (Objectify.children_named "imaginary_pole" cp)) (λ poles,
  rbind (Objectify.child "complex_zero" paz_node) (λ cz,
  rbind (Objectify.child "real_zero" cz) (λ _,
  rbind (Objectify.child "imaginary_zero" cz) (λ _,
  rbind (complexes X (Objectify.children_named "real_zero" cz)
                     (Objectify.children_named "imaginary_zero" cz)) (λ zeros,
  rbind (rbind (Objectify.child "A0_normalization_factor" paz_node)
               (Objectify.pyval X)) (λ gain,
  rbind (rbind (Objectify.child "sensitivity_gain" sensitivity_node)
               (Objectify.pyval X)) (λ sensitivity,
  let paz : gmap string pazval :=
    <["sensitivity" := PazScalar sensitivity]>
      (<["gain" := PazScalar gain]>
         (<["zeros" := PazComplex zeros]>
            (<["poles" := PazComplex poles]> ∅))) in
  if Py.truthy seismometer_gain then
    rbind (rbind (Objectify.child "sensitivity_gain" seismometer_gain_node)
                 (Objectify.pyval X)) (λ g,
      Ok (<["seismometer_gain" := PazScalar g]> paz))
  else Ok paz)))))))))).

(** [getPAZ] from [base_node = res.station_control_header] onwards. *)
Definition paz_of_header (X : externals) (base_node : oelem)
    (channel location seismometer_gain : pyval)
    : result (gmap string pazval) :=
  rbind (select_nodes X base_node channel location) (λ nodes,
    let '(paz_node, sensitivity_node, seismometer_gain_node) := nodes in
    build_paz X paz_node sensitivity_node seismometer_gain_node
      seismometer_gain).

Section defs.
Context (X : externals) (self : client).

Definition getList (network station : pyval) (kwargs : gmap string pyval)
    : M (list (gmap string oval)) :=
  let kwargs := with_locals [("network", network); ("station", station)]
                  kwargs in
  let url := "/seismology/station/getList" in
  root ← Client._objectify X self url kwargs;
  lift (Objectify.records X root).

Definition getCoordinates (network station datetime location : pyval)
    : M (gmap string oval) :=
  metadata ← getList network station
               {[ "datetime" := datetime; "location" := location ]};
  match metadata with
  | [] =>
      raise (Exception_ ("No coordinates for station " +:+ Py.str network
                         +:+ "." +:+ Py.str station +:+ " at " +:+
                         Py.str datetime))
  | metadata0 :: rest =>
      _ ← (if decide (rest = []) then mret tt
           else warn "Received more than one metadata set. Using first.");
      lift (rbind (rmap (λ key,
                     match metadata0 !! key with
                     | Some v => Ok (key, v)
                     | None => Raise (KeyError key)
                     end) ["latitude"; "longitude"; "elevation"])
              (λ l, Ok (list_to_map l)))
  end.

Definition getPAZ (network station datetime location channel
    seismometer_gain : pyval) : M (gmap string pazval) :=
  station_list ← getList network station {[ "datetime" := datetime ]};
  match station_list with
  | [] => mret ∅
  | xml_doc :: rest =>
      cl ← lift (reset_wildcards channel location);
      _ ← (if decide (rest = []) then mret tt
           else warn "Received more than one PAZ file. Using first.");
      name ← lift (match xml_doc !! "resource_name" with
                   | Some (OStr s) => Ok s
                   | Some _ =>
                       Raise (TypeError
                                "cannot concatenate 'str' and other objects")
                   | None => Raise (KeyError "resource_name")
                   end);
      res ← _BaseRESTClient.getXMLResource X self package resourcetype
              name ∅;
      base_node ← lift (Objectify.child "station_control_header" res);
      lift (paz_of_header X base_node cl.1 cl.2 seismometer_gain)
  end.

End defs.
End _StationMapperClient.

(** ** [_WaveformMapperClient] *)

Module _WaveformMapperClient.

(** Python's [==] on decoded values and on the dictionaries compared
    by the metadata check. *)
Definition oval_eqb (X : externals) (a b : oval) : bool :=
  let number (v : oval) : option (Z + float) :=
    match v with
    | OBool b => Some (inl (if b then 1 else 0))
    | OInt n => Some (inl n)
    | OFloat f => Some (inr f)
    | _ => None
    end in
  match a, b with
  | ONone, ONone => true
  | OStr s, OStr t => String.eqb s t
  | _, _ =>
      match number a, number b with
      | Some (inl m), Some (inl n) => m =? n
      | Some (inl m), Some (inr g) => PrimFloat.eqb (float_of_int X m) g
      | Some (inr f), Some (inl n) => PrimFloat.eqb f (float_of_int X n)
      | Some (inr f), Some (inr g) => PrimFloat.eqb f g
      | _, _ => false
      end
  end.

Fixpoint list_eqb {A} (eqb : A → A → bool) (l k : list A) : bool :=
  match l, k with
  | [], [] => true
  | x :: l', y :: k' => eqb x y && list_eqb eqb l' k'
  | _, _ => false
  end.

Definition pazval_eqb (X : externals) (a b : pazval) : bool :=
  match a, b with
  | PazComplex l, PazComplex k =>
      list_eqb (λ z w, PrimFloat.eqb z.1 w.1 && PrimFloat.eqb z.2 w.2) l k
  | PazScalar v, PazScalar w => oval_eqb X v w
  | _, _ => false
  end.

Definition dict_eqb {A} (eqb : A → A → bool) (a b : gmap string A) : bool :=
  bool_decide (dom a = dom b)
  && forallb (λ kv, match b !! kv.1 with
                    | Some v => eqb kv.2 v
                    | None => false
                    end) (map_to_list a).

(** [x[0]]. *)
Definition getitem0 (v : pyval) : result pyval :=
  match v with
  | PStr (String c _) => Ok (PStr (String c EmptyString))
  | PTuple (x :: _) | PList (x :: _) => Ok x
  | PStr EmptyString | PTuple [] | PList [] => Raise IndexError
  | _ => Raise (TypeError "object is unsubscriptable")
  end.

(** [2.0 / BAND_CODE[band_code]]. *)
Definition two_samples (X : externals) (band_code : pyval) : result float :=
  match band_code with
  | PStr s =>
      match BAND_CODE X s with
      | Some rate =>
          if PrimFloat.eqb rate 0 then Raise ZeroDivisionError
          else Ok (2.0 / rate)%float
      | None => Raise (KeyError s)
      end
  | PList _ => Raise (TypeError "unhashable type")
  | _ => Raise (KeyError (Py.repr band_code))
  end.

(** [if isinstance(kwargs[time], str): kwargs[time] = UTCDateTime(...)]. *)
Definition allow_time_string (X : externals) (kwargs : gmap string pyval)
    (time : string) : result (gmap string pyval) :=
  match kwargs !! time with
  | Some (PStr s) => rbind (UTCDateTime X s) (λ t, Ok (<[time := t]> kwargs))
  | Some _ => Ok kwargs
  | None => Raise (KeyError time)
  end.

(** The block under [if channel:], giving the widened arguments and
    the window to trim back to. *)
Definition expand (X : externals) (kwargs : gmap string pyval)
    : result (gmap string pyval * (pyval * pyval)) :=
  let item key := match kwargs !! key with
                  | Some v => Ok v
                  | None => Raise (KeyError key)
                  end in
  rbind (rbind (item "channel") getitem0) (λ band_code,
  rbind (item "starttime") (λ trim_start,
  rbind (item "endtime") (λ trim_end,
  rbind (rbind (two_samples X band_code) (time_sub X trim_start)) (λ t1,
  rbind (rbind (two_samples X band_code) (time_add X trim_end)) (λ t2,
  Ok (<["endtime" := t2]> (<["starttime" := t1]> kwargs),
      (trim_start, trim_end))))))).

Definition set_paz (paz : gmap string pazval) (tr : trace) : trace :=
  {| tr_pickled := tr_pickled tr; tr_paz := Some paz;
     tr_coordinates := tr_coordinates tr |}.

Definition set_coordinates (coords : gmap string oval) (tr : trace) : trace :=
  {| tr_pickled := tr_pickled tr; tr_paz := tr_paz tr;
     tr_coordinates := Some coords |}.

Section defs.
Context (X : externals) (self : client).

Definition getNetworkIds (kwargs : gmap string pyval) : M (list string) :=
  let url := "/seismology/waveform/getNetworkIds" in
  root ← Client._objectify X self url kwargs;
  lift (Objectify.column X "network" root).

Definition getStationIds (network : pyval) (kwargs : gmap string pyval)
    : M (list string) :=
  let kwargs := with_locals [("network", network)] kwargs in
  let url := "/seismology/waveform/getStationIds" in
  root ← Client._objectify X self url kwargs;
  lift (Objectify.column X "station" root).

Definition getLocationIds (network station : pyval)
    (kwargs : gmap string pyval) : M (list string) :=
  let kwargs := with_locals [("network", network); ("station", station)]
                  kwargs in
  let url := "/seismology/waveform/getLocationIds" in
  root ← Client._objectify X self url kwargs;
  lift (Objectify.column X "location" root).

Definition getChannelIds (network station location : pyval)
    (kwargs : gmap string pyval) : M (list string) :=
  let kwargs := with_locals [("network", network); ("station", station);
                             ("location", location)] kwargs in
  let url := "/seismology/waveform/getChannelIds" in
  root ← Client._objectify X self url kwargs;
  lift (Objectify.column X "channel" root).

Definition getLatency (network station location channel : pyval)
    (kwargs : gmap string pyval) : M (list (gmap string oval)) :=
  let kwargs := with_locals [("network", network); ("station", station);
                             ("location", location); ("channel", channel)]
                  kwargs in
  let url := "/seismology/waveform/getLatency" in
  root ← Client._objectify X self url kwargs;
  lift (Objectify.records X root).

(** The optional block under [if getPAZ:]. *)
Definition attach_paz (network station location channel starttime endtime
    metadata_timecheck : pyval) (stream : list trace) : M (list trace) :=
  paz ← _StationMapperClient.getPAZ X self network station starttime
          location channel (PBool false);
  _ ← (if Py.truthy metadata_timecheck then
         paz_check ← _StationMapperClient.getPAZ X self network station
                       endtime location channel (PBool false);
         if negb (dict_eqb (pazval_eqb X) paz paz_check) then
           raise (Exception_ ("PAZ information changing from start time to "
                              +:+ "end time."))
         else mret tt
       else mret tt);
  mret (set_paz paz <$> stream).

(** The optional block under [if getCoordinates:]. *)
Definition attach_coordinates (network station location starttime endtime
    metadata_timecheck : pyval) (stream : list trace) : M (list trace) :=
  coords ← _StationMapperClient.getCoordinates X self network station
             starttime location;
  _ ← (if Py.truthy metadata_timecheck then
         coords_check ← _StationMapperClient.getCoordinates X self network
                          station endtime location;
         if negb (dict_eqb (oval_eqb X) coords coords_check) then
           raise (Exception_ ("Coordinate information changing from start "
                              +:+ "time to end time."))
         else mret tt
       else mret tt);
  mret (set_coordinates coords <$> stream).

(** The arguments of the fetch and the window to trim back to: the
    lines from the loop over the local variables to the end of the block
    under [if channel:], none of which touches the world. *)
Definition fetch_arguments (network station location channel starttime endtime
    apply_filter getPAZ getCoordinates metadata_timecheck : pyval)
    (kwargs : gmap string pyval)
    : result (gmap string pyval * (pyval * pyval)) :=
  let kwargs :=
    with_locals [("network", network); ("station", station);
                 ("location", location); ("channel", channel);
                 ("starttime", starttime); ("endtime", endtime);
                 ("apply_filter", apply_filter); ("getPAZ", getPAZ);
                 ("getCoordinates", getCoordinates);
                 ("metadata_timecheck", metadata_timecheck)] kwargs in
  rbind (allow_time_string X kwargs "starttime") (λ kwargs,
  rbind (allow_time_string X kwargs "endtime") (λ kwargs,
  if Py.truthy channel then expand X kwargs
  else Ok (kwargs, (PNone, PNone)))).

Definition getWaveform (network station location channel starttime endtime
    apply_filter getPAZ getCoordinates metadata_timecheck : pyval)
    (kwargs : gmap string pyval) : M (list trace) :=
  '(kwargs, window) ←
    lift (fetch_arguments network station location channel starttime endtime
            apply_filter getPAZ getCoordinates metadata_timecheck kwargs);
  _ ← (if Py.truthy channel then mret tt
       else warn ("No channel id provided. Specifying a channel id can " +:+
                  "lead to better selection of first/last samples of " +:+
                  "fetched traces."));
  let url := "/seismology/waveform/getWaveform" in
  data ← Client._fetch X self url kwargs;
  if String.eqb data "" then raise (Exception_ "No waveform data available")
  else
    stream ← lift (loads X data);
    if Nat.eqb (length stream) 0
    then raise (Exception_ "No waveform data available")
    else
      stream ← (if Py.truthy channel
                then lift (trim X stream window.1 window.2)
                else mret stream);
      stream ← (if Py.truthy getPAZ
                then attach_paz network station location channel starttime
                       endtime metadata_timecheck stream
                else mret stream);
      stream ← (if Py.truthy getCoordinates
                then attach_coordinates network station location starttime
                       endtime metadata_timecheck stream
                else mret stream);
      mret stream.

Definition getPreview (network station location channel starttime endtime
    trace_ids : pyval) (kwargs : gmap string pyval) : M (list trace) :=
  let kwargs :=
    with_locals [("network", network); ("station", station);
                 ("location", location); ("channel", channel);
                 ("starttime", starttime); ("endtime", endtime);
                 ("trace_ids", trace_ids)] kwargs in
  let url := "/seismology/waveform/getPreview" in
  data ← Client._fetch X self url kwargs;
  if negb (Py.truthy (PStr data))
  then raise (Exception_ "No waveform data available")
  else
    stream ← lift (loads X data);
    mret stream.

(** [','.join(ids)]; every item has to be a string. *)
Definition join_ids (ids : list pyval) : result pyval :=
  rbind (rmap (λ v, match v with
                    | PStr s => Ok s
                    | _ => Raise (TypeError "sequence item: expected string")
                    end) ids)
        (λ l, Ok (PStr (Py.join "," l))).

Definition getPreviewByIds (trace_ids starttime endtime : pyval)
    (kwargs : gmap string pyval) : M (list trace) :=
  let kwargs :=
    with_locals [("trace_ids", trace_ids); ("starttime", starttime);
                 ("endtime", endtime)] kwargs in
  kwargs ← lift (match kwargs !! "trace_ids" with
                 | Some (PList ids) =>
                     rbind (join_ids ids)
                       (λ j, Ok (<["trace_ids" := j]> kwargs))
                 | _ => Ok kwargs
                 end);
  let url := "/seismology/waveform/getPreview" in
  data ← Client._fetch X self url kwargs;
  if negb (Py.truthy (PStr data))
  then raise (Exception_ "No waveform data available")
  else
    stream ← lift (loads X data);
    mret stream.

End defs.
End _WaveformMapperClient.

(** ** [_EventMapperClient] *)

Module _EventMapperClient.

Definition package : string := "seismology".
Definition resourcetype : string := "event".

(** The named parameters of [getList]; each defaults to [None]. *)
Definition getList_parameters : list string :=
  ["limit"; "offset"; "localization_method"; "account"; "user";
   "min_datetime"; "max_datetime"; "first_pick"; "last_pick";
   "min_latitude"; "max_latitude"; "min_longitude"; "max_longitude";
   "min_magnitude"; "max_magnitude"; "min_depth"; "max_depth"; "used_p";
   "min_used_p"; "max_used_p"; "used_s"; "min_used_s"; "max_used_s";
   "document_id"].

(** A call with keywords only: the named parameters are bound from
    the keywords or their default, then stored back by the loop over
    the local variables. *)
Definition bind_parameters (names : list string)
    (kwargs : gmap string pyval) : gmap string pyval :=
  foldl (λ kw name, <[name := default PNone (kwargs !! name)]> kw)
    kwargs names.

Definition leaf (tag text : string) : xmltree := Element tag [] text [].
Definition node (tag : string) (children : list xmltree) : xmltree :=
  Element tag [] "" children.

Definition interesting_keys : list string :=
  ["resource_name"; "localisation_method"; "account"; "user"; "public";
   "datetime"; "longitude"; "latitude"; "depth"; "magnitude"; "used_p";
   "used_s"].

Definition field (event_dict : gmap string oval) (key : string) : result oval :=
  match event_dict !! key with
  | Some v => Ok v
  | None => Raise (KeyError key)
  end.

(** The label and the icon size of a marker. *)
Definition label_and_size (X : externals) (date mag : string)
    : result (string * float) :=
  if Py.truthy (PStr mag) then
    match Lib.float_of_text X mag with
    | Some mag =>
        let label := date +:+ ": " +:+ Lib.format_f X 1 mag in
        let icon_size := match math_log X (1.5 + mag)%float with
                         | Some l => (1.2 * l)%float
                         | None => 0.1%float
                         end in
        Ok (label, icon_size)
    | None => Raise (ValueError "invalid literal for float()")
    end
  else Ok (date, 0.5%float).

(** One turn of [for event_dict in events]: the marker of an event. *)
Definition placemark (X : externals) (nolabels : pyval)
    (event_dict : gmap string oval) : result xmltree :=
  rbind (field event_dict "datetime") (λ dt,
  let date := Lib.before_space (Lib.ostr X dt) in
  rbind (field event_dict "magnitude") (λ mg,
  let mag := Lib.ostr X mg in
  rbind (label_and_size X date mag) (λ ls,
  let '(label, icon_size) := ls in
  let name := if Py.truthy nolabels then "" else label in
  rbind (field event_dict "longitude") (λ lon,
  rbind (field event_dict "latitude") (λ lat,
  rbind (Lib.format_f_val X 10 lon) (λ lon_text,
  rbind (Lib.format_f_val X 10 lat) (λ lat_text,
  let descrip_str :=
    foldl (λ acc key,
             match event_dict !! key with
             | Some v => acc +:+ Lib.nl +:+ key +:+ ": " +:+ Lib.ostr X v
             | None => acc
             end) "" interesting_keys in
  Ok (node "Placemark"
        [leaf "name" name;
         leaf "styleUrl" "#earthquake";
         node "Style"
           [node "IconStyle" [leaf "scale" (Lib.str_of_float X icon_size)];
            node "ListStyle" [leaf "maxSnippetLines" "5"]];
         node "Point"
           [leaf "coordinates" (lon_text +:+ "," +:+ lat_text +:+ ",0")];
         leaf "description" descrip_str])))))))).

(** The document around the markers. *)
Definition kml_document (base : string) (stamp : timestamp)
    (kwargs : gmap string pyval) (placemarks : list xmltree) : xmltree :=
  let descrip_str :=
    "Fetched from: " +:+ base +:+
    Lib.nl +:+ "Fetched at: " +:+ ts_str stamp +:+
    Lib.nl +:+ Lib.nl +:+ "Search options:" +:+ Lib.nl +:+
    Py.join Lib.nl
      ((λ kv, Py.join "=" [kv.1; Py.str kv.2]) <$> map_to_list kwargs) in
  Element "kml" [("xmlns", "http://www.opengis.net/kml/2.2")] ""
    [node "Document"
       [leaf "name" "Seishub Event Locations";
        Element "Style" [("id", "earthquake")] ""
          [node "IconStyle"
             [leaf "scale" "0.5";
              node "Icon"
                [leaf "href"
                   "http://maps.google.com/mapfiles/kml/shapes/earthquake.png"];
              Element "hotSpot"
                [("x", "0.5"); ("y", "0"); ("xunits", "fraction");
                 ("yunits", "fraction")] "" []];
           node "LabelStyle"
             [leaf "color" "ff0000ff"; leaf "scale" "0.8"]];
        node "Folder"
          ([leaf "name" ("SeisHub Events (" +:+ ts_date stamp +:+ ")");
            leaf "open" "1";
            leaf "description" descrip_str;
            node "Style"
              [node "ListStyle"
                 [leaf "listItemType" "check";
                  leaf "bgColor" "00ffffff";
                  leaf "maxSnippetLines" "5"]]]
           ++ placemarks)]].

Section defs.
Context (X : externals) (self : client).

Definition getList (kwargs : gmap string pyval)
    : M (list (gmap string oval)) :=
  let kwargs := bind_parameters getList_parameters kwargs in
  let url := "/seismology/event/getList" in
  root ← Client._objectify X self url kwargs;
  lift (Objectify.records X root).

Definition datetime_now : M timestamp := λ w, (Ok (now w), w).

Definition getKML (nolabels : pyval) (kwargs : gmap string pyval)
    : M string :=
  events ← getList kwargs;
  stamp ← datetime_now;
  placemarks ← lift (rmap (placemark X nolabels) events);
  mret (tostring X (kml_document (base_url self) stamp kwargs placemarks)).

(** The deprecated [getKml]. *)
Definition getKml (nolabels : pyval) (kwargs : gmap string pyval)
    : M string :=
  getKML nolabels kwargs.

Definition lexists (filename : string) : M bool :=
  λ w, (Ok (bool_decide (is_Some (files w !! filename))), w).

(** [open(filename, "wt").write(kml_string)]. *)
Definition write_file (filename content : string) : M unit :=
  λ w, (Ok tt, written filename content w).

Definition saveKML (filename : string) (overwrite : pyval)
    (kwargs : gmap string pyval) : M unit :=
  bind (if negb (Py.truthy overwrite) then lexists filename
        else ret false)
    (λ there : bool,
       if there then
         raise (OSError ("File " +:+ filename +:+
                         " exists and overwrite=False."))
       else
         kml_string ← getKML (default (PBool false) (kwargs !! "nolabels"))
                        (delete "nolabels" kwargs);
         write_file filename kml_string).

End defs.
End _EventMapperClient.

(** ** Requests and the operations that issue them *)

Module Requests.

(** What a computation adds to the requests sent: every request it
    issues, from any world, satisfies [P]. *)
Definition sends {A} (P : request → Prop) (m : M A) : Prop :=
  ∀ w, ∃ new, sent (m w).2 = (sent w ++ new)%list ∧ Forall P new.

(** A computation that leaves the files alone. *)
Definition keeps_files {A} (m : M A) : Prop :=
  ∀ w, files (m w).2 = files w.

(** The operations of the three mapper clients, by resource type. *)
Definition mapper_operations : list (string * string) :=
  [("waveform", "getNetworkIds"); ("waveform", "getStationIds");
   ("waveform", "getLocationIds"); ("waveform", "getChannelIds");
   ("waveform", "getLatency"); ("waveform", "getWaveform");
   ("waveform", "getPreview"); ("station", "getList"); ("event", "getList")].

(** A GET to [{base_url}/seismology/{resourcetype}/{operation}?{query}]. *)
Definition mapper_request (self : client) (r : request) : Prop :=
  ∃ rt op qs, (rt, op) ∈ mapper_operations ∧
    req_method r = "GET" ∧
    req_url r = base_url self +:+ "/seismology/" +:+ rt +:+ "/" +:+ op +:+
                "?" +:+ qs.

(** A request to [{base_url}/xml/{package}/{resourcetype}/{name}], with
    a query string when it is a fetch. *)
Definition resource_request (self : client) (r : request) : Prop :=
  ∃ pkg rt name, (pkg, rt) ∈ [("seismology", "station"); ("seismology", "event")] ∧
    ((req_method r = "GET" ∧ ∃ qs,
        req_url r = base_url self +:+ "/xml/" +:+ pkg +:+ "/" +:+ rt +:+ "/"
                    +:+ name +:+ "?" +:+ qs) ∨
     (req_method r ∈ ["PUT"; "DELETE"] ∧
        req_url r = base_url self +:+ "/xml/" +:+ pkg +:+ "/" +:+ rt +:+ "/"
                    +:+ name)).

Definition either (self : client) (r : request) : Prop :=
  mapper_request self r ∨ resource_request self r.

(** The scheme as the claim words it. *)
Definition follows_xml_scheme (self : client) (r : request) : Prop :=
  ∃ pkg rt op qs,
    req_url r = base_url self +:+ "/xml/" +:+ pkg +:+ "/" +:+ rt +:+ "/" +:+ op
                +:+ "?" +:+ qs.

(** What a computation adds to the requests sent, taken together: from
    any world, the requests it issues, in their order, satisfy [Q]. *)
Definition issues {A} (Q : list request → Prop) (m : M A) : Prop :=
  ∀ w, ∃ new, sent (m w).2 = (sent w ++ new)%list ∧ Q new.

(** A GET to [{base_url}/seismology/{rt}/{op}?{query}]. *)
Definition operation_request (self : client) (rt op : string) (r : request)
    : Prop :=
  req_method r = "GET" ∧
  ∃ qs, req_url r = base_url self +:+ "/seismology/" +:+ rt +:+ "/" +:+ op
                    +:+ "?" +:+ qs.

(** A GET to [{base_url}/xml/seismology/station/{name}?{query}]. *)
Definition station_resource_request (self : client) (r : request) : Prop :=
  req_method r = "GET" ∧
  ∃ name qs, req_url r = base_url self +:+ "/xml/seismology/station/" +:+ name
                         +:+ "?" +:+ qs.

(** The one request of a listing of stations. *)
Definition listing_request (self : client) (new : list request) : Prop :=
  ∃ m, operation_request self "station" "getList" m ∧ new = [m].

(** The requests of one [getPAZ]: the stations are asked of the mapper
    and then, at most, one station resource under [/xml]. *)
Definition paz_requests (self : client) (new : list request) : Prop :=
  ∃ m, operation_request self "station" "getList" m ∧
       (new = [m] ∨ ∃ r, station_resource_request self r ∧ new = [m; r]).

(** At most [k] rounds of requests, one after the other, each as [round]
    has it. *)
Definition rounds (round : list request → Prop) (k : nat)
    (new : list request) : Prop :=
  ∃ blocks, new = concat blocks ∧ (length blocks ≤ k)%nat ∧
            Forall round blocks.

(** The requests of [getWaveform]: none when its arguments are refused;
    else the stream is asked of the mapper, and after it come at most two
    rounds of [getPAZ] and then at most two listings for the
    coordinates. *)
Definition waveform_requests (self : client) (new : list request) : Prop :=
  new = [] ∨
  ∃ m pazs coords,
    operation_request self "waveform" "getWaveform" m ∧
    new = (m :: pazs ++ coords)%list ∧
    rounds (paz_requests self) 2 pazs ∧
    rounds (listing_request self) 2 coords.

(** A call of a public method of a mapper client, with its arguments. *)
Inductive call : Type :=
  | WGetNetworkIds (kwargs : gmap string pyval)
  | WGetStationIds (network : pyval) (kwargs : gmap string pyval)
  | WGetLocationIds (network station : pyval) (kwargs : gmap string pyval)
  | WGetChannelIds (network station location : pyval)
      (kwargs : gmap string pyval)
  | WGetLatency (network station location channel : pyval)
      (kwargs : gmap string pyval)
  | WGetWaveform (network station location channel starttime endtime
      apply_filter getPAZ getCoordinates metadata_timecheck : pyval)
      (kwargs : gmap string pyval)
  | WGetPreview (network station location channel starttime endtime
      trace_ids : pyval) (kwargs : gmap string pyval)
  | WGetPreviewByIds (trace_ids starttime endtime : pyval)
      (kwargs : gmap string pyval)
  | SGetList (network station : pyval) (kwargs : gmap string pyval)
  | SGetCoordinates (network station datetime location : pyval)
  | SGetPAZ (network station datetime location channel seismometer_gain : pyval)
  | EGetList (kwargs : gmap string pyval)
  | EGetKML (nolabels : pyval) (kwargs : gmap string pyval)
  | ESaveKML (filename : string) (overwrite : pyval)
      (kwargs : gmap string pyval)
  | RGetResource (event : bool) (resource_name : string) (format : pyval)
      (kwargs : gmap string pyval)
  | RGetXMLResource (event : bool) (resource_name : string)
      (kwargs : gmap string pyval)
  | RPutResource (event : bool) (resource_name xml_string : string)
      (headers : list (string * string))
  | RDeleteResource (event : bool) (resource_name : string)
      (headers : list (string * string)).

Inductive kind : Type := Mapper | Resource | Both.

Definition kind_of (c : call) : kind :=
  match c with
  | RGetResource _ _ _ _ | RGetXMLResource _ _ _ | RPutResource _ _ _ _
  | RDeleteResource _ _ _ => Resource
  | WGetWaveform _ _ _ _ _ _ _ _ _ _ _ | SGetPAZ _ _ _ _ _ _ => Both
  | _ => Mapper
  end.

(** The requests of the two operations that use both schemes. *)
Definition mixed_requests (self : client) (c : call) : list request → Prop :=
  match c with
  | SGetPAZ _ _ _ _ _ _ => paz_requests self
  | _ => waveform_requests self
  end.

Definition done {A} (m : M A) : M unit := _ ← m; mret tt.

Definition resourcetype_of (event : bool) : string :=
  if event then _EventMapperClient.resourcetype
  else _StationMapperClient.resourcetype.

Definition perform (X : externals) (self : client) (c : call) : M unit :=
  match c with
  | WGetNetworkIds kw => done (_WaveformMapperClient.getNetworkIds X self kw)
  | WGetStationIds n kw => done (_WaveformMapperClient.getStationIds X self n kw)
  | WGetLocationIds n s kw =>
      done (_WaveformMapperClient.getLocationIds X self n s kw)
  | WGetChannelIds n s l kw =>
      done (_WaveformMapperClient.getChannelIds X self n s l kw)
  | WGetLatency n s l c kw =>
      done (_WaveformMapperClient.getLatency X self n s l c kw)
  | WGetWaveform n s l c t1 t2 af gp gc mt kw =>
      done (_WaveformMapperClient.getWaveform X self n s l c t1 t2 af gp gc mt kw)
  | WGetPreview n s l c t1 t2 ids kw =>
      done (_WaveformMapperClient.getPreview X self n s l c t1 t2 ids kw)
  | WGetPreviewByIds ids t1 t2 kw =>
      done (_WaveformMapperClient.getPreviewByIds X self ids t1 t2 kw)
  | SGetList n s kw => done (_StationMapperClient.getList X self n s kw)
  | SGetCoordinates n s t l =>
      done (_StationMapperClient.getCoordinates X self n s t l)
  | SGetPAZ n s t l c g => done (_StationMapperClient.getPAZ X self n s t l c g)
  | EGetList kw => done (_EventMapperClient.getList X self kw)
  | EGetKML nl kw => done (_EventMapperClient.getKML X self nl kw)
  | ESaveKML f o kw => done (_EventMapperClient.saveKML X self f o kw)
  | RGetResource ev name fmt kw =>
      done (_BaseRESTClient.getResource X self "seismology"
              (resourcetype_of ev) name fmt kw)
  | RGetXMLResource ev name kw =>
      done (_BaseRESTClient.getXMLResource X self "seismology"
              (resourcetype_of ev) name kw)
  | RPutResource ev name xml headers =>
      done (_BaseRESTClient.putResource X self "seismology"
              (resourcetype_of ev) name xml headers)
  | RDeleteResource ev name headers =>
      done (_BaseRESTClient.deleteResource X self "seismology"
              (resourcetype_of ev) name headers)
  end.

End Requests.

(** ** Reading an element tree *)


Module Xml.

Definition tag (t : xmltree) : string := let 'Element n _ _ _ := t in n.
Definition text (t : xmltree) : string := let 'Element _ _ x _ := t in x.
Definition children (t : xmltree) : list xmltree :=
  let 'Element _ _ _ c := t in c.

(** The first child called [name]. *)
Definition child (name : string) (t : xmltree) : option xmltree :=
  head (filter (λ c, tag c = name) (children t)).

(** The text at the end of a path of tags. *)
Fixpoint text_at (path : list string) (t : xmltree) : option string :=
  match path with
  | [] => Some (text t)
  | name :: path' =>
      match child name t with
      | Some c => text_at path' c
      | None => None
      end
  end.

End Xml.

(** ** A small environment for the examples *)

Module Sample.

Definition self : client :=
  {| base_url := "http://localhost:8080"; timeout := 10 |}.

Definition leaf (tag text : string) : oelem := OElem tag text [].

(** The answer to [getList] of the station mapper: one station. *)
Definition stations : oelem :=
  OElem "ResultSet" ""
    [OElem "Item" ""
       [leaf "resource_name" "dataless.seed.BW_MANZ.xml";
        leaf "network_id" "BW"; leaf "station_id" "MANZ";
        leaf "latitude" "48.0"; leaf "longitude" "11.5";
        leaf "elevation" "0.0"]].

(** A pole block that lists two real parts and one imaginary part. *)
Definition complex_pole : oelem :=
  OElem "complex_pole" ""
    [leaf "real_pole" "1.0"; leaf "real_pole" "2.0";
     leaf "imaginary_pole" "0.0"].

Definition complex_zero : oelem :=
  OElem "complex_zero" ""
    [leaf "real_zero" "0.0"; leaf "imaginary_zero" "0.0"].

Definition poles_and_zeros : oelem :=
  OElem "response_poles_and_zeros" ""
    [leaf "A0_normalization_factor" "1.0"; complex_zero; complex_pole].

Definition gain (stage value : string) : oelem :=
  OElem "channel_sensitivity_gain" ""
    [leaf "stage_sequence_number" stage; leaf "sensitivity_gain" value].

(** A station resource with one channel, EHZ at the empty location. *)
Definition resource : oelem :=
  OElem "xseed" ""
    [OElem "station_control_header" ""
       [OElem "channel_identifier" ""
          [leaf "location_identifier" ""; leaf "channel_identifier" "EHZ"];
        poles_and_zeros; gain "1" "2.0"; gain "0" "5.0"]].

(** The answer to [getList] of the event mapper: one event. *)
Definition events : oelem :=
  OElem "ResultSet" ""
    [OElem "Item" ""
       [leaf "datetime" "2020-01-01 12:00:00"; leaf "magnitude" "5.0";
        leaf "longitude" "11.5"; leaf "latitude" "48.0"]].

Definition occurs (part s : string) : bool :=
  bool_decide (is_Some (String.index 0 part s)).

(** The server answers by the kind of address asked for. *)
Definition server (history : list request) (r : request) : reply :=
  if occurs "/xml/" (req_url r) then Response 200 "OK" "resource"
  else if occurs "/station/" (req_url r) then Response 200 "OK" "stations"
  else if occurs "/event/" (req_url r) then Response 200 "OK" "events"
  else if occurs "/getPreview" (req_url r) then Response 200 "OK" "no traces"
  else Response 200 "OK" "".

Definition parse (doc : string) : result oelem :=
  if String.eqb doc "resource" then Ok resource
  else if String.eqb doc "stations" then Ok stations
  else if String.eqb doc "events" then Ok events
  else Raise (ExternalError "XMLSyntaxError").

(** The numbers that occur in the documents above. *)
Definition typed (text : string) : oval :=
  if String.eqb text "0.0" then OFloat 0
  else if String.eqb text "1.0" then OFloat 1
  else if String.eqb text "2.0" then OFloat 2
  else if String.eqb text "5.0" then OFloat 5
  else if String.eqb text "11.5" then OFloat 11.5
  else if String.eqb text "48.0" then OFloat 48
  else OStr text.

(** [math.log] at the one argument the examples reach, 1.5 + 5.0. *)
Definition log_table (x : float) : option float :=
  if PrimFloat.eqb x 6.5 then Some 0x1.df2e6d6e5fbaap+0%float else None.

(** [str] of the floats that the examples print. *)
Definition float_text (f : float) : string :=
  if PrimFloat.eqb f 5 then "5.0"
  else if PrimFloat.eqb f 11.5 then "11.5"
  else if PrimFloat.eqb f 48 then "48.0"
  else if PrimFloat.eqb f 0.5 then "0.5"
  else if PrimFloat.eqb f 0.1 then "0.1"
  else if PrimFloat.eqb f (1.2 * 0x1.df2e6d6e5fbaap+0) then "2.24616261228"
  else "nan".

Definition unpickle (data : string) : result (list trace) :=
  if String.eqb data "no traces" then Ok []
  else Raise (ExternalError "UnpicklingError").

#[warnings="-register-all"]
Fixpoint serialize (t : xmltree) : string :=
  let 'Element tag attrib text children := t in
  "<" +:+ tag +:+
  Py.join "" ((λ a, " " +:+ a.1 +:+ "='" +:+ a.2 +:+ "'") <$> attrib) +:+ ">"
  +:+ text +:+ Py.join "" (map serialize children) +:+ "</" +:+ tag +:+ ">".

Definition X : externals := {|
  urlopen := server;
  fromstring := parse;
  pyval_of := typed;
  loads := unpickle;
  trim := λ stream _ _, Ok stream;
  UTCDateTime := λ s, Ok (PObj true s ("UTCDateTime(" +:+ s +:+ ")"));
  time_sub := λ t _, Ok t;
  time_add := λ t _, Ok t;
  BAND_CODE := λ c, if String.eqb c "E" then Some 100%float else None;
  xpath := λ _ _, Raise (ExternalError "XPathEvalError");
  str_float := float_text;
  float_of_str := λ s, if String.eqb s "5.0" then Some 5%float else None;
  math_log := log_table;
  float_of_int := λ n, if n <? 0
                       then (- PrimFloat.of_uint63 (Uint63.of_Z (- n)))%float
                       else PrimFloat.of_uint63 (Uint63.of_Z n);
  format_g := λ _ _, "inf";
  tostring := serialize
|}.

(** The same environment with a server that gives one answer to all. *)
Definition answering (body : string) : externals := {|
  urlopen := λ _ _, Response 200 "OK" body;
  fromstring := fromstring X;
  pyval_of := pyval_of X;
  loads := loads X;
  trim := trim X;
  UTCDateTime := UTCDateTime X;
  time_sub := time_sub X;
  time_add := time_add X;
  BAND_CODE := BAND_CODE X;
  xpath := xpath X;
  str_float := str_float X;
  float_of_str := float_of_str X;
  math_log := math_log X;
  float_of_int := float_of_int X;
  format_g := format_g X;
  tostring := tostring X
|}.

Definition world0 : world :=
  {| sent := []; files := {[ "old.kml" := "kept" ]}; warned := [];
     now := {| ts_date := "2020-02-02"; ts_str := "2020-02-02 10:00:00" |} |}.

End Sample.

(** ** Notions used by the further properties *)

Module Collisions.
Import Params.

(** No two arguments write the same parameter name: a range under [k]
    and an argument called [min_k], say, would. *)
Definition collision_free (kwargs : gmap string pyval) : Prop :=
  ∀ k1 v1 k2 v2 q s1 s2,
    kwargs !! k1 = Some v1 → kwargs !! k2 = Some v2 →
    (q, s1) ∈ writes (k1, v1) → (q, s2) ∈ writes (k2, v2) → k1 = k2.

(** The names written for the arguments, in the order of the loop. *)
Definition written_names (kwargs : gmap string pyval) : list string :=
  (map_to_list kwargs ≫= writes).*1.

End Collisions.

Module Status.

(** What [_HTTP_request] makes of the answer of [urllib2.urlopen]: the
    status of a response and of an [HTTPError] alike. *)
Definition of_reply (r : reply) : result (Z * string) :=
  match r with
  | Response code msg _ | HTTPFailure code msg => Ok (code, msg)
  | Unreachable => Raise URLError
  end.

(** The address of a resource. *)
Definition address (self : client) (package resourcetype resource_name : string)
    : string :=
  base_url self +:+ "/xml/" +:+ package +:+ "/" +:+ resourcetype +:+ "/" +:+
  resource_name.

End Status.

Module Station.

Definition has_wildcard (s : string) : bool :=
  Py.contains "*" s || Py.contains "?" s.

(** The world after the warning that is given for more than one
    record. *)
Definition more_than_one {A} (rest : list A) (msg : string) (w : world)
    : world :=
  if decide (rest = []) then w else warned_of msg w.

End Station.

Module Waveform.

(** The arguments of [getWaveform] after the loop over its local
    variables. *)
Definition arguments (network station location channel starttime endtime
    apply_filter getPAZ getCoordinates metadata_timecheck : pyval)
    (kwargs : gmap string pyval) : gmap string pyval :=
  with_locals [("network", network); ("station", station);
               ("location", location); ("channel", channel);
               ("starttime", starttime); ("endtime", endtime);
               ("apply_filter", apply_filter); ("getPAZ", getPAZ);
               ("getCoordinates", getCoordinates);
               ("metadata_timecheck", metadata_timecheck)] kwargs.

Definition no_channel_warning : string :=
  "No channel id provided. Specifying a channel id can " +:+
  "lead to better selection of first/last samples of " +:+
  "fetched traces.".

Definition request (self : client) (kwargs : gmap string pyval) : request :=
  Client.get_request
    (Client.remoteaddr self "/seismology/waveform/getWaveform" kwargs).

(** The parameters of [getWaveform] that steer the client and are no
    search terms. *)
Definition options (apply_filter getPAZ getCoordinates metadata_timecheck
    : pyval) : list (string * pyval) :=
  [("apply_filter", apply_filter); ("getPAZ", getPAZ);
   ("getCoordinates", getCoordinates);
   ("metadata_timecheck", metadata_timecheck)].

(** The time that [getWaveform] takes an argument for: a string goes
    through [UTCDateTime], anything else stands for itself. *)
Definition as_time (X : externals) (t : pyval) : result pyval :=
  match t with
  | PStr text => UTCDateTime X text
  | _ => Ok t
  end.

(** What [getWaveform] does with the stream after [trim]: the blocks
    under [if getPAZ:] and [if getCoordinates:]. *)
Definition enrich (X : externals) (self : client)
    (network station location channel starttime endtime getPAZ getCoordinates
     metadata_timecheck : pyval) (stream : list trace) : M (list trace) :=
  stream ← (if Py.truthy getPAZ
            then _WaveformMapperClient.attach_paz X self network station
                   location channel starttime endtime metadata_timecheck stream
            else mret stream);
  stream ← (if Py.truthy getCoordinates
            then _WaveformMapperClient.attach_coordinates X self network
                   station location starttime endtime metadata_timecheck stream
            else mret stream);
  mret stream.

End Waveform.

Module Kml.

(** The markers of a document: the [Placemark] children of its folder. *)
Definition placemarks (doc : xmltree) : list xmltree :=
  match Xml.child "Document" doc with
  | Some document =>
      match Xml.child "Folder" document with
      | Some folder =>
          filter (λ c, Xml.tag c = "Placemark") (Xml.children folder)
      | None => []
      end
  | None => []
  end.

(** [1.2 * log(1.5 + mag)], or 0.1 where [log] raises [ValueError]. *)
Definition icon_size (X : externals) (mag : float) : float :=
  match math_log X (1.5 + mag)%float with
  | Some l => (1.2 * l)%float
  | None => 0.1%float
  end.

End Kml.

Module Listing.

(** [ids] holds, node by node, [str] of the first child called
    [field]. *)
Definition lists (X : externals) (field : string) (root : oelem)
    (ids : list string) : Prop :=
  Forall2 (λ node id, ∃ c, Objectify.child field node = Ok c ∧
                           id = Objectify.str X c)
    (Objectify.getchildren root) ids.

End Listing.

(** ** Further examples *)

Module Fixture.

(** The environment of [Sample] with another server, parser and
    unpickler; [trim] keeps the first trace, and the time arithmetic
    shows in the text of its result. *)
Definition custom (server : list request → request → reply)
    (parse : string → result oelem)
    (unpickle : string → result (list trace)) : externals := {|
  urlopen := server;
  fromstring := parse;
  pyval_of := pyval_of Sample.X;
  loads := unpickle;
  trim := λ stream _ _, Ok (take 1 stream);
  UTCDateTime := UTCDateTime Sample.X;
  time_sub := λ t _, Ok (PObj true (Py.str t +:+ " - 0.02") "");
  time_add := λ t _, Ok (PObj true (Py.str t +:+ " + 0.02") "");
  BAND_CODE := BAND_CODE Sample.X;
  xpath := xpath Sample.X;
  str_float := str_float Sample.X;
  float_of_str := float_of_str Sample.X;
  math_log := math_log Sample.X;
  float_of_int := float_of_int Sample.X;
  format_g := format_g Sample.X;
  tostring := tostring Sample.X
|}.

(** A server whose every answer is [body], decoded as [root] and
    unpickled as [stream]. *)
Definition answering (body : string) (root : oelem) (stream : list trace)
    : externals :=
  custom (λ _ _, Response 200 "OK" body) (λ _, Ok root) (λ _, Ok stream).

Definition item (network station latitude : string) : oelem :=
  OElem "Item" ""
    [Sample.leaf "resource_name" ("dataless.seed." +:+ network +:+ "_" +:+
                                  station +:+ ".xml");
     Sample.leaf "network_id" network; Sample.leaf "station_id" station;
     Sample.leaf "latitude" latitude; Sample.leaf "longitude" "11.5";
     Sample.leaf "elevation" "0.0"].

(** Answers to [getList] of the station mapper: no record, two records. *)
Definition no_stations : oelem := OElem "ResultSet" "" [].
Definition two_stations : oelem :=
  OElem "ResultSet" "" [item "BW" "MANZ" "48.0"; item "BW" "MANZ" "5.0"].

(** What [getList] of the station mapper gives for the two records. *)
Definition two_stations_run : result (list (gmap string oval)) * world :=
  _StationMapperClient.getList (answering "two" two_stations []) Sample.self
    (PStr "BW") (PStr "MANZ")
    {[ "datetime" := PStr "2010-01-01"; "location" := PStr "" ]} Sample.world0.

Definition two_records : list (gmap string oval) :=
  match two_stations_run.1 with Ok l => l | Raise _ => [] end.

Definition identifier : oelem :=
  OElem "channel_identifier" ""
    [Sample.leaf "location_identifier" "";
     Sample.leaf "channel_identifier" "EHZ"].

(** The header of [Sample.resource], and one whose channel has no
    stage-1 gain block. *)
Definition header : oelem :=
  OElem "station_control_header" ""
    [identifier; Sample.poles_and_zeros; Sample.gain "1" "2.0";
     Sample.gain "0" "5.0"].

Definition header_without_stage_one : oelem :=
  OElem "station_control_header" ""
    [identifier; Sample.poles_and_zeros; Sample.gain "0" "5.0"].

(** What [getPAZ] passes through on the sample server: the listing of
    the station and the resource it names. *)
Definition station_run : result (list (gmap string oval)) * world :=
  _StationMapperClient.getList Sample.X Sample.self (PStr "BW") (PStr "MANZ")
    {[ "datetime" := PStr "2010-01-01" ]} Sample.world0.

Definition station_record : gmap string oval :=
  match station_run.1 with Ok (r :: _) => r | _ => ∅ end.

Definition resource_run : result oelem * world :=
  _BaseRESTClient.getXMLResource Sample.X Sample.self
    _StationMapperClient.package _StationMapperClient.resourcetype
    "dataless.seed.BW_MANZ.xml" ∅ station_run.2.

(** An answer to [getList] of the event mapper: two events, the second
    without a magnitude. *)
Definition events_one_bad : oelem :=
  OElem "ResultSet" ""
    [OElem "Item" ""
       [Sample.leaf "datetime" "2020-01-01 12:00:00";
        Sample.leaf "magnitude" "5.0"; Sample.leaf "longitude" "11.5";
        Sample.leaf "latitude" "48.0"];
     OElem "Item" ""
       [Sample.leaf "datetime" "2020-01-02 12:00:00";
        Sample.leaf "longitude" "11.5"; Sample.leaf "latitude" "48.0"]].

Definition event : gmap string oval :=
  {[ "datetime" := OStr "2020-01-01 12:00:00"; "magnitude" := OFloat 5;
     "longitude" := OFloat 11.5; "latitude" := OFloat 48 ]}.

Definition bad_event : gmap string oval :=
  {[ "datetime" := OStr "2020-01-02 12:00:00";
     "longitude" := OFloat 11.5; "latitude" := OFloat 48 ]}.

(** An answer to [getNetworkIds]. *)
Definition networks : oelem :=
  OElem "ResultSet" ""
    [OElem "Item" "" [Sample.leaf "network" "BW"];
     OElem "Item" "" [Sample.leaf "network" "GR"]].

Definition kwargs : gmap string pyval :=
  {[ "network" := PStr "BW"; "station_id" := PStr "MANZ";
     "datetime" := PTuple [PStr "2010-01-01"; PStr "2010-02-01"];
     "limit" := PInt 5; "offset" := PNone ]}.

Definition trace_of (id : string) : trace :=
  {| tr_pickled := id; tr_paz := None; tr_coordinates := None |}.

Definition stream : list trace :=
  [trace_of "BW.MANZ..EHZ"; trace_of "BW.MANZ..EHN"].

Definition starttime : pyval :=
  PObj true "2010-01-01T00:00:00" "UTCDateTime(2010, 1, 1, 0, 0)".
Definition endtime : pyval :=
  PObj true "2010-01-01T00:01:00" "UTCDateTime(2010, 1, 1, 0, 1)".

(** A server that answers with a stream of no traces, and the
    arguments [getWaveform] fetches with for channel EHZ with all
    options set. *)
Definition silent : externals := answering "pickle" no_stations [].

Definition fetched : gmap string pyval * (pyval * pyval) :=
  match _WaveformMapperClient.fetch_arguments silent (PStr "BW") (PStr "MANZ")
          (PStr "") (PStr "EHZ") starttime endtime (PBool false) (PBool true)
          (PBool true) (PBool true) ∅ with
  | Ok args => args
  | Raise _ => (∅, (PNone, PNone))
  end.

(** The response dictionary and the marker that the samples give. *)
Definition paz : gmap string pazval :=
  match _StationMapperClient.build_paz Sample.X Sample.poles_and_zeros
          (Sample.gain "0" "5.0") (Sample.gain "1" "2.0") (PBool true) with
  | Ok paz => paz
  | Raise _ => ∅
  end.

Definition marker : xmltree :=
  match _EventMapperClient.placemark Sample.X (PBool false) event with
  | Ok pm => pm
  | Raise _ => _EventMapperClient.node "Placemark" []
  end.

End Fixture.

(** * Properties *)

(** ** Parameter normalisation *)

Module ParamsFacts.
Import Params.

Example str_of_values :
  Py.str (PTuple [PInt 1; PStr "it's"; PNone])
    = "(1, " +:+ String Py.dquote "it's" +:+ String Py.dquote ", None)" ∧
  Py.str (PTuple [PInt (-7)]) = "(-7,)" ∧
  Py.str (PList [PStr "a\b"; PBool true]) = "['a\\b', True]" ∧
  Py.str (PStr "BW") = "BW".
Proof. repeat split; vm_compute; reflexivity. Qed.

Example fetch_params_of_a_call :
  fetch_params {[ "network" := PStr "BW"; "station" := PStr "";
                  "location" := PNone; "apply_filter" := PBool false;
                  "datetime" := PTuple [PInt 1; PInt 2]; "limit" := PInt 10 ]}
    = {[ "network_id" := "BW"; "min_datetime" := "1"; "max_datetime" := "2";
         "limit" := "10" ]}.
Proof. vm_compute. reflexivity. Qed.

Example urlencode_escapes :
  Lib.urlencode {[ "a b" := "x/y&z" ]} = "a+b=x%2Fy%26z".
Proof. vm_compute. reflexivity. Qed.

Lemma fold_param_writes params kv :
  fold_param params kv = foldl assign params (writes kv).
Proof.
  destruct kv as [k v]. unfold fold_param, writes, is_range; simpl.
  destruct (Py.truthy v); simpl; [|reflexivity].
  destruct (Py.isinstance_tuple v), (Py.isinstance_list v),
    (Nat.eqb (Py.len v) 2); reflexivity.
Qed.

Lemma foldl_assign ws acc :
  foldl assign acc ws = list_to_map (reverse ws) ∪ acc.
Proof.
  revert acc. induction ws as [|[k s] ws IH]; intros acc; simpl.
  - by rewrite (left_id_L ∅ (∪)).
  - rewrite IH, reverse_cons, list_to_map_app. simpl.
    unfold assign; simpl.
    rewrite <-(assoc_L (∪)). f_equal.
    rewrite insert_empty. by rewrite <-insert_union_singleton_l.
Qed.

Lemma foldl_fold_param l acc :
  foldl fold_param acc l = foldl assign acc (l ≫= writes).
Proof.
  revert acc. induction l as [|kv l IH]; intros acc; simpl; [done|].
  by rewrite foldl_app, <-fold_param_writes, IH.
Qed.

Lemma fold_params_writes kwargs :
  fold_params kwargs = list_to_map (reverse (map_to_list kwargs ≫= writes)).
Proof.
  unfold fold_params.
  by rewrite foldl_fold_param, foldl_assign, (right_id_L ∅ (∪)).
Qed.

Lemma elem_of_all_writes (kwargs : gmap string pyval) q s :
  (q, s) ∈ map_to_list kwargs ≫= writes ↔
  ∃ k v, kwargs !! k = Some v ∧ (q, s) ∈ writes (k, v).
Proof.
  rewrite list_elem_of_bind. split.
  - intros [[k v] [Hw Hin]]. exists k, v.
    by rewrite <-elem_of_map_to_list.
  - intros (k & v & Hl & Hw). exists (k, v).
    by rewrite elem_of_map_to_list.
Qed.

(** Every entry of the result was written for some argument. *)
Lemma fold_params_lookup_Some (kwargs : gmap string pyval) q s :
  fold_params kwargs !! q = Some s →
  ∃ k v, kwargs !! k = Some v ∧ (q, s) ∈ writes (k, v).
Proof.
  rewrite fold_params_writes. intros H.
  apply elem_of_list_to_map_2 in H. rewrite elem_of_reverse in H.
  by apply elem_of_all_writes.
Qed.

Lemma fold_params_lookup_None (kwargs : gmap string pyval) q :
  (∀ k v s, kwargs !! k = Some v → (q, s) ∉ writes (k, v)) →
  fold_params kwargs !! q = None.
Proof.
  intros H. destruct (fold_params kwargs !! q) as [s|] eqn:E; [|done].
  apply fold_params_lookup_Some in E as (k & v & Hk & Hw).
  by destruct (H k v s Hk).
Qed.

(** When all writes to [q] agree, the result holds that value. *)
Lemma fold_params_lookup_agree (kwargs : gmap string pyval) k v q s :
  kwargs !! k = Some v → (q, s) ∈ writes (k, v) →
  (∀ k' v' s', kwargs !! k' = Some v' → (q, s') ∈ writes (k', v') → s' = s) →
  fold_params kwargs !! q = Some s.
Proof.
  intros Hk Hw Hall.
  destruct (fold_params kwargs !! q) as [s'|] eqn:E.
  - apply fold_params_lookup_Some in E as (k' & v' & Hk' & Hw').
    by rewrite (Hall k' v' s' Hk' Hw').
  - rewrite fold_params_writes in E.
    apply not_elem_of_list_to_map in E. exfalso. apply E.
    apply list_elem_of_fmap. exists (q, s). split; [done|].
    apply elem_of_reverse, elem_of_all_writes. eauto.
Qed.

Lemma elem_of_writes q s k v :
  (q, s) ∈ writes (k, v) ↔
  Py.truthy v = true ∧
  if is_range v
  then (q = "min_" +:+ k ∧ s = Py.str (Py.item v 0)) ∨
       (q = "max_" +:+ k ∧ s = Py.str (Py.item v 1))
  else q = k ∧ s = Py.str v.
Proof.
  unfold writes; simpl. destruct (Py.truthy v); simpl.
  - destruct (is_range v).
    + rewrite !elem_of_cons, elem_of_nil.
      split; [intros [[= -> ->]|[[= -> ->]|[]]]; auto|].
      intros [_ [[-> ->]|[-> ->]]]; auto.
    + rewrite list_elem_of_singleton.
      split; [intros [= -> ->]; auto|]. by intros [_ [-> ->]].
  - rewrite elem_of_nil. split; [done|]. by intros [? _].
Qed.

(** *** Key names *)

Lemma string_length_app (s t : string) :
  String.length (s +:+ t) = (String.length s + String.length t)%nat.
Proof. induction s as [|a s IH]; simpl; [done|by rewrite IH]. Qed.

Lemma min_key_ne k : "min_" +:+ k ≠ k.
Proof. intros H%(f_equal String.length). rewrite string_length_app in H. simpl in H. lia. Qed.

Lemma max_key_ne k : "max_" +:+ k ≠ k.
Proof. intros H%(f_equal String.length). rewrite string_length_app in H. simpl in H. lia. Qed.

Lemma min_max_key_ne j k : "min_" +:+ j ≠ "max_" +:+ k.
Proof. simpl. discriminate. Qed.

Lemma plain_key_first c q : c ≠ "m"%char → plain_key (String c q).
Proof. intros Hc j. simpl. split; intros [=]; done. Qed.

(** *** The keyword loop *)

Lemma KEYWORDS_ok : table_ok KEYWORDS.
Proof.
  split.
  - apply (bool_decide_unpack _). by vm_compute.
  - apply (bool_decide_unpack _). by vm_compute.
  - assert (Forall (λ x, x ∉ KEYWORDS.*2) KEYWORDS.*1) as H
      by (apply (bool_decide_unpack _); by vm_compute).
    intros x Hx. by apply (proj1 (Forall_forall _ _) H).
Qed.

Lemma table_ok_tail c k t : table_ok ((c, k) :: t) → table_ok t.
Proof.
  intros [H1 H2 H3]. simpl in *.
  apply NoDup_cons in H1 as [_ H1]. apply NoDup_cons in H2 as [_ H2].
  split; [done..|]. intros x Hx Hx'.
  apply (H3 x); by right.
Qed.

Lemma map_keyword_lookup_other (m : gmap string pyval) c k q :
  q ≠ c → q ≠ k → map_keyword m (c, k) !! q = m !! q.
Proof.
  intros. unfold map_keyword; simpl. destruct (m !! c); [|done].
  by rewrite lookup_delete_ne, lookup_insert_ne.
Qed.

Lemma map_keyword_lookup_key (m : gmap string pyval) c k :
  c ≠ k → map_keyword m (c, k) !! c = None.
Proof.
  intros. unfold map_keyword; simpl. destruct (m !! c) eqn:E; [|done].
  by rewrite lookup_delete_eq.
Qed.

Lemma map_keyword_lookup_val (m : gmap string pyval) c k :
  c ≠ k → map_keyword m (c, k) !! k = (m !! c) ∪ (m !! k).
Proof.
  intros. unfold map_keyword; simpl. destruct (m !! c) eqn:E.
  - rewrite lookup_delete_ne, lookup_insert_eq by done.
    by destruct (m !! k).
  - by rewrite (left_id_L None (∪)).
Qed.

Lemma rename_lookup_other t (m : gmap string pyval) q :
  q ∉ t.*1 → q ∉ t.*2 → foldl map_keyword m t !! q = m !! q.
Proof.
  revert m. induction t as [|[c k] t IH]; intros m H1 H2; simpl in *; [done|].
  apply not_elem_of_cons in H1 as [? ?]. apply not_elem_of_cons in H2 as [? ?].
  rewrite IH by done. by apply map_keyword_lookup_other.
Qed.

Lemma rename_lookup_gone t (m : gmap string pyval) q :
  q ∉ t.*2 → m !! q = None → foldl map_keyword m t !! q = None.
Proof.
  revert m. induction t as [|[c k] t IH]; intros m H2 Hm; simpl in *; [done|].
  apply not_elem_of_cons in H2 as [? ?]. apply IH; [done|].
  destruct (decide (q = c)) as [->|].
  - by apply map_keyword_lookup_key.
  - by rewrite map_keyword_lookup_other.
Qed.

Lemma rename_lookup_key t (m : gmap string pyval) c :
  table_ok t → c ∈ t.*1 → foldl map_keyword m t !! c = None.
Proof.
  revert m. induction t as [|[c0 k0] t IH]; intros m Hok Hc; simpl in *.
  { by apply elem_of_nil in Hc. }
  pose proof (table_ok_tail _ _ _ Hok) as Hok'.
  destruct Hok as [H1 H2 H3]; simpl in *.
  apply NoDup_cons in H1 as [Hc0 H1].
  apply elem_of_cons in Hc as [->|Hc].
  - assert (c0 ∉ k0 :: t.*2) as [? ?]%not_elem_of_cons
      by (apply H3; left).
    apply rename_lookup_gone; [done|]. by apply map_keyword_lookup_key.
  - by apply IH.
Qed.

Lemma rename_lookup_val t (m : gmap string pyval) c k :
  table_ok t → (c, k) ∈ t →
  foldl map_keyword m t !! k = (m !! c) ∪ (m !! k).
Proof.
  revert m. induction t as [|[c0 k0] t IH]; intros m Hok Hck; simpl in *.
  { by apply elem_of_nil in Hck. }
  pose proof (table_ok_tail _ _ _ Hok) as Hok'.
  destruct Hok as [H1 H2 H3]; simpl in *.
  apply NoDup_cons in H1 as [Hc0 H1]. apply NoDup_cons in H2 as [Hk0 H2].
  assert (c0 ≠ k0) by (intros ->; apply (H3 k0); left).
  apply elem_of_cons in Hck as [[= -> ->]|Hck].
  - rewrite rename_lookup_other; [by apply map_keyword_lookup_val| |done].
    intros Hk. apply (H3 k0); [by right|left].
  - assert (c ∈ t.*1) by (apply list_elem_of_fmap; by exists (c, k)).
    assert (k ∈ t.*2) by (apply list_elem_of_fmap; by exists (c, k)).
    rewrite IH by done.
    assert (c ≠ c0) by (by intros ->). assert (k ≠ k0) by (by intros ->).
    assert (c ≠ k0) by (intros ->; apply (H3 k0); [by right|left]).
    assert (k ≠ c0) by (intros ->; apply (H3 c0); [left|by right]).
    by rewrite !map_keyword_lookup_other.
Qed.

Lemma rename_id t (m : gmap string pyval) :
  (∀ c, c ∈ t.*1 → m !! c = None) → foldl map_keyword m t = m.
Proof.
  induction t as [|[c k] t IH]; intros H; simpl in *; [done|].
  unfold map_keyword at 2; simpl. rewrite (H c) by left.
  apply IH. intros c' Hc'. apply H. by right.
Qed.

(** *** What [_fetch] sends *)

Lemma DEPRECATED_KEYWORDS_KEYWORDS k c :
  (k, c) ∈ DEPRECATED_KEYWORDS ↔ (c, k) ∈ KEYWORDS.
Proof.
  unfold DEPRECATED_KEYWORDS, KEYWORDS.
  rewrite !elem_of_cons, !elem_of_nil. split; intros H;
    repeat (destruct H as [[= -> ->]|H]; [tauto|]); done.
Qed.

Lemma canonical_plain c : c ∈ KEYWORDS.*1 → plain_key c.
Proof.
  unfold KEYWORDS; simpl. rewrite !elem_of_cons, elem_of_nil. intros H.
  repeat (destruct H as [->|H]; [by apply plain_key_first|]). done.
Qed.

Lemma server_name_plain k : k ∈ KEYWORDS.*2 → plain_key k.
Proof.
  unfold KEYWORDS; simpl. rewrite !elem_of_cons, elem_of_nil. intros H.
  repeat (destruct H as [->|H]; [by apply plain_key_first|]). done.
Qed.

(** An argument with a plain name and a non-empty value that is not a
    two-element sequence goes out under its own name. *)
Lemma fold_params_plain (kwargs : gmap string pyval) k v :
  plain_key k → kwargs !! k = Some v →
  Py.truthy v = true → is_range v = false →
  fold_params kwargs !! k = Some (Py.str v).
Proof.
  intros Hpl Hk Ht Hr. apply (fold_params_lookup_agree kwargs k v); [done|..].
  - apply elem_of_writes. by rewrite Hr.
  - intros k' v' s' Hk' [_ Hw]%elem_of_writes.
    destruct (is_range v').
    + destruct (Hpl k') as [? ?]. by destruct Hw as [[? _]|[? _]].
    + destruct Hw as [<- ->]. congruence.
Qed.

(** A plain name that is not an argument is not sent. *)
Lemma fold_params_plain_None (kwargs : gmap string pyval) k :
  plain_key k → kwargs !! k = None → fold_params kwargs !! k = None.
Proof.
  intros Hpl Hk. apply fold_params_lookup_None.
  intros k' v' s' Hk' [_ Hw]%elem_of_writes.
  destruct (is_range v').
  - destruct (Hpl k') as [? ?]. by destruct Hw as [[? _]|[? _]].
  - destruct Hw as [<- _]. congruence.
Qed.

Lemma fetch_params_no_canonical (kwargs : gmap string pyval) c :
  c ∈ KEYWORDS.*1 → fetch_params kwargs !! c = None.
Proof.
  intros Hc. apply fold_params_plain_None; [by apply canonical_plain|].
  by apply rename_lookup_key; [apply KEYWORDS_ok|].
Qed.

(** Re-reading a string mapping drops its empty values and nothing else. *)
Lemma fold_params_strings (p : gmap string string) :
  fold_params (as_kwargs p) = filter (λ kv, kv.2 ≠ "") p.
Proof.
  apply map_eq; intros q. unfold as_kwargs.
  assert (∀ k' v' s', (PStr <$> p) !! k' = Some v' →
            (q, s') ∈ writes (k', v') → p !! q = Some s' ∧ s' ≠ "") as Hw.
  { intros k' v' s' (t & <- & Hk')%lookup_fmap_Some [Ht Hw]%elem_of_writes.
    simpl in *. destruct Hw as [-> ->]. split; [done|].
    intros ->. done. }
  destruct (p !! q) as [s|] eqn:Hq.
  - destruct (decide (s = "")) as [->|Hs].
    + rewrite (proj2 (map_lookup_filter_None _ p q)).
      * apply fold_params_lookup_None. intros k' v' s' Hk' Hin.
        destruct (Hw _ _ _ Hk' Hin) as [Hq' ?]. congruence.
      * right. intros x Hx. simpl. congruence.
    + rewrite (map_lookup_filter_Some_2 _ p q s) by done.
      apply (fold_params_lookup_agree _ q (PStr s)).
      * by rewrite lookup_fmap, Hq.
      * apply elem_of_writes. simpl.
        split; [|done]. by destruct s.
      * intros k' v' s' Hk' Hin.
        destruct (Hw _ _ _ Hk' Hin) as [Hq' ?]. congruence.
  - rewrite (proj2 (map_lookup_filter_None _ p q)) by (by left).
    apply fold_params_lookup_None. intros k' v' s' Hk' Hin.
    destruct (Hw _ _ _ Hk' Hin) as [Hq' ?]. congruence.
Qed.

Lemma fetch_params_twice (kwargs : gmap string pyval) :
  fetch_params (as_kwargs (fetch_params kwargs)) =
  filter (λ kv, kv.2 ≠ "") (fetch_params kwargs).
Proof.
  unfold fetch_params at 1. unfold map_keywords. rewrite rename_id.
  - apply fold_params_strings.
  - intros c Hc. unfold as_kwargs.
    by rewrite lookup_fmap, fetch_params_no_canonical.
Qed.

(** *** The claims on normalisation *)

(** C1, as the code has it: for every pair of the deprecated-keyword
    table, an argument supplied under the canonical name, or under the
    deprecated name alone, with a non-empty value that is not a
    two-element sequence, is sent under the deprecated name (the name
    [KEYWORDS] maps the canonical one to), and the canonical name is
    not sent. *)
Theorem keyword_sent_under_server_name (kwargs : gmap string pyval)
    (k c : string) (v : pyval) :
  (k, c) ∈ DEPRECATED_KEYWORDS →
  kwargs !! c = Some v ∨ (kwargs !! c = None ∧ kwargs !! k = Some v) →
  Py.truthy v = true → is_range v = false →
  fetch_params kwargs !! k = Some (Py.str v) ∧
  fetch_params kwargs !! c = None.
Proof.
  intros Hkc%DEPRECATED_KEYWORDS_KEYWORDS Hv Ht Hr.
  assert (c ∈ KEYWORDS.*1) as Hc by (apply list_elem_of_fmap; by exists (c, k)).
  assert (k ∈ KEYWORDS.*2) as Hk by (apply list_elem_of_fmap; by exists (c, k)).
  split; [|by apply fetch_params_no_canonical].
  apply fold_params_plain; [by apply server_name_plain| |done..].
  unfold map_keywords. rewrite (rename_lookup_val _ _ c k KEYWORDS_ok Hkc).
  destruct Hv as [->|[-> ->]]; [|done]. by destruct (kwargs !! k).
Qed.

Lemma keyword_sent_under_server_name_witness :
  fetch_params {[ "network" := PStr "BW"; "limit" := PInt 3 ]} !! "network_id"
    = Some "BW" ∧
  fetch_params {[ "network" := PStr "BW"; "limit" := PInt 3 ]} !! "network"
    = None.
Proof.
  apply (keyword_sent_under_server_name _ "network_id" "network" (PStr "BW")).
  - apply list_elem_of_here.
  - left. vm_compute. reflexivity.
  - reflexivity.
  - reflexivity.
Defined.

(** C1 as stated fails: a deprecated key handed to [_fetch], directly
    or after the rename to its canonical name, is the key that goes
    out, and the canonical key is absent; [getStationIds] with network
    BW asks for [network_id=BW]. *)
Lemma deprecated_key_is_sent :
  ("network_id", "network") ∈ DEPRECATED_KEYWORDS ∧
  ¬ sent_under_canonical {[ "network_id" := PStr "BW" ]} "network_id" "network" ∧
  ¬ sent_under_canonical {[ "network" := PStr "BW" ]} "network_id" "network" ∧
  req_url <$> sent (_WaveformMapperClient.getStationIds Sample.X Sample.self
                      (PStr "BW") ∅ Sample.world0).2
    = ["http://localhost:8080/seismology/waveform/getStationIds?network_id=BW"].
Proof.
  split; [apply list_elem_of_here|].
  split; [|split]; [intros [_ H]; vm_compute in H; discriminate..|].
  vm_compute. reflexivity.
Qed.

(** C5: in the loop over the arguments, a key whose value is a tuple or
    list [(a, b)] yields exactly the entries [min_k ↦ str(a)] and
    [max_k ↦ str(b)] and no entry [k]; so does [_fetch] as a whole for a
    key that the keyword loop before it does not rename.  Among other
    arguments the same three lookups hold, provided no other argument is
    itself called [min_k] or [max_k] and [k] is not the [min_]/[max_]
    name of another argument. *)
Theorem range_becomes_min_max (k : string) (v a b : pyval) :
  v = PTuple [a; b] ∨ v = PList [a; b] →
  fold_params {[ k := v ]}
    = {[ "min_" +:+ k := Py.str a; "max_" +:+ k := Py.str b ]}
  ∧ fold_params {[ k := v ]} !! k = None
  ∧ (k ∉ KEYWORDS.*1 →
     fetch_params {[ k := v ]}
       = {[ "min_" +:+ k := Py.str a; "max_" +:+ k := Py.str b ]})
  ∧ ∀ kwargs : gmap string pyval,
      kwargs !! k = Some v →
      kwargs !! ("min_" +:+ k) = None →
      kwargs !! ("max_" +:+ k) = None →
      (∀ j, k = "min_" +:+ j ∨ k = "max_" +:+ j → kwargs !! j = None) →
      fold_params kwargs !! ("min_" +:+ k) = Some (Py.str a) ∧
      fold_params kwargs !! ("max_" +:+ k) = Some (Py.str b) ∧
      fold_params kwargs !! k = None.
Proof.
  intros Hv.
  assert (Py.truthy v = true ∧ is_range v = true ∧
          Py.item v 0 = a ∧ Py.item v 1 = b) as (Ht & Hr & Ha & Hb)
    by (destruct Hv as [-> | ->]; done).
  assert (fold_params {[ k := v ]}
          = {[ "min_" +:+ k := Py.str a; "max_" +:+ k := Py.str b ]}) as Hone.
  { unfold fold_params. rewrite map_to_list_singleton. simpl.
    rewrite fold_param_writes. unfold writes; simpl. rewrite Ht, Hr; simpl.
    unfold assign; simpl. rewrite Ha, Hb.
    rewrite insert_insert_ne by (symmetry; apply min_max_key_ne).
    by rewrite insert_empty. }
  split; [done|]. split.
  { rewrite Hone. rewrite lookup_insert_ne by apply min_key_ne.
    rewrite lookup_singleton_ne by apply max_key_ne. done. }
  split.
  { intros Hk. unfold fetch_params, map_keywords. rewrite rename_id; [done|].
    intros c Hc. apply lookup_singleton_ne. by intros ->. }
  intros kwargs Hk Hmin Hmax Hj.
  split; [|split].
  - apply (fold_params_lookup_agree kwargs k v); [done|..].
    + apply elem_of_writes. rewrite Hr, Ha. auto.
    + intros k' v' s' Hk' [_ Hw]%elem_of_writes.
      destruct (is_range v').
      * destruct Hw as [[Hq ->]|[Hq _]].
        -- apply (inj (String.append "min_")) in Hq as <-. congruence.
        -- by apply min_max_key_ne in Hq.
      * destruct Hw as [<- _]. congruence.
  - apply (fold_params_lookup_agree kwargs k v); [done|..].
    + apply elem_of_writes. rewrite Hr, Hb. auto.
    + intros k' v' s' Hk' [_ Hw]%elem_of_writes.
      destruct (is_range v').
      * destruct Hw as [[Hq _]|[Hq ->]].
        -- symmetry in Hq. by apply min_max_key_ne in Hq.
        -- apply (inj (String.append "max_")) in Hq as <-. congruence.
      * destruct Hw as [<- _]. congruence.
  - apply fold_params_lookup_None.
    intros k' v' s' Hk' [_ Hw]%elem_of_writes.
    destruct (is_range v') eqn:Hr'.
    + assert (kwargs !! k' = None); [|congruence].
      apply Hj. destruct Hw as [[-> _]|[-> _]]; auto.
    + destruct Hw as [<- _]. congruence.
Qed.

Lemma range_becomes_min_max_witness :
  let kwargs : gmap string pyval :=
    {[ "depth" := PTuple [PInt 1; PInt 30]; "limit" := PInt 5 ]} in
  fold_params {[ "depth" := PTuple [PInt 1; PInt 30] ]}
    = {[ "min_depth" := "1"; "max_depth" := "30" ]} ∧
  fetch_params {[ "depth" := PTuple [PInt 1; PInt 30] ]}
    = {[ "min_depth" := "1"; "max_depth" := "30" ]} ∧
  fold_params kwargs !! "min_depth" = Some "1" ∧
  fold_params kwargs !! "max_depth" = Some "30" ∧
  fold_params kwargs !! "depth" = None.
Proof.
  intros kwargs.
  destruct (range_becomes_min_max "depth" (PTuple [PInt 1; PInt 30])
              (PInt 1) (PInt 30)) as (H1 & _ & H2 & H3).
  - left. reflexivity.
  - split; [exact H1|]. split.
    + apply H2. apply (bool_decide_unpack _). vm_compute. exact I.
    + apply H3.
      * vm_compute. reflexivity.
      * vm_compute. reflexivity.
      * vm_compute. reflexivity.
      * intros j [H|H]; simpl in H; discriminate H.
Defined.

(** C6, as the code has it: when no value of the normalised mapping is
    the empty string, normalising it again gives it back unchanged. *)
Theorem renormalising_is_stable (kwargs : gmap string pyval) :
  (∀ k s, fetch_params kwargs !! k = Some s → s ≠ "") →
  idempotent_at kwargs.
Proof.
  intros H. unfold idempotent_at. rewrite fetch_params_twice.
  apply map_filter_id. intros k s Hk. simpl. by apply (H k).
Qed.

Lemma renormalising_is_stable_witness :
  idempotent_at {[ "network" := PStr "BW";
                   "datetime" := PTuple [PStr "2010-01-01"; PStr "2010-02-01"];
                   "limit" := PInt 0 ]}.
Proof.
  apply renormalising_is_stable.
  apply (bool_decide_unpack (map_Forall (λ _ s, s ≠ "") _)).
  vm_compute. exact I.
Defined.

(** C6 as stated fails: a range with an empty bound is normalised to
    an entry with an empty value, which the second pass drops. *)
Lemma renormalising_drops_empty_bound :
  ¬ idempotent_at {[ "datetime" := PTuple [PStr ""; PStr "2010-01-01"] ]}.
Proof.
  intros H. apply (f_equal (.!! "min_datetime")) in H.
  vm_compute in H. discriminate.
Qed.

End ParamsFacts.

(** ** The transport *)

Module TransportFacts.

Lemma methods_text_eq :
  RequestWithMethod.methods_text = "['PUT', 'POST', 'HEAD', 'GET', 'DELETE']".
Proof. reflexivity. Qed.

Lemma str_in_true s l : s ∈ l → str_in s l = true.
Proof. intros. by apply bool_decide_eq_true. Qed.

Lemma str_in_false s l : s ∉ l → str_in s l = false.
Proof. intros. by apply bool_decide_eq_false. Qed.

Lemma nodata_not_data method :
  method ∈ HTTP_ACCEPTED_NODATA_METHODS → method ∉ HTTP_ACCEPTED_DATA_METHODS.
Proof.
  unfold HTTP_ACCEPTED_NODATA_METHODS, HTTP_ACCEPTED_DATA_METHODS.
  rewrite !elem_of_cons, !elem_of_nil.
  intros [->|[->|[->|[]]]] [H|[H|[]]]; discriminate H.
Qed.

Lemma truthy_PStr s : Py.truthy (PStr s) = negb (bool_decide (s = "")).
Proof. simpl. by destruct (String.eqb_spec s ""); case_bool_decide. Qed.

(** C8: a method outside PUT, POST, HEAD, GET, DELETE; PUT or POST with
    an empty body; HEAD, GET or DELETE with a body: each raises, and the
    world, with the list of requests sent, is left as it was.  The
    constructor of [RequestWithMethod] refuses an unknown method too. *)
Theorem HTTP_request_fails_fast (X : externals) (url method xml_string : string)
    (headers : list (string * string)) (w : world) :
  (method ∉ HTTP_ACCEPTED_METHODS →
     Client._HTTP_request X url method xml_string headers w
       = (Raise (ValueError ("Method must be one of " +:+
                             "['PUT', 'POST', 'HEAD', 'GET', 'DELETE']")), w) ∧
     ∃ msg, RequestWithMethod.__init__ method url xml_string headers
              = Raise (ValueError msg)) ∧
  (method ∈ HTTP_ACCEPTED_DATA_METHODS → xml_string = "" →
     Client._HTTP_request X url method xml_string headers w
       = (Raise (TypeError ("Missing data for " +:+ method +:+ " request.")), w)) ∧
  (method ∈ HTTP_ACCEPTED_NODATA_METHODS → xml_string ≠ "" →
     Client._HTTP_request X url method xml_string headers w
       = (Raise (TypeError ("Unexpected data for " +:+ method +:+ " request.")),
          w)).
Proof.
  unfold Client._HTTP_request, RequestWithMethod.__init__.
  split; [|split].
  - intros H. rewrite (str_in_false _ _ H). simpl. eauto.
  - intros H ->.
    rewrite (str_in_true method HTTP_ACCEPTED_METHODS)
      by (apply elem_of_app; by left).
    by rewrite (str_in_true _ _ H).
  - intros H Hx.
    rewrite (str_in_true method HTTP_ACCEPTED_METHODS)
      by (apply elem_of_app; by right).
    rewrite (str_in_false _ _ (nodata_not_data _ H)), (str_in_true _ _ H).
    rewrite truthy_PStr. by rewrite bool_decide_eq_false_2.
Qed.

Lemma HTTP_request_fails_fast_witness :
  Client._HTTP_request Sample.X "http://localhost:8080/xml/" "PATCH" "" []
    Sample.world0
    = (Raise (ValueError ("Method must be one of " +:+
                          "['PUT', 'POST', 'HEAD', 'GET', 'DELETE']")),
       Sample.world0) ∧
  Client._HTTP_request Sample.X "http://localhost:8080/xml/" "PUT" "" []
    Sample.world0
    = (Raise (TypeError "Missing data for PUT request."), Sample.world0) ∧
  Client._HTTP_request Sample.X "http://localhost:8080/xml/" "GET" "<a/>" []
    Sample.world0
    = (Raise (TypeError "Unexpected data for GET request."), Sample.world0).
Proof.
  split; [|split].
  - apply (HTTP_request_fails_fast Sample.X "http://localhost:8080/xml/"
             "PATCH" "" [] Sample.world0).
    apply (bool_decide_unpack _). vm_compute. exact I.
  - apply (HTTP_request_fails_fast Sample.X "http://localhost:8080/xml/"
             "PUT" "" [] Sample.world0); [|reflexivity].
    apply (bool_decide_unpack _). vm_compute. exact I.
  - apply (HTTP_request_fails_fast Sample.X "http://localhost:8080/xml/"
             "GET" "<a/>" [] Sample.world0); [|discriminate].
    apply (bool_decide_unpack _). vm_compute. exact I.
Defined.

End TransportFacts.

(** ** Where the requests go *)

Module RequestsFacts.
Import Requests.

Section logic.
Context {A B : Type} (P : request → Prop).

Lemma sends_pure (r : result A) : sends P (lift r).
Proof. intros w. exists []. simpl. by rewrite app_nil_r. Qed.

Lemma sends_ret (a : A) : sends P (ret a).
Proof. apply (sends_pure (Ok a)). Qed.

Lemma sends_mret (a : A) : sends P (mret a : M A).
Proof. apply sends_ret. Qed.

Lemma sends_raise (e : exn) : sends P (raise e : M A).
Proof. apply (sends_pure (Raise e)). Qed.

Lemma sends_bind (m : M A) (f : A → M B) :
  sends P m → (∀ a, sends P (f a)) → sends P (m ≫= f).
Proof.
  intros Hm Hf w. unfold mbind, M_bind, bind.
  destruct (Hm w) as (n1 & E1 & F1).
  destruct (m w) as [[a|e] w1]; simpl in *.
  - destruct (Hf a w1) as (n2 & E2 & F2). exists (n1 ++ n2)%list.
    rewrite E2, E1, app_assoc. split; [done|]. by apply Forall_app.
  - by exists n1.
Qed.

Lemma sends_bind_lift (r : result A) (f : A → M B) :
  (∀ a, r = Ok a → sends P (f a)) → sends P (lift r ≫= f).
Proof.
  intros Hf. destruct r as [a|e].
  - intros w. apply (Hf a eq_refl w).
  - intros w. exists []. simpl. by rewrite app_nil_r.
Qed.

Lemma sends_mono (Q : request → Prop) (m : M A) :
  (∀ r, P r → Q r) → sends P m → sends Q m.
Proof.
  intros HPQ Hm w. destruct (Hm w) as (n & E & F). exists n.
  split; [done|]. by eapply Forall_impl.
Qed.

End logic.

Lemma sends_warn P msg : sends P (warn msg).
Proof. intros w. exists []. simpl. by rewrite app_nil_r. Qed.

Lemma sends_send X P r : P r → sends P (Client.send X r).
Proof. intros H w. exists [r]. simpl. split; [done|]. by constructor. Qed.

Lemma sends_datetime_now P : sends P _EventMapperClient.datetime_now.
Proof. intros w. exists []. simpl. by rewrite app_nil_r. Qed.

Lemma sends_lexists P f : sends P (_EventMapperClient.lexists f).
Proof. intros w. exists []. simpl. by rewrite app_nil_r. Qed.

Lemma sends_write_file P f c : sends P (_EventMapperClient.write_file f c).
Proof. intros w. exists []. simpl. by rewrite app_nil_r. Qed.

(** One step through a computation that is built from the pieces above. *)
Ltac sends_step :=
  match goal with
  | |- sends _ (mret _) => apply sends_mret
  | |- sends _ (ret _) => apply sends_ret
  | |- sends _ (raise _) => apply sends_raise
  | |- sends _ (lift _) => apply sends_pure
  | |- sends _ (warn _) => apply sends_warn
  | |- sends _ _EventMapperClient.datetime_now => apply sends_datetime_now
  | |- sends _ (_EventMapperClient.lexists _) => apply sends_lexists
  | |- sends _ (_EventMapperClient.write_file _ _) => apply sends_write_file
  | |- sends _ (lift (Ok _) ≫= _) => apply sends_bind_lift; intros ? [= <-]
  | |- sends _ (lift _ ≫= _) => apply sends_bind_lift; intros ? ?
  | |- sends _ (_ ≫= _) => apply sends_bind; [|intros ?]
  | |- sends _ (bind _ _) => apply (sends_bind _ _ _); [|intros ?]
  | |- sends _ (if ?b then _ else _) => destruct b
  | |- sends _ (match ?x with _ => _ end) => destruct x
  end.

Lemma string_app_assoc (a b c : string) : (a +:+ b) +:+ c = a +:+ b +:+ c.
Proof.
  induction a as [|x a IH]; [done|].
  change (String x ((a +:+ b) +:+ c) = String x (a +:+ b +:+ c)). by f_equal.
Qed.

Section operations.
Context (X : externals) (self : client).

Lemma sends_fetch P url kwargs :
  P (Client.get_request (Client.remoteaddr self url kwargs)) →
  sends P (Client._fetch X self url kwargs).
Proof.
  intros H. unfold Client._fetch. apply sends_bind; [by apply sends_send|].
  intros r. repeat sends_step.
Qed.

Lemma sends_objectify P url kwargs :
  P (Client.get_request (Client.remoteaddr self url kwargs)) →
  sends P (Client._objectify X self url kwargs).
Proof.
  intros H. unfold Client._objectify.
  apply sends_bind; [by apply sends_fetch|]. intros r. repeat sends_step.
Qed.

Lemma sends_HTTP_request P url method body headers :
  (∀ r, req_url r = url → req_method r = method → P r) →
  sends P (Client._HTTP_request X url method body headers).
Proof.
  intros H. unfold Client._HTTP_request, RequestWithMethod.__init__.
  destruct (str_in method HTTP_ACCEPTED_METHODS); simpl; [|apply sends_raise].
  repeat (sends_step; simpl); try (by apply sends_send, H).
Qed.

Lemma mapper_get rt op kwargs :
  (rt, op) ∈ mapper_operations →
  mapper_request self
    (Client.get_request
       (Client.remoteaddr self ("/seismology/" +:+ rt +:+ "/" +:+ op) kwargs)).
Proof.
  intros H. exists rt, op, (Lib.urlencode (Params.fetch_params kwargs)).
  split; [done|]. split; [done|].
  unfold Client.remoteaddr, Client.get_request; cbn [req_url].
  by rewrite !string_app_assoc.
Qed.

Lemma resource_get ev name kwargs :
  resource_request self
    (Client.get_request
       (Client.remoteaddr self
          ("/xml/" +:+ "seismology" +:+ "/" +:+ resourcetype_of ev +:+ "/" +:+
           name) kwargs)).
Proof.
  exists "seismology", (resourcetype_of ev), name. split.
  { destruct ev; [right; left|left]. }
  left. split; [done|].
  exists (Lib.urlencode (Params.fetch_params kwargs)).
  simpl. unfold Client.remoteaddr. by destruct ev.
Qed.

(** The address of a mapper operation, by trying the table. *)
Ltac mapper_endpoint :=
  first
    [ exact (mapper_get "waveform" "getNetworkIds" _ ltac:(by repeat constructor))
    | exact (mapper_get "waveform" "getStationIds" _ ltac:(by repeat constructor))
    | exact (mapper_get "waveform" "getLocationIds" _ ltac:(by repeat constructor))
    | exact (mapper_get "waveform" "getChannelIds" _ ltac:(by repeat constructor))
    | exact (mapper_get "waveform" "getLatency" _ ltac:(by repeat constructor))
    | exact (mapper_get "waveform" "getWaveform" _ ltac:(by repeat constructor))
    | exact (mapper_get "waveform" "getPreview" _ ltac:(by repeat constructor))
    | exact (mapper_get "station" "getList" _ ltac:(by repeat constructor))
    | exact (mapper_get "event" "getList" _ ltac:(by repeat constructor)) ].

Ltac mapper_fetch :=
  first [ apply sends_objectify | apply sends_fetch ]; mapper_endpoint.

Lemma sends_station_getList n s kw :
  sends (mapper_request self) (_StationMapperClient.getList X self n s kw).
Proof.
  unfold _StationMapperClient.getList.
  apply sends_bind; [mapper_fetch|]. intros r. repeat sends_step.
Qed.

Lemma sends_getCoordinates n s t l :
  sends (mapper_request self) (_StationMapperClient.getCoordinates X self n s t l).
Proof.
  unfold _StationMapperClient.getCoordinates.
  apply sends_bind; [apply sends_station_getList|]. intros r.
  repeat sends_step.
Qed.

Lemma sends_getXMLResource ev name kw :
  sends (resource_request self)
    (_BaseRESTClient.getXMLResource X self "seismology" (resourcetype_of ev)
       name kw).
Proof.
  unfold _BaseRESTClient.getXMLResource. apply sends_objectify, resource_get.
Qed.

Lemma sends_getPAZ n s t l c g :
  sends (either self) (_StationMapperClient.getPAZ X self n s t l c g).
Proof.
  unfold _StationMapperClient.getPAZ.
  apply sends_bind.
  { eapply sends_mono; [|apply sends_station_getList]. by left. }
  intros r. destruct r as [|xml_doc rest]; [apply sends_mret|].
  apply sends_bind_lift. intros cl _.
  apply sends_bind; [repeat sends_step|]. intros _.
  apply sends_bind_lift. intros name _.
  apply sends_bind.
  { eapply sends_mono; [|apply (sends_getXMLResource false)]. by right. }
  intros res. repeat sends_step.
Qed.

Lemma sends_event_getList kw :
  sends (mapper_request self) (_EventMapperClient.getList X self kw).
Proof.
  unfold _EventMapperClient.getList.
  apply sends_bind; [mapper_fetch|]. intros r. repeat sends_step.
Qed.

Lemma sends_getKML nl kw :
  sends (mapper_request self) (_EventMapperClient.getKML X self nl kw).
Proof.
  unfold _EventMapperClient.getKML.
  apply sends_bind; [apply sends_event_getList|]. intros r.
  repeat sends_step.
Qed.

Lemma sends_saveKML f o kw :
  sends (mapper_request self) (_EventMapperClient.saveKML X self f o kw).
Proof.
  unfold _EventMapperClient.saveKML.
  apply sends_bind; [repeat sends_step|]. intros [|]; [apply sends_raise|].
  apply sends_bind; [apply sends_getKML|]. intros r. repeat sends_step.
Qed.

Lemma sends_attach_paz n s l c t1 t2 mt st :
  sends (either self) (_WaveformMapperClient.attach_paz X self n s l c t1 t2 mt st).
Proof.
  unfold _WaveformMapperClient.attach_paz.
  apply sends_bind; [apply sends_getPAZ|]. intros paz.
  apply sends_bind; [|intros; apply sends_mret].
  destruct (Py.truthy mt); [|apply sends_mret].
  apply sends_bind; [apply sends_getPAZ|]. intros paz'. repeat sends_step.
Qed.

Lemma sends_attach_coordinates n s l t1 t2 mt st :
  sends (either self)
    (_WaveformMapperClient.attach_coordinates X self n s l t1 t2 mt st).
Proof.
  unfold _WaveformMapperClient.attach_coordinates.
  assert (∀ t, sends (either self)
                 (_StationMapperClient.getCoordinates X self n s t l)) as H.
  { intros t. eapply sends_mono; [|apply sends_getCoordinates]. by left. }
  apply sends_bind; [apply H|]. intros co.
  apply sends_bind; [|intros; apply sends_mret].
  destruct (Py.truthy mt); [|apply sends_mret].
  apply sends_bind; [apply H|]. intros co'. repeat sends_step.
Qed.

Lemma sends_getWaveform n s l c t1 t2 af gp gc mt kw :
  sends (either self)
    (_WaveformMapperClient.getWaveform X self n s l c t1 t2 af gp gc mt kw).
Proof.
  unfold _WaveformMapperClient.getWaveform.
  apply sends_bind_lift. intros [kw' win] _.
  apply sends_bind; [repeat sends_step|]. intros _.
  apply sends_bind.
  { eapply sends_mono; [|mapper_fetch]. by left. }
  intros data. destruct (String.eqb data ""); [apply sends_raise|].
  apply sends_bind_lift. intros stream _.
  destruct (Nat.eqb (length stream) 0); [apply sends_raise|].
  apply sends_bind; [repeat sends_step|]. intros st1.
  apply sends_bind.
  { destruct (Py.truthy gp); [apply sends_attach_paz|apply sends_mret]. }
  intros st2. apply sends_bind; [|intros; apply sends_mret].
  destruct (Py.truthy gc); [apply sends_attach_coordinates|apply sends_mret].
Qed.

Lemma sends_done {A} P (m : M A) : sends P m → sends P (done m).
Proof. intros H. unfold done. apply sends_bind; [done|]. intros; apply sends_mret. Qed.

(** *** The requests of [getPAZ] and [getWaveform], one by one *)

Lemma issues_mono {A} (Q Q' : list request → Prop) (m : M A) :
  (∀ n, Q n → Q' n) → issues Q m → issues Q' m.
Proof.
  intros H Hm w. destruct (Hm w) as (n & E & F). exists n. split; auto.
Qed.

(** A computation that sends nothing issues the empty list. *)
Lemma issues_nothing {A} (m : M A) :
  sends (λ _, False) m → issues (λ n, n = []) m.
Proof.
  intros Hm w. destruct (Hm w) as (n & E & F). exists n. split; [done|].
  destruct n as [|r n]; [done|]. by apply Forall_cons in F as [[] _].
Qed.

Lemma issues_bind {A B} (Q1 Q2 Q : list request → Prop) (m : M A)
    (f : A → M B) :
  issues Q1 m → (∀ a, issues Q2 (f a)) →
  (∀ n1, Q1 n1 → Q n1) → (∀ n1 n2, Q1 n1 → Q2 n2 → Q (n1 ++ n2)%list) →
  issues Q (m ≫= f).
Proof.
  intros Hm Hf Hfail Hboth w. unfold mbind, M_bind, bind.
  destruct (Hm w) as (n1 & E1 & F1).
  destruct (m w) as [[a|e] w1]; simpl in *.
  - destruct (Hf a w1) as (n2 & E2 & F2). exists (n1 ++ n2)%list.
    rewrite E2, E1, app_assoc. split; [done|]. by apply Hboth.
  - exists n1. split; [done|]. by apply Hfail.
Qed.

(** Steps that send nothing, before or after one that does. *)
Lemma issues_after {A B} (Q : list request → Prop) (m : M A) (f : A → M B) :
  sends (λ _, False) m → Q [] → (∀ a, issues Q (f a)) → issues Q (m ≫= f).
Proof.
  intros Hm Hnil Hf.
  apply (issues_bind (λ n, n = []) Q Q); [by apply issues_nothing|done|..].
  - by intros ? ->.
  - by intros ? ? ->.
Qed.

Lemma issues_before {A B} (Q : list request → Prop) (m : M A) (f : A → M B) :
  issues Q m → (∀ a, sends (λ _, False) (f a)) → issues Q (m ≫= f).
Proof.
  intros Hm Hf.
  apply (issues_bind Q (λ n, n = []) Q);
    [done|by intros; apply issues_nothing|done|].
  intros n1 ? ? ->. by rewrite app_nil_r.
Qed.

Lemma issues_fetch url kwargs :
  issues (λ n, n = [Client.get_request (Client.remoteaddr self url kwargs)])
    (Client._fetch X self url kwargs).
Proof.
  intros w. eexists. split; [|reflexivity].
  unfold Client._fetch, Client.send, mbind, M_bind, bind. simpl.
  by destruct (urlopen X _ _).
Qed.

Lemma issues_objectify url kwargs :
  issues (λ n, n = [Client.get_request (Client.remoteaddr self url kwargs)])
    (Client._objectify X self url kwargs).
Proof.
  unfold Client._objectify. apply issues_before; [apply issues_fetch|].
  intros doc. repeat sends_step.
Qed.

Lemma operation_get rt op kwargs :
  operation_request self rt op
    (Client.get_request
       (Client.remoteaddr self ("/seismology/" +:+ rt +:+ "/" +:+ op) kwargs)).
Proof.
  split; [done|]. exists (Lib.urlencode (Params.fetch_params kwargs)).
  unfold Client.remoteaddr, Client.get_request; cbn [req_url].
  by rewrite !string_app_assoc.
Qed.

Lemma station_resource_get name kwargs :
  station_resource_request self
    (Client.get_request
       (Client.remoteaddr self
          ("/xml/" +:+ _StationMapperClient.package +:+ "/" +:+
           _StationMapperClient.resourcetype +:+ "/" +:+ name) kwargs)).
Proof.
  split; [done|]. by exists name, (Lib.urlencode (Params.fetch_params kwargs)).
Qed.

Lemma issues_station_getList n s kw :
  issues (listing_request self) (_StationMapperClient.getList X self n s kw).
Proof.
  unfold _StationMapperClient.getList. apply issues_before.
  - eapply issues_mono; [|apply issues_objectify].
    intros ? ->. eexists. split; [|reflexivity].
    apply (operation_get "station" "getList").
  - intros root. repeat sends_step.
Qed.

Lemma issues_getCoordinates n s t l :
  issues (listing_request self)
    (_StationMapperClient.getCoordinates X self n s t l).
Proof.
  unfold _StationMapperClient.getCoordinates.
  apply issues_before; [apply issues_station_getList|].
  intros r. repeat sends_step.
Qed.

Lemma issues_getPAZ n s t l c g :
  issues (paz_requests self) (_StationMapperClient.getPAZ X self n s t l c g).
Proof.
  unfold _StationMapperClient.getPAZ.
  apply (issues_bind (listing_request self)
           (λ n, n = [] ∨ ∃ r, station_resource_request self r ∧ n = [r])
           (paz_requests self)); [apply issues_station_getList|..].
  - intros [|xml_doc rest].
    { eapply issues_mono; [|apply issues_nothing, sends_mret]. by left. }
    apply issues_after; [apply sends_pure|by left|]. intros cl.
    apply issues_after; [repeat sends_step|by left|]. intros _.
    apply issues_after; [apply sends_pure|by left|]. intros name.
    apply issues_before; [|intros res; repeat sends_step].
    eapply issues_mono; [|apply issues_objectify].
    intros ? ->. right. eexists. split; [|reflexivity].
    apply station_resource_get.
  - intros n1 (m & Hm & ->). exists m. split; [done|]. by left.
  - intros n1 n2 (m & Hm & ->) [->|(r & Hr & ->)]; exists m; (split; [done|]).
    + by left.
    + right. by exists r.
Qed.

Lemma rounds_nil round k : rounds round k [].
Proof. exists []. split; [done|]. split; [simpl; lia|constructor]. Qed.

Lemma rounds_one round k n : round n → rounds round (S k) n.
Proof.
  intros H. exists [n]. split; [simpl; by rewrite app_nil_r|].
  split; [simpl; lia|by repeat constructor].
Qed.

Lemma rounds_two round k n1 n2 :
  round n1 → round n2 → rounds round (S (S k)) (n1 ++ n2)%list.
Proof.
  intros H1 H2. exists [n1; n2]. split; [simpl; by rewrite app_nil_r|].
  split; [simpl; lia|by repeat constructor].
Qed.

(** An operation done once and, under the time check, once more. *)
Lemma issues_once_or_twice {A B} (round : list request → Prop) (m m' : M A)
    (check : bool) (differ : A → A → bool) (e : exn) (finish : A → M B) :
  issues round m → issues round m' →
  (∀ a, sends (λ _, False) (finish a)) →
  issues (rounds round 2)
    (a ← m;
     _ ← (if check then
            a' ← m';
            if negb (differ a a') then raise e else mret tt
          else mret tt);
     finish a).
Proof.
  intros Hm Hm' Hfinish.
  apply (issues_bind round (λ n, n = [] ∨ round n) (rounds round 2)); [done|..].
  - intros a. apply issues_before; [|intros; apply Hfinish].
    destruct check.
    + apply issues_before.
      * eapply issues_mono; [|exact Hm']. by right.
      * intros a'. repeat sends_step.
    + eapply issues_mono; [|apply issues_nothing, sends_mret]. by left.
  - intros n1 H. by apply rounds_one.
  - intros n1 n2 H1 [->|H2].
    + rewrite app_nil_r. by apply rounds_one.
    + by apply rounds_two.
Qed.

Lemma issues_attach_paz n s l c t1 t2 mt st :
  issues (rounds (paz_requests self) 2)
    (_WaveformMapperClient.attach_paz X self n s l c t1 t2 mt st).
Proof.
  unfold _WaveformMapperClient.attach_paz.
  apply (issues_once_or_twice (paz_requests self));
    [apply issues_getPAZ..|intros; apply sends_mret].
Qed.

Lemma issues_attach_coordinates n s l t1 t2 mt st :
  issues (rounds (listing_request self) 2)
    (_WaveformMapperClient.attach_coordinates X self n s l t1 t2 mt st).
Proof.
  unfold _WaveformMapperClient.attach_coordinates.
  apply (issues_once_or_twice (listing_request self));
    [apply issues_getCoordinates..|intros; apply sends_mret].
Qed.

Lemma issues_getWaveform n s l c t1 t2 af gp gc mt kw :
  issues (waveform_requests self)
    (_WaveformMapperClient.getWaveform X self n s l c t1 t2 af gp gc mt kw).
Proof.
  unfold _WaveformMapperClient.getWaveform.
  apply issues_after; [apply sends_pure|by left|]. intros [kw' win].
  apply issues_after; [repeat sends_step|by left|]. intros _.
  apply (issues_bind
           (λ n, n = [Client.get_request
                        (Client.remoteaddr self
                           "/seismology/waveform/getWaveform" kw')])
           (λ n, ∃ pazs coords, n = (pazs ++ coords)%list ∧
                                rounds (paz_requests self) 2 pazs ∧
                                rounds (listing_request self) 2 coords)
           (waveform_requests self)); [apply issues_fetch|..].
  - intros data.
    assert (∀ B (k : M B), sends (λ _, False) k →
              issues (λ n, ∃ pazs coords, n = (pazs ++ coords)%list ∧
                             rounds (paz_requests self) 2 pazs ∧
                             rounds (listing_request self) 2 coords) k)
      as Hquiet.
    { intros B k Hk. eapply issues_mono; [|apply issues_nothing, Hk].
      intros ? ->. exists [], []. split; [done|].
      split; apply rounds_nil. }
    destruct (String.eqb data ""); [apply Hquiet, sends_raise|].
    apply issues_after; [apply sends_pure| |].
    { exists [], []. split; [done|]. split; apply rounds_nil. }
    intros stream.
    destruct (Nat.eqb (length stream) 0); [apply Hquiet, sends_raise|].
    apply issues_after; [repeat sends_step| |].
    { exists [], []. split; [done|]. split; apply rounds_nil. }
    intros st1.
    apply (issues_bind (rounds (paz_requests self) 2)
             (rounds (listing_request self) 2)).
    + destruct (Py.truthy gp); [apply issues_attach_paz|].
      eapply issues_mono; [|apply issues_nothing, sends_mret].
      intros ? ->. apply rounds_nil.
    + intros st2. apply issues_before; [|intros; apply sends_mret].
      destruct (Py.truthy gc); [apply issues_attach_coordinates|].
      eapply issues_mono; [|apply issues_nothing, sends_mret].
      intros ? ->. apply rounds_nil.
    + intros n1 H. exists n1, []. rewrite app_nil_r. split; [done|].
      split; [done|apply rounds_nil].
    + intros n1 n2 H1 H2. by exists n1, n2.
  - intros ? ->. right. eexists _, [], []. split.
    { apply (operation_get "waveform" "getWaveform"). }
    split; [done|]. split; apply rounds_nil.
  - intros ? ? -> (pazs & coords & -> & Hp & Hc). right.
    eexists _, pazs, coords. split.
    { apply (operation_get "waveform" "getWaveform"). }
    by split.
Qed.

Lemma issues_done {A} Q (m : M A) : issues Q m → issues Q (done m).
Proof.
  intros H. unfold done. apply issues_before; [done|].
  intros; apply sends_mret.
Qed.


End operations.


End RequestsFacts.

(** ** Running the operations *)

Module RunFacts.
Import Requests.

Ltac run := unfold mbind, M_bind, bind, mret, M_ret, ret, raise, lift; simpl.

Section run.
Context (X : externals) (self : client).

Lemma fetch_run url kwargs w code msg body :
  urlopen X (sent w) (Client.get_request (Client.remoteaddr self url kwargs))
    = Response code msg body →
  Client._fetch X self url kwargs w
    = (Ok body, issued (Client.get_request (Client.remoteaddr self url kwargs)) w).
Proof. intros H. unfold Client._fetch, Client.send. run. by rewrite H. Qed.

Lemma string_eqb_empty (s : string) : s ≠ "" → String.eqb s "" = false.
Proof. intros H. by destruct s. Qed.

Lemma trace_ids_lookup (ids t1 t2 : pyval) (kw : gmap string pyval) :
  with_locals [("trace_ids", ids); ("starttime", t1); ("endtime", t2)] kw
    !! "trace_ids" = Some ids.
Proof.
  unfold with_locals; simpl.
  rewrite !lookup_insert_ne by done. apply lookup_insert_eq.
Qed.

(** The empty-result checks that are there: an empty body stops all
    three fetches, and [getWaveform] also refuses a stream without
    traces. *)
Lemma empty_result_is_an_error n s l c t1 t2 af gp gc mt ids kw w code msg :
  (∀ r, urlopen X (sent w) r = Response code msg "") →
  (∀ args, _WaveformMapperClient.fetch_arguments X n s l c t1 t2 af gp gc mt kw
             = Ok args →
     (_WaveformMapperClient.getWaveform X self n s l c t1 t2 af gp gc mt kw w).1
       = Raise (Exception_ "No waveform data available")) ∧
  (_WaveformMapperClient.getPreview X self n s l c t1 t2 ids kw w).1
    = Raise (Exception_ "No waveform data available") ∧
  ((∀ l, ids = PList l → ∃ j, _WaveformMapperClient.join_ids l = Ok j) →
   (_WaveformMapperClient.getPreviewByIds X self ids t1 t2 kw w).1
     = Raise (Exception_ "No waveform data available")).
Proof.
  intros Hs. split; [|split].
  - intros [kw' win] Harg. unfold _WaveformMapperClient.getWaveform.
    rewrite Harg. run.
    destruct (Py.truthy c); run; (erewrite fetch_run by apply Hs); done.
  - unfold _WaveformMapperClient.getPreview. run.
    by erewrite fetch_run by apply Hs.
  - intros Hj. unfold _WaveformMapperClient.getPreviewByIds.
    rewrite trace_ids_lookup.
    destruct ids; run; try (by erewrite fetch_run by apply Hs).
    destruct (Hj _ eq_refl) as [j ->]. run.
    by erewrite fetch_run by apply Hs.
Qed.

Lemma getWaveform_without_traces n s l c t1 t2 af gp gc mt kw w code msg data args :
  (∀ r, urlopen X (sent w) r = Response code msg data) →
  _WaveformMapperClient.fetch_arguments X n s l c t1 t2 af gp gc mt kw = Ok args →
  loads X data = Ok [] →
  (_WaveformMapperClient.getWaveform X self n s l c t1 t2 af gp gc mt kw w).1
    = Raise (Exception_ "No waveform data available").
Proof.
  intros Hs Harg Hl. destruct args as [kw' win].
  unfold _WaveformMapperClient.getWaveform. rewrite Harg. run.
  destruct (Py.truthy c); run; (erewrite fetch_run by apply Hs);
    destruct (String.eqb data ""); try done; by rewrite Hl.
Qed.

(** C3 fails on the preview fetches: when the body is not empty and
    unpickles to a stream without traces, [getPreview] and
    [getPreviewByIds] return that stream. *)
Theorem preview_returns_stream_without_traces n s l c t1 t2 ids kw w
    code msg data :
  (∀ r, urlopen X (sent w) r = Response code msg data) →
  data ≠ "" → loads X data = Ok [] →
  (_WaveformMapperClient.getPreview X self n s l c t1 t2 ids kw w).1 = Ok [] ∧
  ((∀ l, ids = PList l → ∃ j, _WaveformMapperClient.join_ids l = Ok j) →
   (_WaveformMapperClient.getPreviewByIds X self ids t1 t2 kw w).1 = Ok []).
Proof.
  intros Hs Hd Hl. split.
  - unfold _WaveformMapperClient.getPreview. run.
    erewrite fetch_run by apply Hs. rewrite (string_eqb_empty _ Hd). simpl.
    by rewrite Hl.
  - intros Hj. unfold _WaveformMapperClient.getPreviewByIds.
    rewrite trace_ids_lookup.
    destruct ids; run;
      try (erewrite fetch_run by apply Hs; rewrite (string_eqb_empty _ Hd);
           simpl; by rewrite Hl).
    destruct (Hj _ eq_refl) as [j ->]. run.
    erewrite fetch_run by apply Hs. rewrite (string_eqb_empty _ Hd). simpl.
    by rewrite Hl.
Qed.

(** With a channel whose band code is in the table, the fetch asks for
    the window widened by [2.0 / rate] at both ends and keeps the window
    asked for, which is what [trim] is then called with. *)
Lemma expand_window kwargs c rest trim_start trim_end rate t1 t2 :
  kwargs !! "channel" = Some (PStr (String c rest)) →
  kwargs !! "starttime" = Some trim_start →
  kwargs !! "endtime" = Some trim_end →
  BAND_CODE X (String c EmptyString) = Some rate →
  PrimFloat.eqb rate 0 = false →
  time_sub X trim_start (2.0 / rate)%float = Ok t1 →
  time_add X trim_end (2.0 / rate)%float = Ok t2 →
  _WaveformMapperClient.expand X kwargs
    = Ok (<["endtime" := t2]> (<["starttime" := t1]> kwargs),
          (trim_start, trim_end)).
Proof.
  intros Hc Hs He Hb Hr H1 H2. unfold _WaveformMapperClient.expand.
  rewrite Hc, Hs, He. simpl. rewrite Hb, Hr. simpl. rewrite H1. simpl.
  by rewrite H2.
Qed.

(** *** Files *)

Lemma keeps_pure {A} (r : result A) : keeps_files (lift r).
Proof. by intros w. Qed.

Lemma keeps_bind {A B} (m : M A) (f : A → M B) :
  keeps_files m → (∀ a, keeps_files (f a)) → keeps_files (m ≫= f).
Proof.
  intros Hm Hf w. unfold mbind, M_bind, bind. specialize (Hm w).
  destruct (m w) as [[a|e] w1]; simpl in *; [|done].
  by rewrite Hf.
Qed.

Lemma keeps_fetch url kwargs : keeps_files (Client._fetch X self url kwargs).
Proof.
  unfold Client._fetch. apply keeps_bind; [by intros w|].
  intros [| |]; by intros w.
Qed.

Lemma keeps_getKML nolabels kwargs :
  keeps_files (_EventMapperClient.getKML X self nolabels kwargs).
Proof.
  unfold _EventMapperClient.getKML, _EventMapperClient.getList,
    Client._objectify.
  repeat (apply keeps_bind; [|intros ?]);
    first [by intros w|by destruct a; intros w].
Qed.

(** C10: with [overwrite] false and the file there, [saveKML] raises
    [OSError] and leaves the world, requests and files, as it was;
    otherwise, once [getKML] has produced the document, the file holds
    it and no other file has changed. *)
Theorem saveKML_guards_existing_file (filename : string) (overwrite : pyval)
    (kwargs : gmap string pyval) (w : world) :
  (Py.truthy overwrite = false → is_Some (files w !! filename) →
     _EventMapperClient.saveKML X self filename overwrite kwargs w
       = (Raise (OSError ("File " +:+ filename +:+
                          " exists and overwrite=False.")), w)) ∧
  (Py.truthy overwrite = true ∨ files w !! filename = None →
     ∀ kml_string w',
       _EventMapperClient.getKML X self
           (default (PBool false) (kwargs !! "nolabels"))
           (delete "nolabels" kwargs) w = (Ok kml_string, w') →
       _EventMapperClient.saveKML X self filename overwrite kwargs w
         = (Ok tt, written filename kml_string w') ∧
       files (written filename kml_string w')
         = <[filename := kml_string]> (files w)).
Proof.
  unfold _EventMapperClient.saveKML, _EventMapperClient.lexists,
    _EventMapperClient.write_file.
  split.
  - intros -> H. unfold bind; simpl. by rewrite bool_decide_eq_true_2.
  - intros H kml w' Hk.
    assert (files w' = files w) as Hf.
    { pose proof (keeps_getKML (default (PBool false) (kwargs !! "nolabels"))
                    (delete "nolabels" kwargs) w) as Hkeep.
      by rewrite Hk in Hkeep. }
    split; [|by simpl; rewrite Hf].
    destruct (Py.truthy overwrite) eqn:Ho; unfold bind; simpl.
    + run. by rewrite Hk.
    + destruct H as [?|Hn]; [done|].
      rewrite bool_decide_eq_false_2 by (rewrite Hn; by intros [? ?]).
      run. by rewrite Hk.
Qed.

End run.

Lemma preview_returns_stream_without_traces_witness :
  (_WaveformMapperClient.getPreview (Sample.answering "no traces") Sample.self
     (PStr "BW") (PStr "MANZ") PNone PNone PNone PNone PNone ∅
     Sample.world0).1 = Ok [] ∧
  (_WaveformMapperClient.getPreviewByIds (Sample.answering "no traces")
     Sample.self (PList [PStr "BW.MANZ..EHE"]) PNone PNone ∅
     Sample.world0).1 = Ok [].
Proof.
  split.
  - apply (preview_returns_stream_without_traces (Sample.answering "no traces")
             Sample.self _ _ _ _ _ _ PNone ∅ Sample.world0 200 "OK" "no traces");
      [reflexivity|discriminate|reflexivity].
  - apply (preview_returns_stream_without_traces (Sample.answering "no traces")
             Sample.self PNone PNone PNone PNone PNone PNone
             (PList [PStr "BW.MANZ..EHE"]) ∅ Sample.world0 200 "OK" "no traces");
      [reflexivity|discriminate|reflexivity|].
    intros l [= <-]. eexists. reflexivity.
Defined.

Lemma saveKML_guards_existing_file_witness :
  _EventMapperClient.saveKML Sample.X Sample.self "old.kml" (PBool false) ∅
    Sample.world0
    = (Raise (OSError "File old.kml exists and overwrite=False."),
       Sample.world0) ∧
  ∃ kml_string w',
    _EventMapperClient.saveKML Sample.X Sample.self "new.kml" (PBool false) ∅
      Sample.world0 = (Ok tt, written "new.kml" kml_string w') ∧
    files (written "new.kml" kml_string w')
      = <["new.kml" := kml_string]> (files Sample.world0).
Proof.
  split.
  - apply (saveKML_guards_existing_file Sample.X Sample.self "old.kml"
             (PBool false) ∅ Sample.world0); [reflexivity|].
    vm_compute. eexists. reflexivity.
  - eexists _, _.
    apply (saveKML_guards_existing_file Sample.X Sample.self "new.kml"
             (PBool false) ∅ Sample.world0).
    + right. vm_compute. reflexivity.
    + vm_compute. reflexivity.
Defined.

End RunFacts.

(** ** The markers of the KML document *)

Module KmlFacts.
Import _EventMapperClient.

Lemma zeros_length n : String.length (Lib.zeros n) = n.
Proof. induction n as [|n IH]; simpl; [done|by rewrite IH]. Qed.

Lemma substring_length n m s :
  (n + m ≤ String.length s)%nat → String.length (substring n m s) = m.
Proof.
  revert n m. induction s as [|c s IH]; intros [|n] [|m] H; simpl in *;
    try done; try lia.
  - rewrite (IH 0%nat m) by lia. done.
  - apply IH. lia.
  - apply IH. lia.
Qed.

(** *** The digits that are printed spell the rounded number *)

Lemma digits_value_from_app acc a b :
  Lib.digits_value_from acc (a +:+ b)
  = match Lib.digits_value_from acc a with
    | Some v => Lib.digits_value_from v b
    | None => None
    end.
Proof.
  revert acc. induction a as [|c a IH]; intros acc; [done|].
  change (String c a +:+ b) with (String c (a +:+ b)). simpl.
  destruct (Lib.digit_value c); [apply IH|done].
Qed.

Lemma digits_value_from_zeros k :
  Lib.digits_value_from 0 (Lib.zeros k) = Some 0.
Proof. induction k as [|k IH]; [done|exact IH]. Qed.

Lemma digit_value_char d :
  (d < 10)%N → Lib.digit_value (pretty_N_char d) = Some (Z.of_N d).
Proof.
  intros H.
  assert (d = 0 ∨ d = 1 ∨ d = 2 ∨ d = 3 ∨ d = 4 ∨ d = 5 ∨ d = 6 ∨ d = 7
          ∨ d = 8 ∨ d = 9)%N as Hd by lia.
  repeat (destruct Hd as [->|Hd]; [reflexivity|]). by subst.
Qed.

Lemma digits_value_from_pretty_go (x : N) (s : string) :
  Lib.digits_value_from 0 (pretty_N_go x s)
  = Lib.digits_value_from (Z.of_N x) s.
Proof.
  revert s. induction (N.lt_wf_0 x) as [x _ IH]; intros s.
  assert (x = 0 ∨ 0 < x)%N as [->|Hx] by lia.
  - by rewrite pretty_N_go_0.
  - rewrite pretty_N_go_step by done.
    rewrite IH by (apply N.div_lt; lia). simpl.
    rewrite digit_value_char by (apply N.mod_lt; lia).
    f_equal. rewrite (N.div_mod x 10) at 3 by lia. lia.
Qed.

Lemma digits_value_pretty (n : Z) :
  0 ≤ n → Lib.digits_value (pretty n) = Some n.
Proof.
  intros Hn. unfold Lib.digits_value. destruct n as [|q|q]; [done| |lia].
  unfold pretty, pretty_Z, pretty, pretty_positive, pretty, pretty_N.
  destruct (decide (N.pos q = 0%N)); [done|].
  by rewrite digits_value_from_pretty_go.
Qed.

Lemma substring_all s : substring 0 (String.length s) s = s.
Proof. induction s as [|c s IH]; simpl; [done|by rewrite IH]. Qed.

Lemma substring_split k p s :
  (k + p)%nat = String.length s → substring 0 k s +:+ substring k p s = s.
Proof.
  revert k p. induction s as [|c s IH]; intros k p H.
  - by destruct k, p.
  - destruct k as [|k]; simpl in H.
    + subst p. exact (substring_all (String c s)).
    + injection H as H.
      change (String c (substring 0 k s +:+ substring k p s) = String c s).
      f_equal. by apply IH.
Qed.

(** The digits before and after the point are those of [n]. *)
Lemma fixed_digits_value p n :
  (0 < p)%nat → 0 ≤ n →
  ∃ whole frac, Lib.fixed_digits p n = whole +:+ "." +:+ frac ∧
                whole ≠ "" ∧ String.length frac = p ∧
                Lib.digits_value (whole +:+ frac) = Some n.
Proof.
  intros Hp Hn. unfold Lib.fixed_digits.
  destruct (Nat.eqb_spec p 0) as [->|_]; [lia|].
  set (s := Lib.zeros _ +:+ pretty n).
  assert (S p ≤ String.length s)%nat as Hs.
  { unfold s. rewrite ParamsFacts.string_length_app, zeros_length. lia. }
  exists (substring 0 (String.length s - p) s),
         (substring (String.length s - p) p s).
  split; [done|]. split; [|split].
  - intros E.
    assert (String.length (substring 0 (String.length s - p) s)
            = (String.length s - p)%nat) as Hl
      by (apply substring_length; lia).
    rewrite E in Hl. simpl in Hl. lia.
  - apply substring_length. lia.
  - rewrite substring_split by lia. unfold s, Lib.digits_value.
    rewrite digits_value_from_app, digits_value_from_zeros.
    by apply digits_value_pretty.
Qed.

(** Rounding half to even gives the nearest integer, the even one on a
    tie. *)
Lemma round_half_even_nearest num den :
  0 < den → Lib.nearest_even num den (Lib.round_half_even num den).
Proof.
  intros Hd. unfold Lib.nearest_even, Lib.round_half_even.
  pose proof (Z.div_mod num den ltac:(lia)) as E.
  pose proof (Z.mod_pos_bound num den Hd) as B.
  set (q := num / den) in *. set (r := num mod den) in *.
  destruct (Z.ltb_spec (2 * r) den) as [H1|H1];
    [|destruct (Z.ltb_spec den (2 * r)) as [H2|H2];
      [|destruct (Z.even q) eqn:Hq]].
  - replace (num - q * den) with r by lia. rewrite Z.abs_eq by lia. lia.
  - replace (num - (q + 1) * den) with (- (den - r)) by lia.
    rewrite Z.abs_opp, Z.abs_eq by lia. lia.
  - replace (num - q * den) with r by lia. rewrite Z.abs_eq by lia.
    split; [lia|done].
  - replace (num - (q + 1) * den) with (- (den - r)) by lia.
    rewrite Z.abs_opp, Z.abs_eq by lia. split; [lia|]. intros _.
    by rewrite Z.even_add, Hq.
Qed.

Lemma round_half_even_nonneg num den :
  0 ≤ num → 0 < den → 0 ≤ Lib.round_half_even num den.
Proof.
  intros Hn Hd. unfold Lib.round_half_even.
  assert (0 ≤ num / den) by (apply Z.div_pos; lia).
  repeat case_match; lia.
Qed.

(** ["%.Nf" % x] writes [x] with [N] decimals, rounded to the nearest,
    half to even. *)
Lemma format_f_decimal X p x :
  Lib.in_fixed_range x = true → (0 < p)%nat →
  Lib.decimal_of p x (Lib.format_f X p x).
Proof.
  unfold Lib.in_fixed_range, Lib.format_f, Lib.decimal_of. intros Hx Hp.
  destruct (Prim2SF x) as [sg| | |sg m e]; try done.
  - destruct (fixed_digits_value p 0 Hp) as (wh & fr & -> & ? & ? & ?);
      [done|].
    by exists sg, wh, fr, 0.
  - apply negb_true_iff in Hx. rewrite Hx.
    assert (0 < 10 ^ Z.of_nat p) by (apply Z.pow_pos_nonneg; lia).
    destruct (Z.leb_spec 0 e) as [He|He].
    + assert (0 < 2 ^ e) by (apply Z.pow_pos_nonneg; lia).
      destruct (fixed_digits_value p (Z.pos m * 10 ^ Z.of_nat p * 2 ^ e) Hp)
        as (wh & fr & -> & ? & ? & ?); [nia|].
      exists sg, wh, fr, (Z.pos m * 10 ^ Z.of_nat p * 2 ^ e).
      repeat split; try done. lia.
    + assert (0 < 2 ^ (- e)) by (apply Z.pow_pos_nonneg; lia).
      destruct (fixed_digits_value p
                  (Lib.round_half_even (Z.pos m * 10 ^ Z.of_nat p) (2 ^ (- e)))
                  Hp) as (wh & fr & -> & ? & ? & ?).
      { apply round_half_even_nonneg; [nia|done]. }
      eexists sg, wh, fr, _. repeat split; try done.
      * by apply round_half_even_nearest.
      * by apply round_half_even_nearest.
Qed.

Lemma format_f_val_number X p v f :
  Lib.number X v = Some f → Lib.format_f_val X p v = Ok (Lib.format_f X p f).
Proof. destruct v as [|[]| | |]; simpl; try done; by intros [= <-]. Qed.

(** C9, as the code has it.  For an event that has the four fields, with
    numbers below 1e50 for longitude and latitude: the coordinates are
    the longitude and the latitude written with ten decimals, rounded to
    the nearest, then [",0"]; the name is empty under [nolabels], the date
    alone when the magnitude prints as the empty text, and
    ["<date>: <magnitude>"] with the magnitude written with one decimal,
    rounded to the nearest, when it prints as a number.  A magnitude of
    5.0 on 2020-01-01 is labelled ["2020-01-01: 5.0"]. *)
Theorem placemark_name_and_coordinates (X : externals) (nolabels : pyval)
    (event_dict : gmap string oval) (dt mg lon lat : oval)
    (flon flat : float) :
  event_dict !! "datetime" = Some dt →
  event_dict !! "magnitude" = Some mg →
  event_dict !! "longitude" = Some lon →
  event_dict !! "latitude" = Some lat →
  Lib.number X lon = Some flon → Lib.number X lat = Some flat →
  Lib.in_fixed_range flon = true → Lib.in_fixed_range flat = true →
  let date := Lib.before_space (Lib.ostr X dt) in
  let marked (label : string → Prop) :=
    ∃ pm name lon_text lat_text,
      placemark X nolabels event_dict = Ok pm ∧
      Xml.text_at ["name"] pm = Some name ∧
      (if Py.truthy nolabels then name = "" else label name) ∧
      Xml.text_at ["Point"; "coordinates"] pm
        = Some (lon_text +:+ "," +:+ lat_text +:+ ",0") ∧
      Lib.decimal_of 10 flon lon_text ∧ Lib.decimal_of 10 flat lat_text in
  (Lib.ostr X mg = "" → marked (λ name, name = date)) ∧
  (∀ mag, Lib.ostr X mg ≠ "" →
     Lib.float_of_text X (Lib.ostr X mg) = Some mag →
     Lib.in_fixed_range mag = true →
     marked (λ name, ∃ text, name = date +:+ ": " +:+ text ∧
                             Lib.decimal_of 1 mag text)) ∧
  (date = "2020-01-01" → mg = OFloat 5 ∨ mg = OStr "5.0" →
     marked (λ name, name = "2020-01-01: 5.0")).
Proof.
  intros Hdt Hmg Hlon Hlat Hflon Hflat Rlon Rlat date marked.
  pose proof (format_f_decimal X 10 flon Rlon ltac:(lia)) as Dlon.
  pose proof (format_f_decimal X 10 flat Rlat ltac:(lia)) as Dlat.
  assert (∀ mag, Lib.ostr X mg ≠ "" →
            Lib.float_of_text X (Lib.ostr X mg) = Some mag →
            marked (λ name, name = date +:+ ": " +:+ Lib.format_f X 1 mag))
    as Hnum.
  { intros mag Hne Hf. unfold marked, placemark, field, label_and_size.
    rewrite Hdt, Hmg, Hlon, Hlat. cbn [rbind].
    rewrite (format_f_val_number _ _ _ _ Hflon),
      (format_f_val_number _ _ _ _ Hflat).
    simpl. rewrite (RunFacts.string_eqb_empty _ Hne). simpl. rewrite Hf. simpl.
    eexists _, _, _, _. split; [reflexivity|]. split; [reflexivity|].
    split; [by destruct (Py.truthy nolabels)|]. split; [reflexivity|done]. }
  split; [|split].
  - intros He. unfold marked, placemark, field, label_and_size.
    rewrite Hdt, Hmg, Hlon, Hlat. cbn [rbind].
    rewrite (format_f_val_number _ _ _ _ Hflon),
      (format_f_val_number _ _ _ _ Hflat).
    simpl. rewrite He. simpl.
    eexists _, _, _, _. split; [reflexivity|]. split; [reflexivity|].
    split; [by destruct (Py.truthy nolabels)|]. split; [reflexivity|done].
  - intros mag Hne Hf Rmag.
    destruct (Hnum mag Hne Hf) as (pm & name & a & b & ? & ? & Hl & ?).
    exists pm, name, a, b. repeat split; try tauto.
    destruct (Py.truthy nolabels); [done|]. eexists. split; [exact Hl|].
    apply format_f_decimal; [done|lia].
  - intros Hd Hfive.
    assert (Lib.ostr X mg = "5.0") as Htext by (by destruct Hfive as [->| ->]).
    destruct (Hnum 5%float) as (pm & name & a & b & ? & ? & Hl & ?).
    { rewrite Htext. discriminate. }
    { by rewrite Htext. }
    exists pm, name, a, b. repeat split; try tauto.
    destruct (Py.truthy nolabels); [done|]. by rewrite Hl, Hd.
Qed.

Lemma placemark_name_and_coordinates_witness :
  ∃ pm, placemark Sample.X (PBool false) Fixture.event = Ok pm ∧
        Xml.text_at ["name"] pm = Some "2020-01-01: 5.0" ∧
        Xml.text_at ["Point"; "coordinates"] pm
          = Some "11.5000000000,48.0000000000,0".
Proof.
  destruct (placemark_name_and_coordinates Sample.X (PBool false) Fixture.event
              (OStr "2020-01-01 12:00:00") (OFloat 5) (OFloat 11.5) (OFloat 48)
              11.5 48)
    as (_ & _ & H); [reflexivity..|].
  destruct H as (pm & name & a & b & Hpm & Hname & Hl & _);
    [reflexivity|by left|].
  simpl in Hl. subst name. exists pm. split; [exact Hpm|].
  split; [exact Hname|].
  vm_compute in Hpm. injection Hpm as <-. vm_compute. reflexivity.
Defined.

(** C9 as stated fails for an event that has no magnitude: there is no
    marker and no name, the event is refused with a [KeyError]. *)
Lemma event_without_magnitude_is_refused :
  Fixture.bad_event !! "magnitude" = None ∧
  placemark Sample.X (PBool false) Fixture.bad_event
    = Raise (KeyError "magnitude").
Proof. split; vm_compute; reflexivity. Qed.

End KmlFacts.

(** ** Instrument responses *)

Module PazFacts.
Import _StationMapperClient.

Lemma after_first_none (p : oelem → bool) (l : list oelem) :
  (∀ e, e ∈ l → p e = false) → XPath.after_first p l = [].
Proof.
  induction l as [|e l IH]; intros H; simpl; [done|].
  rewrite (H e) by left. apply IH. intros e' He'. apply H. by right.
Qed.

Lemma following_none X ch loc step sel base :
  Py.contains "'" ch = false → Py.contains "'" loc = false →
  (∀ e, e ∈ Objectify.getchildren base → XPath.identifies ch loc e = false) →
  XPath.following X ch loc step sel base = Ok [].
Proof.
  intros Hc Hl H. unfold XPath.following. rewrite Hc, Hl. simpl.
  by rewrite after_first_none.
Qed.

Lemma paz_of_header_unmatched X base ch loc sg :
  ch ≠ "" ∨ loc ≠ "" →
  Py.contains "'" ch = false → Py.contains "'" loc = false →
  (∀ e, e ∈ Objectify.getchildren base → XPath.identifies ch loc e = false) →
  paz_of_header X base (PStr ch) (PStr loc) sg = Raise IndexError.
Proof.
  intros Hf Hc Hl H. unfold paz_of_header, select_nodes.
  assert (Py.truthy (PStr ch) || Py.truthy (PStr loc) = true) as ->.
  { simpl. destruct Hf as [Hf|Hf];
      rewrite (RunFacts.string_eqb_empty _ Hf); simpl; [done|].
    by rewrite orb_true_r. }
  simpl. by rewrite following_none.
Qed.

(** [getPAZ] up to the station header: what is left is the work on the
    header. *)
Lemma getPAZ_header X self n s t l c sg w xml_doc rest w1 name res w2
    base c' l' :
  getList X self n s {[ "datetime" := t ]} w = (Ok (xml_doc :: rest), w1) →
  reset_wildcards c l = Ok (c', l') →
  xml_doc !! "resource_name" = Some (OStr name) →
  _BaseRESTClient.getXMLResource X self package resourcetype name ∅
    (if decide (rest = []) then w1
     else warned_of "Received more than one PAZ file. Using first." w1)
    = (Ok res, w2) →
  Objectify.child "station_control_header" res = Ok base →
  getPAZ X self n s t l c sg w = (paz_of_header X base c' l' sg, w2).
Proof.
  intros Hlist Hreset Hname Hres Hbase.
  unfold getPAZ. unfold mbind at 1, M_bind at 1, bind at 1. rewrite Hlist.
  rewrite Hreset, Hname. RunFacts.run.
  destruct (decide (rest = [])); simpl in *; by rewrite Hres, Hbase.
Qed.

Lemma rmap_pointwise {A B} (f : A → result B) (l : list A) (k : list B) :
  Forall2 (λ x y, f x = Ok y) l k → rmap f l = Ok k.
Proof.
  induction 1 as [|x y l k Hxy _ IH]; simpl; [done|].
  by rewrite Hxy, IH.
Qed.

(** [complex(p[0], p[1])] over the zipped lists: one number for each
    pair, whatever the lists are beyond the shorter one. *)
Lemma complexes_pairs X reals imags zs :
  Forall2 (λ p z, Objectify.to_float X p.1 = Ok z.1 ∧
                  Objectify.to_float X p.2 = Ok z.2) (zip reals imags) zs →
  complexes X reals imags = Ok zs.
Proof.
  intros H. apply rmap_pointwise.
  eapply Forall2_impl; [exact H|]. cbv beta.
  intros [re im] [x y] [Hx Hy]. simpl in *. by rewrite Hx, Hy.
Qed.

Lemma child_of_some name e :
  Objectify.children_named name e ≠ [] → ∃ c, Objectify.child name e = Ok c.
Proof.
  unfold Objectify.child. destruct (Objectify.children_named name e); [done|].
  by eexists.
Qed.

Lemma build_paz_pairs X paz_node sn gn sg cp cz poles zeros gain sensitivity g :
  Objectify.child "complex_pole" paz_node = Ok cp →
  Objectify.child "complex_zero" paz_node = Ok cz →
  Objectify.children_named "real_pole" cp ≠ [] →
  Objectify.children_named "imaginary_pole" cp ≠ [] →
  Objectify.children_named "real_zero" cz ≠ [] →
  Objectify.children_named "imaginary_zero" cz ≠ [] →
  Forall2 (λ p z, Objectify.to_float X p.1 = Ok z.1 ∧
                  Objectify.to_float X p.2 = Ok z.2)
    (zip (Objectify.children_named "real_pole" cp)
         (Objectify.children_named "imaginary_pole" cp)) poles →
  Forall2 (λ p z, Objectify.to_float X p.1 = Ok z.1 ∧
                  Objectify.to_float X p.2 = Ok z.2)
    (zip (Objectify.children_named "real_zero" cz)
         (Objectify.children_named "imaginary_zero" cz)) zeros →
  rbind (Objectify.child "A0_normalization_factor" paz_node)
    (Objectify.pyval X) = Ok gain →
  rbind (Objectify.child "sensitivity_gain" sn) (Objectify.pyval X)
    = Ok sensitivity →
  (Py.truthy sg = true →
   rbind (Objectify.child "sensitivity_gain" gn) (Objectify.pyval X) = Ok g) →
  build_paz X paz_node sn gn sg
  = Ok (let paz : gmap string pazval :=
          <["sensitivity" := PazScalar sensitivity]>
            (<["gain" := PazScalar gain]>
               (<["zeros" := PazComplex zeros]>
                  (<["poles" := PazComplex poles]> ∅))) in
        if Py.truthy sg then <["seismometer_gain" := PazScalar g]> paz
        else paz).
Proof.
  intros Hcp Hcz [? Hrp]%child_of_some [? Hip]%child_of_some
    [? Hrz]%child_of_some [? Hiz]%child_of_some
    Hpoles%complexes_pairs Hzeros%complexes_pairs Hgain Hsens Hg.
  unfold build_paz.
  rewrite Hcp, Hcz. cbn [rbind]. rewrite Hrp, Hip. cbn [rbind].
  rewrite Hpoles. cbn [rbind]. rewrite Hrz, Hiz. cbn [rbind].
  rewrite Hzeros. cbn [rbind]. rewrite Hgain, Hsens. cbn [rbind].
  destruct (Py.truthy sg); [|done]. by rewrite Hg.
Qed.

Lemma build_paz_no_imaginary_part X paz_node sn gn sg cp :
  Objectify.child "complex_pole" paz_node = Ok cp →
  Objectify.children_named "real_pole" cp ≠ [] →
  Objectify.children_named "imaginary_pole" cp = [] →
  build_paz X paz_node sn gn sg
  = Raise (AttributeError "no such child: imaginary_pole").
Proof.
  intros Hcp [? Hrp]%child_of_some Hip. unfold build_paz.
  rewrite Hcp. cbn [rbind]. rewrite Hrp. cbn [rbind].
  unfold Objectify.child at 1. by rewrite Hip.
Qed.




End PazFacts.

(** ** The two loops of [_fetch], whatever the order of iteration *)

Module OrderFacts.
Import Params Collisions ParamsFacts.

Lemma writes_functional k v q s s' :
  (q, s) ∈ writes (k, v) → (q, s') ∈ writes (k, v) → s = s'.
Proof.
  intros [_ H]%elem_of_writes [_ H']%elem_of_writes.
  destruct (is_range v).
  - destruct H as [[-> ->]|[-> ->]], H' as [[E ->]|[E ->]]; done.
  - destruct H as [_ ->], H' as [_ ->]. done.
Qed.

Lemma writes_truthy k v q s : (q, s) ∈ writes (k, v) → Py.truthy v = true.
Proof. by intros [? _]%elem_of_writes. Qed.

(** A list of assignments made in order holds, under a name assigned
    one value only, that value. *)
Lemma assigned_lookup (ws : list (string * string)) q s :
  (∀ s1 s2, (q, s1) ∈ ws → (q, s2) ∈ ws → s1 = s2) →
  (list_to_map (reverse ws) : gmap string string) !! q = Some s ↔ (q, s) ∈ ws.
Proof.
  intros Hfun. split.
  - intros H%elem_of_list_to_map_2. by rewrite elem_of_reverse in H.
  - intros Hin.
    destruct ((list_to_map (reverse ws) : gmap string string) !! q) as [s'|] eqn:E.
    + apply elem_of_list_to_map_2 in E. rewrite elem_of_reverse in E.
      by rewrite (Hfun s' s E Hin).
    + apply not_elem_of_list_to_map in E. exfalso. apply E.
      apply list_elem_of_fmap. exists (q, s). split; [done|].
      by apply elem_of_reverse.
Qed.

Lemma elem_of_permuted_writes (kwargs : gmap string pyval) l q s :
  l ≡ₚ map_to_list kwargs →
  (q, s) ∈ l ≫= writes ↔
  ∃ k v, kwargs !! k = Some v ∧ (q, s) ∈ writes (k, v).
Proof. intros ->. apply elem_of_all_writes. Qed.

Lemma foldl_params_lookup (kwargs : gmap string pyval) l q s :
  l ≡ₚ map_to_list kwargs → collision_free kwargs →
  foldl fold_param ∅ l !! q = Some s ↔
  ∃ k v, kwargs !! k = Some v ∧ (q, s) ∈ writes (k, v).
Proof.
  intros Hl Hfree.
  rewrite foldl_fold_param, foldl_assign, (right_id_L ∅ (∪)).
  rewrite assigned_lookup; [by apply elem_of_permuted_writes|].
  intros s1 s2 (k1 & v1 & Hk1 & Hw1)%(elem_of_permuted_writes kwargs)
               (k2 & v2 & Hk2 & Hw2)%(elem_of_permuted_writes kwargs);
    [|done..].
  assert (k1 = k2) as <- by (by eapply Hfree).
  assert (v1 = v2) as <- by congruence.
  by eapply writes_functional.
Qed.

Lemma option_ext {A} (x y : option A) : (∀ a, x = Some a ↔ y = Some a) → x = y.
Proof.
  intros H. destruct x as [a|], y as [b|]; [| | |done].
  - by apply H.
  - symmetry. by apply (H a).
  - by apply (H b).
Qed.

(** Names written once each are written by one argument each. *)
Lemma NoDup_collision_free (kwargs : gmap string pyval) :
  NoDup (written_names kwargs) → collision_free kwargs.
Proof.
  unfold written_names. intros Hnd k1 v1 k2 v2 q s1 s2 H1 H2 Hw1 Hw2.
  destruct (decide (k1 = k2)) as [|Hne]; [done|]. exfalso.
  apply elem_of_map_to_list in H1, H2.
  apply elem_of_Permutation in H1 as [l1 Hl1].
  rewrite Hl1 in H2. apply elem_of_cons in H2 as [[=]|H2]; [done|].
  apply elem_of_Permutation in H2 as [l2 Hl2].
  rewrite Hl1, Hl2 in Hnd. simpl in Hnd.
  rewrite !fmap_app in Hnd. apply NoDup_app in Hnd as (_ & Hd & _).
  apply (Hd q).
  - apply list_elem_of_fmap. by exists (q, s1).
  - apply elem_of_app. left. apply list_elem_of_fmap. by exists (q, s2).
Qed.

(** Without collisions the result depends on the non-empty arguments
    only. *)
Lemma fold_params_ext (m1 m2 : gmap string pyval) :
  collision_free m1 →
  (∀ k v, Py.truthy v = true → m1 !! k = Some v ↔ m2 !! k = Some v) →
  fold_params m1 = fold_params m2.
Proof.
  intros Hfree Hsame.
  assert (∀ q s, (∃ k v, m1 !! k = Some v ∧ (q, s) ∈ writes (k, v)) ↔
                 (∃ k v, m2 !! k = Some v ∧ (q, s) ∈ writes (k, v))) as Hw.
  { intros q s. split; intros (k & v & Hk & Hin); exists k, v;
      (split; [|done]);
      destruct (Hsame k v (writes_truthy _ _ _ _ Hin)) as [? ?]; auto. }
  assert (collision_free m2) as Hfree2.
  { intros k1 v1 k2 v2 q s1 s2 H1 H2 Hw1 Hw2.
    apply (Hfree k1 v1 k2 v2 q s1 s2); [| |done..].
    - destruct (Hsame k1 v1 (writes_truthy _ _ _ _ Hw1)) as [? ?]; auto.
    - destruct (Hsame k2 v2 (writes_truthy _ _ _ _ Hw2)) as [? ?]; auto. }
  apply map_eq; intros q. apply option_ext; intros s.
  unfold fold_params.
  rewrite (foldl_params_lookup m1 (map_to_list m1)) by done.
  rewrite (foldl_params_lookup m2 (map_to_list m2)) by done.
  apply Hw.
Qed.

Lemma permuted_table_ok t : t ≡ₚ KEYWORDS → table_ok t.
Proof.
  intros Ht. destruct KEYWORDS_ok as [H1 H2 H3]. split.
  - by rewrite Ht.
  - by rewrite Ht.
  - intros x. rewrite Ht. apply H3.
Qed.

(** X1: the keyword loop of [_fetch] runs over a dictionary, in an
    order Python does not fix; visiting the six entries of [KEYWORDS] in
    any order renames the arguments to the same result. *)
Theorem keyword_loop_order_irrelevant (t : list (string * string))
    (kwargs : gmap string pyval) :
  t ≡ₚ KEYWORDS → foldl map_keyword kwargs t = map_keywords kwargs.
Proof.
  intros Ht. pose proof (permuted_table_ok t Ht) as Hok.
  apply map_eq; intros q. unfold map_keywords.
  destruct (decide (q ∈ KEYWORDS.*1)) as [Hk|Hk].
  - rewrite (rename_lookup_key KEYWORDS _ q KEYWORDS_ok Hk).
    apply rename_lookup_key; [done|]. by rewrite Ht.
  - destruct (decide (q ∈ KEYWORDS.*2)) as [Hv|Hv].
    + apply list_elem_of_fmap in Hv as ([c k] & -> & Hck). cbn [snd] in *.
      rewrite (rename_lookup_val KEYWORDS _ c k KEYWORDS_ok Hck).
      apply rename_lookup_val; [done|]. by rewrite Ht.
    + rewrite (rename_lookup_other KEYWORDS) by done.
      apply rename_lookup_other; by rewrite Ht.
Qed.

Lemma keyword_loop_order_irrelevant_witness :
  foldl map_keyword Fixture.kwargs (reverse KEYWORDS)
    = map_keywords Fixture.kwargs.
Proof.
  apply keyword_loop_order_irrelevant.
  apply (bool_decide_unpack _). vm_compute. exact I.
Defined.

(** X2: the loop over the arguments runs in dictionary order too; when
    no two arguments write the same parameter name, visiting them in any
    order builds the same [params]. *)
Theorem param_loop_order_irrelevant (kwargs : gmap string pyval)
    (l : list (string * pyval)) :
  l ≡ₚ map_to_list kwargs → collision_free kwargs →
  foldl fold_param ∅ l = fold_params kwargs.
Proof.
  intros Hl Hfree. apply map_eq; intros q. apply option_ext; intros s.
  unfold fold_params.
  rewrite (foldl_params_lookup kwargs l) by done.
  by rewrite (foldl_params_lookup kwargs (map_to_list kwargs)).
Qed.

Lemma param_loop_order_irrelevant_witness :
  foldl fold_param ∅ (reverse (map_to_list Fixture.kwargs))
    = fold_params Fixture.kwargs.
Proof.
  apply param_loop_order_irrelevant.
  - apply reverse_Permutation.
  - apply NoDup_collision_free.
    apply (bool_decide_unpack _). vm_compute. exact I.
Defined.

(** X3: what [_fetch] sends is what the loop writes for the arguments
    that are left after the renaming and are not empty.  Every outgoing
    entry stems from such an argument: under the argument's own name
    with [str] of its value, or, for a tuple or list of two, under
    [min_] and [max_] plus the name with [str] of the two items; an
    argument whose value is [None], [''], [0], [False] or an empty
    sequence yields nothing.  When no two arguments write the same name,
    every such entry is sent. *)
Theorem params_are_the_writes_of_truthy_arguments (kwargs : gmap string pyval)
    (q s : string) :
  let written :=
    ∃ k v, map_keywords kwargs !! k = Some v ∧ Py.truthy v = true ∧
           if is_range v
           then (q = "min_" +:+ k ∧ s = Py.str (Py.item v 0)) ∨
                (q = "max_" +:+ k ∧ s = Py.str (Py.item v 1))
           else q = k ∧ s = Py.str v in
  (fetch_params kwargs !! q = Some s → written) ∧
  (collision_free (map_keywords kwargs) → written →
   fetch_params kwargs !! q = Some s).
Proof.
  intros written. unfold fetch_params. split.
  - intros (k & v & Hk & Hw)%fold_params_lookup_Some.
    exists k, v. split; [done|]. by apply elem_of_writes.
  - intros Hfree (k & v & Hk & Hw).
    apply (foldl_params_lookup (map_keywords kwargs)
             (map_to_list (map_keywords kwargs))); [done..|].
    exists k, v. split; [done|]. by apply elem_of_writes.
Qed.

Lemma params_are_the_writes_of_truthy_arguments_witness :
  fetch_params Fixture.kwargs !! "max_datetime" = Some "2010-02-01".
Proof.
  apply (params_are_the_writes_of_truthy_arguments Fixture.kwargs).
  - apply NoDup_collision_free.
    apply (bool_decide_unpack _). vm_compute. exact I.
  - exists "datetime", (PTuple [PStr "2010-01-01"; PStr "2010-02-01"]).
    split; [vm_compute; reflexivity|]. split; [reflexivity|].
    right. split; reflexivity.
Defined.

Lemma map_keyword_insert_other (m : gmap string pyval) n v c k :
  n ≠ c → n ≠ k →
  map_keyword (<[n := v]> m) (c, k) = <[n := v]> (map_keyword m (c, k)).
Proof.
  intros Hc Hk. unfold map_keyword; simpl.
  rewrite lookup_insert_ne by done. destruct (m !! c) as [x|]; [|done].
  rewrite (insert_insert_ne m k n) by done.
  by rewrite delete_insert_ne by done.
Qed.

Lemma rename_insert_other t (m : gmap string pyval) n v :
  n ∉ t.*1 → n ∉ t.*2 →
  foldl map_keyword (<[n := v]> m) t = <[n := v]> (foldl map_keyword m t).
Proof.
  revert m. induction t as [|[c k] t IH]; intros m H1 H2; simpl in *; [done|].
  apply not_elem_of_cons in H1 as [? ?]. apply not_elem_of_cons in H2 as [? ?].
  rewrite map_keyword_insert_other by done. by apply IH.
Qed.

Lemma bound_lookup names (kwargs acc : gmap string pyval) q :
  foldl (λ kw name, <[name := default PNone (kwargs !! name)]> kw) acc names !! q
  = if decide (q ∈ names) then Some (default PNone (kwargs !! q)) else acc !! q.
Proof.
  revert acc. induction names as [|n names IH]; intros acc; simpl.
  - destruct (decide (q ∈ [])) as [Hin|]; [by apply elem_of_nil in Hin|done].
  - rewrite IH.
    destruct (decide (q ∈ names)) as [Hin|Hin],
             (decide (q ∈ n :: names)) as [Hin'|Hin']; try done.
    + exfalso. apply Hin'. by right.
    + apply elem_of_cons in Hin' as [->|?]; [|done]. by rewrite lookup_insert_eq.
    + rewrite lookup_insert_ne; [done|]. intros <-. apply Hin'. left.
Qed.

Lemma rename_bound names (kwargs acc : gmap string pyval) :
  (∀ n, n ∈ names → (n ∉ KEYWORDS.*1) ∧ (n ∉ KEYWORDS.*2)) →
  map_keywords
    (foldl (λ kw name, <[name := default PNone (kwargs !! name)]> kw) acc names)
  = foldl (λ kw name, <[name := default PNone (kwargs !! name)]> kw)
      (map_keywords acc) names.
Proof.
  revert acc. induction names as [|n names IH]; intros acc H; simpl; [done|].
  rewrite IH by (intros n' Hn'; apply H; by right).
  destruct (H n) as [? ?]; [left|].
  unfold map_keywords. by rewrite rename_insert_other.
Qed.

Lemma getList_parameters_not_renamed n :
  n ∈ _EventMapperClient.getList_parameters →
  (n ∉ KEYWORDS.*1) ∧ (n ∉ KEYWORDS.*2).
Proof.
  assert (Forall (λ n, (n ∉ KEYWORDS.*1) ∧ (n ∉ KEYWORDS.*2))
            _EventMapperClient.getList_parameters) as H
    by (apply (bool_decide_unpack _); by vm_compute).
  apply (proj1 (Forall_forall _ _) H).
Qed.

(** X4: [getList] of the event mapper stores its twenty-four named
    parameters back among the keyword arguments, [None] where the caller
    gave none; these add nothing to the request: what is sent is what
    [_fetch] sends for the caller's own arguments (no two of which write
    the same parameter name). *)
Theorem event_getList_defaults_add_nothing (kwargs : gmap string pyval) :
  collision_free (map_keywords kwargs) →
  fetch_params
    (_EventMapperClient.bind_parameters _EventMapperClient.getList_parameters
       kwargs)
  = fetch_params kwargs.
Proof.
  intros Hfree. unfold fetch_params, _EventMapperClient.bind_parameters.
  rewrite rename_bound by apply getList_parameters_not_renamed.
  symmetry. apply fold_params_ext; [done|]. intros k v Hv.
  rewrite bound_lookup. destruct (decide _) as [Hin|]; [|done].
  destruct (getList_parameters_not_renamed k Hin) as [? ?].
  unfold map_keywords. rewrite rename_lookup_other by done.
  destruct (kwargs !! k) as [x|]; simpl; [done|].
  split; [done|]. intros [= <-]. done.
Qed.

Lemma event_getList_defaults_add_nothing_witness :
  fetch_params
    (_EventMapperClient.bind_parameters _EventMapperClient.getList_parameters
       Fixture.kwargs)
  = fetch_params Fixture.kwargs.
Proof.
  apply event_getList_defaults_add_nothing.
  apply NoDup_collision_free.
  apply (bool_decide_unpack _). vm_compute. exact I.
Defined.

End OrderFacts.

(** ** Status requests and resources *)

Module StatusFacts.
Import TransportFacts.

(** A request that passes the checks of [_HTTP_request] goes out once,
    as given. *)
Lemma HTTP_request_run X url method xml_string headers w :
  (method ∈ HTTP_ACCEPTED_DATA_METHODS ∧ xml_string ≠ "") ∨
  (method ∈ HTTP_ACCEPTED_NODATA_METHODS ∧ xml_string = "") →
  let req := {| req_method := method; req_url := url; req_data := xml_string;
                req_headers := headers |} in
  Client._HTTP_request X url method xml_string headers w
    = (Status.of_reply (urlopen X (sent w) req), issued req w).
Proof.
  intros H req. unfold Client._HTTP_request, RequestWithMethod.__init__.
  assert (str_in method HTTP_ACCEPTED_METHODS = true) as ->.
  { apply str_in_true, elem_of_app. destruct H as [[? _]|[? _]]; auto. }
  rewrite truthy_PStr. simpl.
  assert (str_in method HTTP_ACCEPTED_DATA_METHODS
          && negb (negb (bool_decide (xml_string = ""))) = false) as ->.
  { destruct H as [[_ Hx]|[Hm _]].
    - rewrite (bool_decide_eq_false_2 _ Hx). apply andb_false_r.
    - by rewrite (str_in_false _ _ (nodata_not_data _ Hm)). }
  assert (str_in method HTTP_ACCEPTED_NODATA_METHODS
          && negb (bool_decide (xml_string = "")) = false) as ->.
  { destruct H as [[Hm Hx]|[_ Hx]].
    - apply andb_false_iff. left. apply str_in_false. intros Hn.
      by apply (nodata_not_data _ Hn).
    - rewrite (bool_decide_eq_true_2 _ Hx). apply andb_false_r. }
  RunFacts.run. unfold Client.send. fold req.
  by destruct (urlopen X (sent w) req).
Qed.

(** X5: PUT or POST with a body, and HEAD, GET or DELETE without one,
    pass the checks of [_HTTP_request]: the constructor of
    [RequestWithMethod] accepts the method and [get_method] gives it
    back, exactly one request goes out, with the method, address, body
    and headers given, and the result is the status code and message,
    of a response and of an [HTTPError] alike; only a failed connection
    raises. *)
Theorem HTTP_request_returns_the_status (X : externals)
    (url method xml_string : string) (headers : list (string * string))
    (w : world) :
  (method ∈ HTTP_ACCEPTED_DATA_METHODS ∧ xml_string ≠ "") ∨
  (method ∈ HTTP_ACCEPTED_NODATA_METHODS ∧ xml_string = "") →
  let req := {| req_method := method; req_url := url; req_data := xml_string;
                req_headers := headers |} in
  RequestWithMethod.__init__ method url xml_string headers = Ok req ∧
  RequestWithMethod.get_method req = method ∧
  Client._HTTP_request X url method xml_string headers w
    = (match urlopen X (sent w) req with
       | Response code msg _ | HTTPFailure code msg => Ok (code, msg)
       | Unreachable => Raise URLError
       end, issued req w).
Proof.
  intros H req. split; [|split; [done|]].
  - unfold RequestWithMethod.__init__.
    rewrite str_in_true; [done|].
    apply elem_of_app. destruct H as [[? _]|[? _]]; auto.
  - by apply HTTP_request_run.
Qed.

Lemma HTTP_request_returns_the_status_witness :
  Client._HTTP_request Sample.X "http://localhost:8080/xml/seismology/event/e1"
    "PUT" "<event/>" [] Sample.world0
  = (Ok (200, "OK"),
     issued {| req_method := "PUT";
               req_url := "http://localhost:8080/xml/seismology/event/e1";
               req_data := "<event/>"; req_headers := [] |} Sample.world0).
Proof.
  apply (HTTP_request_returns_the_status Sample.X
           "http://localhost:8080/xml/seismology/event/e1" "PUT" "<event/>" []
           Sample.world0).
  left. split; [|discriminate]. apply (bool_decide_unpack _). vm_compute. exact I.
Defined.

(** X6: [testAuth] sends one HEAD request, without body or headers, to
    [base_url + "/xml/"]; status 200 gives [True] and 401 [False],
    whether the server's answer counts as a response or as an
    [HTTPError]; any other status raises an [Exception] that names the
    code, and a failed connection raises. *)
Theorem testAuth_by_status_code (X : externals) (self : client) (w : world) :
  let req := {| req_method := "HEAD"; req_url := base_url self +:+ "/xml/";
                req_data := ""; req_headers := [] |} in
  Client.testAuth X self w
    = (match urlopen X (sent w) req with
       | Response code _ _ | HTTPFailure code _ =>
           if decide (code = 200) then Ok true
           else if decide (code = 401) then Ok false
           else Raise (Exception_ ("Unexpected request status code: " +:+
                                   pretty code))
       | Unreachable => Raise URLError
       end, issued req w).
Proof.
  intros req. unfold Client.testAuth.
  unfold mbind at 1, M_bind at 1, bind at 1.
  rewrite (HTTP_request_run X (base_url self +:+ "/xml/") "HEAD" "" [] w).
  - fold req.
    destruct (urlopen X (sent w) req) as [code msg body|code msg|]; simpl;
      [| |done];
      (destruct (decide (code = 200)) as [->|H2]; [done|];
       rewrite (proj2 (Z.eqb_neq code 200) H2);
       destruct (decide (code = 401)) as [->|H4]; [done|];
       by rewrite (proj2 (Z.eqb_neq code 401) H4)).
  - right. split; [|done]. apply (bool_decide_unpack _). by vm_compute.
Qed.

(** X7: [putResource] with an empty document raises [TypeError] and
    sends nothing; with a document it sends one PUT carrying it to
    [{base_url}/xml/{package}/{resourcetype}/{resource_name}].
    [deleteResource] always sends one DELETE without body to that
    address.  Both return the status code and message. *)
Theorem put_needs_a_body_delete_takes_none (X : externals) (self : client)
    (package resourcetype resource_name xml_string : string)
    (headers : list (string * string)) (w : world) :
  let url := Status.address self package resourcetype resource_name in
  let put := {| req_method := "PUT"; req_url := url;
                req_data := xml_string; req_headers := headers |} in
  let delete := {| req_method := "DELETE"; req_url := url;
                   req_data := ""; req_headers := headers |} in
  _BaseRESTClient.putResource X self package resourcetype resource_name
      xml_string headers w
    = (if decide (xml_string = "")
       then (Raise (TypeError "Missing data for PUT request."), w)
       else (Status.of_reply (urlopen X (sent w) put), issued put w)) ∧
  _BaseRESTClient.deleteResource X self package resourcetype resource_name
      headers w
    = (Status.of_reply (urlopen X (sent w) delete), issued delete w).
Proof.
  intros url put delete. unfold _BaseRESTClient.putResource,
    _BaseRESTClient.deleteResource. split.
  - destruct (decide (xml_string = "")) as [->|Hx]; [done|].
    rewrite HTTP_request_run; [done|].
    left. split; [|done]. apply (bool_decide_unpack _). by vm_compute.
  - rewrite HTTP_request_run; [done|].
    right. split; [|done]. apply (bool_decide_unpack _). by vm_compute.
Qed.

End StatusFacts.

Module ResourceFacts.
Import Params ParamsFacts.

Lemma fold_params_plain_falsy (kwargs : gmap string pyval) k v :
  plain_key k → kwargs !! k = Some v → Py.truthy v = false →
  fold_params kwargs !! k = None.
Proof.
  intros Hpl Hk Hv. apply fold_params_lookup_None.
  intros k' v' s' Hk' [Ht Hw]%elem_of_writes.
  destruct (is_range v').
  - destruct (Hpl k') as [? ?]. by destruct Hw as [[? _]|[? _]].
  - destruct Hw as [<- _]. congruence.
Qed.

(** X8: [getResource] copies its named parameters among the keyword
    arguments, so its one GET to
    [{base_url}/xml/{package}/{resourcetype}/{resource_name}?...] names
    the resource a second time, as the query parameter [resource_name];
    a [format] left at [None] is not sent. *)
Theorem getResource_repeats_the_name (X : externals) (self : client)
    (package resourcetype resource_name : string) (format : pyval)
    (kw : gmap string pyval) (w : world) :
  let kwargs := with_locals [("resource_name", PStr resource_name);
                             ("format", format)] kw in
  sent (_BaseRESTClient.getResource X self package resourcetype resource_name
          format kw w).2
    = (sent w ++ [Client.get_request
                    (base_url self +:+ "/xml/" +:+ package +:+ "/" +:+
                     resourcetype +:+ "/" +:+ resource_name +:+ "?" +:+
                     Lib.urlencode (fetch_params kwargs))])%list ∧
  (resource_name ≠ "" →
   fetch_params kwargs !! "resource_name" = Some resource_name) ∧
  (Py.truthy format = false → fetch_params kwargs !! "format" = None).
Proof.
  intros kwargs.
  assert (map_keywords kwargs !! "resource_name" = Some (PStr resource_name))
    as Hname.
  { unfold map_keywords. rewrite rename_lookup_other
      by (apply (bool_decide_unpack _); by vm_compute).
    unfold kwargs, with_locals. simpl.
    rewrite lookup_insert_ne by done. apply lookup_insert_eq. }
  assert (map_keywords kwargs !! "format" = Some format) as Hformat.
  { unfold map_keywords. rewrite rename_lookup_other
      by (apply (bool_decide_unpack _); by vm_compute).
    unfold kwargs, with_locals. simpl. apply lookup_insert_eq. }
  split; [|split].
  - unfold _BaseRESTClient.getResource, Client._fetch, Client.send.
    fold kwargs. RunFacts.run. unfold Client.remoteaddr.
    rewrite !RequestsFacts.string_app_assoc.
    by destruct (urlopen X _ _).
  - intros Hne. unfold fetch_params.
    apply (fold_params_plain _ "resource_name" (PStr resource_name));
      [by apply plain_key_first|done| |done].
    simpl. by rewrite (RunFacts.string_eqb_empty _ Hne).
  - intros Hf. unfold fetch_params.
    by apply (fold_params_plain_falsy _ "format" format);
      [apply plain_key_first|..].
Qed.

Lemma getResource_repeats_the_name_witness :
  fetch_params (with_locals [("resource_name", PStr "e1"); ("format", PNone)] ∅)
    !! "resource_name" = Some "e1" ∧
  fetch_params (with_locals [("resource_name", PStr "e1"); ("format", PNone)] ∅)
    !! "format" = None.
Proof.
  destruct (getResource_repeats_the_name Sample.X Sample.self
              "seismology" "event" "e1" PNone ∅ Sample.world0)
    as (_ & H1 & H2).
  split; [apply H1; discriminate|apply H2; reflexivity].
Defined.

End ResourceFacts.

(** ** Station metadata *)

Module StationFacts.
Import _StationMapperClient Station.

Section station.
Context (X : externals) (self : client).

Lemma getCoordinates_run n s t l w metadata w1 :
  getList X self n s {[ "datetime" := t; "location" := l ]} w
    = (Ok metadata, w1) →
  getCoordinates X self n s t l w =
    match metadata with
    | [] => (Raise (Exception_ ("No coordinates for station " +:+ Py.str n +:+
                                "." +:+ Py.str s +:+ " at " +:+ Py.str t)), w1)
    | md :: rest =>
        (rbind (rmap (λ key, match md !! key with
                             | Some v => Ok (key, v)
                             | None => Raise (KeyError key)
                             end) ["latitude"; "longitude"; "elevation"])
           (λ l, Ok (list_to_map l)),
         more_than_one rest "Received more than one metadata set. Using first."
           w1)
    end.
Proof.
  intros Hlist. unfold getCoordinates.
  unfold mbind at 1, M_bind at 1, bind at 1. rewrite Hlist.
  destruct metadata as [|md rest]; [done|].
  unfold more_than_one. destruct (decide (rest = [])); RunFacts.run; done.
Qed.

(** X9: when the station list has a record, [getCoordinates] answers
    from the first one: the result has the keys [latitude], [longitude]
    and [elevation] and no other, with the values of that record, and a
    warning is given exactly when there are more records.  A record that
    lacks one of the three keys makes the call raise [KeyError] for a
    key that is missing. *)
Theorem getCoordinates_takes_the_first_record n s t l w md rest w1 :
  getList X self n s {[ "datetime" := t; "location" := l ]} w
    = (Ok (md :: rest), w1) →
  let w2 := more_than_one rest
              "Received more than one metadata set. Using first." w1 in
  (∀ lat lon el,
     md !! "latitude" = Some lat → md !! "longitude" = Some lon →
     md !! "elevation" = Some el →
     getCoordinates X self n s t l w
       = (Ok {[ "latitude" := lat; "longitude" := lon; "elevation" := el ]},
          w2)) ∧
  (∀ key, key ∈ ["latitude"; "longitude"; "elevation"] → md !! key = None →
     ∃ missing, md !! missing = None ∧
       getCoordinates X self n s t l w = (Raise (KeyError missing), w2)).
Proof.
  intros Hlist w2. rewrite (getCoordinates_run _ _ _ _ _ _ _ Hlist). split.
  - intros lat lon el Hlat Hlon Hel. simpl. rewrite Hlat, Hlon, Hel. simpl.
    by rewrite insert_empty.
  - intros key Hkey Hnone. simpl.
    destruct (md !! "latitude") eqn:Hlat; [|by exists "latitude"].
    destruct (md !! "longitude") eqn:Hlon; [|by exists "longitude"].
    destruct (md !! "elevation") eqn:Hel; [|by exists "elevation"].
    exfalso. rewrite !elem_of_cons, elem_of_nil in Hkey.
    destruct Hkey as [->|[->|[->|[]]]]; congruence.
Qed.

(** X10: when the station list comes back empty, [getCoordinates]
    raises an [Exception] that names network, station and time, while
    [getPAZ] returns the empty dictionary; neither sends a further
    request or looks at channel and location. *)
Theorem no_station_record n s t l c sg w w1 :
  (getList X self n s {[ "datetime" := t; "location" := l ]} w = (Ok [], w1) →
   getCoordinates X self n s t l w
     = (Raise (Exception_ ("No coordinates for station " +:+ Py.str n +:+ "."
                           +:+ Py.str s +:+ " at " +:+ Py.str t)), w1)) ∧
  (getList X self n s {[ "datetime" := t ]} w = (Ok [], w1) →
   getPAZ X self n s t l c sg w = (Ok ∅, w1)).
Proof.
  split; intros Hlist.
  - by rewrite (getCoordinates_run _ _ _ _ _ _ _ Hlist).
  - unfold getPAZ. unfold mbind at 1, M_bind at 1, bind at 1.
    by rewrite Hlist.
Qed.

Lemma reset_wildcards_str ch loc :
  reset_wildcards (PStr ch) (PStr loc)
    = Ok (PStr (if has_wildcard ch then "" else ch),
          PStr (if has_wildcard loc then "" else loc)).
Proof.
  unfold reset_wildcards, reset_wildcard, has_wildcard; simpl.
  destruct (Py.contains "*" ch), (Py.contains "*" loc); simpl;
    destruct (Py.contains "?" ch), (Py.contains "?" loc); reflexivity.
Qed.

(** X11: [getPAZ] does not match wildcards: a channel that contains [*]
    or [?] is treated exactly as no channel at all, and likewise a
    location. *)
Theorem wildcard_filter_is_no_filter n s t loc ch sg w :
  (has_wildcard ch = true →
   getPAZ X self n s t (PStr loc) (PStr ch) sg w
     = getPAZ X self n s t (PStr loc) (PStr "") sg w) ∧
  (has_wildcard loc = true →
   getPAZ X self n s t (PStr loc) (PStr ch) sg w
     = getPAZ X self n s t (PStr "") (PStr ch) sg w).
Proof.
  split; intros H; unfold getPAZ; rewrite !reset_wildcards_str, H;
    reflexivity.
Qed.

End station.

Lemma getCoordinates_takes_the_first_record_witness :
  (getCoordinates (Fixture.answering "two" Fixture.two_stations [])
     Sample.self (PStr "BW") (PStr "MANZ") (PStr "2010-01-01") (PStr "")
     Sample.world0).1
  = Ok {[ "latitude" := OFloat 48; "longitude" := OFloat 11.5;
          "elevation" := OFloat 0 ]}.
Proof.
  refine (f_equal fst
            (proj1 (getCoordinates_takes_the_first_record
                      (Fixture.answering "two" Fixture.two_stations [])
                      Sample.self (PStr "BW") (PStr "MANZ") (PStr "2010-01-01")
                      (PStr "") Sample.world0
                      (default ∅ (head Fixture.two_records))
                      (tail Fixture.two_records) Fixture.two_stations_run.2 _)
               (OFloat 48) (OFloat 11.5) (OFloat 0) _ _ _));
    vm_compute; reflexivity.
Defined.

Lemma no_station_record_witness :
  (getCoordinates (Fixture.answering "none" Fixture.no_stations []) Sample.self
     (PStr "BW") (PStr "MANZ") (PStr "2010-01-01") (PStr "") Sample.world0).1
    = Raise (Exception_ "No coordinates for station BW.MANZ at 2010-01-01") ∧
  (getPAZ (Fixture.answering "none" Fixture.no_stations []) Sample.self
     (PStr "BW") (PStr "MANZ") (PStr "2010-01-01") (PStr "") (PStr "EHZ")
     (PBool false) Sample.world0).1 = Ok ∅.
Proof.
  split.
  - erewrite (proj1 (no_station_record
                       (Fixture.answering "none" Fixture.no_stations [])
                       Sample.self (PStr "BW") (PStr "MANZ") (PStr "2010-01-01")
                       (PStr "") (PStr "EHZ") (PBool false) Sample.world0 _)).
    + reflexivity.
    + vm_compute. reflexivity.
  - erewrite (proj2 (no_station_record
                       (Fixture.answering "none" Fixture.no_stations [])
                       Sample.self (PStr "BW") (PStr "MANZ") (PStr "2010-01-01")
                       (PStr "") (PStr "EHZ") (PBool false) Sample.world0 _)).
    + reflexivity.
    + vm_compute. reflexivity.
Defined.

Lemma wildcard_filter_is_no_filter_witness :
  getPAZ Sample.X Sample.self (PStr "BW") (PStr "MANZ") (PStr "2010-01-01")
    (PStr "") (PStr "EH*") (PBool false) Sample.world0
  = getPAZ Sample.X Sample.self (PStr "BW") (PStr "MANZ") (PStr "2010-01-01")
      (PStr "") (PStr "") (PBool false) Sample.world0.
Proof.
  apply (wildcard_filter_is_no_filter Sample.X Sample.self).
  reflexivity.
Defined.

Lemma after_first_split (p : oelem → bool) (pre : list oelem) e post :
  (∀ x, x ∈ pre → p x = false) → p e = true →
  XPath.after_first p (pre ++ e :: post)%list = post.
Proof.
  intros Hpre He. induction pre as [|x pre IH]; simpl.
  - by rewrite He.
  - rewrite (Hpre x) by left. apply IH. intros y Hy. apply Hpre. by right.
Qed.

Lemma truthy_either ch loc :
  ch ≠ "" ∨ loc ≠ "" → Py.truthy (PStr ch) || Py.truthy (PStr loc) = true.
Proof.
  intros [H|H]; simpl; rewrite (RunFacts.string_eqb_empty _ H); simpl;
    [done|apply orb_true_r].
Qed.

(** X12: which nodes of the header [getPAZ] reads.  With a channel or
    location given, they are taken among the siblings that follow the
    first identifier node matching both codes: the first poles-and-zeros
    block, the first gain block of stage 0 and the first of stage 1,
    wherever they stand after it.  With neither given, they are the
    first poles-and-zeros block of the header, its last gain block for
    the sensitivity and its first for the seismometer gain. *)
Theorem nodes_selected_for_a_channel (X : externals) (base : oelem) :
  (∀ ch loc (pre : list oelem) id post,
     ch ≠ "" ∨ loc ≠ "" →
     Py.contains "'" ch = false → Py.contains "'" loc = false →
     Objectify.getchildren base = (pre ++ id :: post)%list →
     (∀ e, e ∈ pre → XPath.identifies ch loc e = false) →
     XPath.identifies ch loc id = true →
     select_nodes X base (PStr ch) (PStr loc)
       = rbind (XPath.first (filter (λ e, XPath.is_paz e = true) post))
           (λ paz_node,
         rbind (XPath.first (filter (λ e, XPath.is_gain "0" e = true) post))
           (λ sensitivity_node,
         rbind (XPath.first (filter (λ e, XPath.is_gain "1" e = true) post))
           (λ seismometer_gain_node,
         Ok (paz_node, sensitivity_node, seismometer_gain_node))))) ∧
  (∀ paz_node others gain gains,
     Objectify.children_named "response_poles_and_zeros" base
       = paz_node :: others →
     Objectify.children_named "channel_sensitivity_gain" base
       = gain :: gains →
     select_nodes X base (PStr "") (PStr "")
       = Ok (paz_node, List.last gains gain, gain)).
Proof.
  split.
  - intros ch loc pre id post Hf Hc Hl Hsplit Hpre Hid.
    unfold select_nodes. rewrite (truthy_either _ _ Hf). simpl.
    unfold XPath.following. rewrite Hc, Hl, Hsplit. simpl.
    by rewrite (after_first_split _ _ _ _ Hpre Hid).
  - intros paz_node others gain gains Hp Hg.
    unfold select_nodes, Objectify.child. simpl. rewrite Hp, Hg. simpl.
    rewrite reverse_cons.
    destruct gains as [|g gains _] using rev_ind; [done|].
    rewrite reverse_app, last_last. done.
Qed.

Lemma nodes_selected_for_a_channel_witness :
  select_nodes Sample.X Fixture.header (PStr "EHZ") (PStr "")
    = Ok (Sample.poles_and_zeros, Sample.gain "0" "5.0", Sample.gain "1" "2.0") ∧
  select_nodes Sample.X Fixture.header (PStr "") (PStr "")
    = Ok (Sample.poles_and_zeros, Sample.gain "0" "5.0", Sample.gain "1" "2.0").
Proof.
  destruct (nodes_selected_for_a_channel Sample.X Fixture.header) as [H1 H2].
  split.
  - rewrite (H1 "EHZ" "" [] Fixture.identifier
               [Sample.poles_and_zeros; Sample.gain "1" "2.0";
                Sample.gain "0" "5.0"]).
    + reflexivity.
    + left. discriminate.
    + reflexivity.
    + reflexivity.
    + reflexivity.
    + intros e He. by apply elem_of_nil in He.
    + reflexivity.
  - apply (H2 Sample.poles_and_zeros [] (Sample.gain "1" "2.0")
             [Sample.gain "0" "5.0"]); reflexivity.
Defined.

Lemma filter_none {A} (P : A → Prop) `{∀ x, Decision (P x)} (l : list A) :
  (∀ x, x ∈ l → ¬ P x) → filter P l = [].
Proof.
  induction l as [|x l IH]; intros Hl; [done|].
  rewrite filter_cons_False by (apply Hl; left).
  apply IH. intros y Hy. apply Hl. by right.
Qed.

(** X13: with a channel or location given, [getPAZ] needs a stage-1
    gain block after the matching identifier even when the seismometer
    gain is not asked for: without one the call fails with the
    [IndexError] of taking the first of no nodes. *)
Theorem filtered_response_needs_a_stage_one_gain (X : externals) (base : oelem)
    (ch loc : string) (sg : pyval) :
  ch ≠ "" ∨ loc ≠ "" →
  Py.contains "'" ch = false → Py.contains "'" loc = false →
  (∀ e, e ∈ XPath.after_first (XPath.identifies ch loc)
              (Objectify.getchildren base) →
        XPath.is_gain "1" e = false) →
  paz_of_header X base (PStr ch) (PStr loc) sg = Raise IndexError.
Proof.
  intros Hf Hc Hl Hnone. unfold paz_of_header, select_nodes.
  rewrite (truthy_either _ _ Hf). simpl.
  unfold XPath.following. rewrite Hc, Hl. simpl.
  set (after := XPath.after_first _ _) in *.
  assert (filter (λ e, XPath.is_gain "1" e = true) after = []) as ->.
  { apply filter_none. intros e He. by rewrite (Hnone e He). }
  destruct (filter (λ e, XPath.is_paz e = true) after); simpl; [done|].
  destruct (filter (λ e, XPath.is_gain "0" e = true) after); simpl; done.
Qed.

Lemma filtered_response_needs_a_stage_one_gain_witness :
  paz_of_header Sample.X Fixture.header_without_stage_one (PStr "EHZ")
    (PStr "") (PBool false) = Raise IndexError.
Proof.
  apply filtered_response_needs_a_stage_one_gain.
  - left. discriminate.
  - reflexivity.
  - reflexivity.
  - apply Forall_forall. apply (bool_decide_unpack _). vm_compute. exact I.
Defined.

(** X14: the dictionary that [getPAZ] builds has the keys [poles],
    [zeros], [gain] and [sensitivity], and the key [seismometer_gain]
    exactly when that was asked for. *)
Theorem seismometer_gain_only_on_request (X : externals)
    (paz_node sn gn : oelem) (sg : pyval) (paz : gmap string pazval) :
  build_paz X paz_node sn gn sg = Ok paz →
  dom paz = (if Py.truthy sg then {[ "seismometer_gain" ]} else ∅)
            ∪ {[ "poles"; "zeros"; "gain"; "sensitivity" ]}.
Proof.
  unfold build_paz. intros H.
  repeat match type of H with
         | rbind ?r _ = Ok _ => destruct r eqn:?; simpl in H; [|discriminate H]
         end.
  destruct (Py.truthy sg); simpl in H.
  - repeat match type of H with
           | rbind ?r _ = Ok _ => destruct r eqn:?; simpl in H; [|discriminate H]
           end.
    injection H as <-. rewrite !dom_insert_L, dom_empty_L. set_solver.
  - injection H as <-. rewrite !dom_insert_L, dom_empty_L. set_solver.
Qed.

Lemma seismometer_gain_only_on_request_witness :
  dom Fixture.paz = {[ "seismometer_gain" ]}
                    ∪ {[ "poles"; "zeros"; "gain"; "sensitivity" ]}.
Proof.
  refine (seismometer_gain_only_on_request Sample.X Sample.poles_and_zeros
            (Sample.gain "0" "5.0") (Sample.gain "1" "2.0") (PBool true)
            Fixture.paz _).
  vm_compute. reflexivity.
Defined.

End StationFacts.

(** ** Waveforms *)

Module WaveformFacts.
Import _WaveformMapperClient Waveform.

Ltac local_lookup :=
  unfold arguments, with_locals; simpl;
  rewrite ?lookup_insert_ne by done; apply lookup_insert_eq.

Section waveform.
Context (X : externals) (self : client).
Context (n s l c t1 t2 af gp gc mt : pyval) (kw : gmap string pyval).

Lemma arguments_starttime :
  arguments n s l c t1 t2 af gp gc mt kw !! "starttime" = Some t1.
Proof. local_lookup. Qed.

Lemma arguments_endtime :
  arguments n s l c t1 t2 af gp gc mt kw !! "endtime" = Some t2.
Proof. local_lookup. Qed.

Lemma arguments_channel :
  arguments n s l c t1 t2 af gp gc mt kw !! "channel" = Some c.
Proof. local_lookup. Qed.

Lemma arguments_option name v :
  (name, v) ∈ options af gp gc mt →
  arguments n s l c t1 t2 af gp gc mt kw !! name = Some v.
Proof.
  unfold options. rewrite !elem_of_cons, elem_of_nil.
  intros [[= -> ->]|[[= -> ->]|[[= -> ->]|[[= -> ->]|[]]]]];
    local_lookup.
Qed.

Lemma allow_time_string_kept kwargs time v :
  kwargs !! time = Some v → Py.isinstance_str v = false →
  allow_time_string X kwargs time = Ok kwargs.
Proof.
  intros Hk Hv. unfold allow_time_string. rewrite Hk. by destruct v.
Qed.

(** With times that are no strings, the arguments of the fetch are the
    local variables, widened when there is a channel. *)
Lemma fetch_arguments_of_times :
  Py.isinstance_str t1 = false → Py.isinstance_str t2 = false →
  fetch_arguments X n s l c t1 t2 af gp gc mt kw
    = if Py.truthy c then expand X (arguments n s l c t1 t2 af gp gc mt kw)
      else Ok (arguments n s l c t1 t2 af gp gc mt kw, (PNone, PNone)).
Proof.
  intros H1 H2. unfold fetch_arguments.
  fold (arguments n s l c t1 t2 af gp gc mt kw).
  rewrite (allow_time_string_kept _ _ _ arguments_starttime H1). simpl.
  rewrite (allow_time_string_kept _ _ _ arguments_endtime H2). done.
Qed.

Lemma allow_time_string_lookup kwargs time kwargs' q :
  allow_time_string X kwargs time = Ok kwargs' → q ≠ time →
  kwargs' !! q = kwargs !! q.
Proof.
  unfold allow_time_string. intros H Hq.
  destruct (kwargs !! time) as [v|]; [|done].
  destruct v as [| | |text| | |]; try (by injection H as <-).
  destruct (UTCDateTime X text); simpl in H; [|done].
  injection H as <-. by rewrite lookup_insert_ne.
Qed.

Lemma expand_lookup kwargs kwargs' win q :
  expand X kwargs = Ok (kwargs', win) → q ≠ "starttime" → q ≠ "endtime" →
  kwargs' !! q = kwargs !! q.
Proof.
  unfold expand. intros H H1 H2.
  repeat match type of H with
         | rbind ?r _ = Ok _ => destruct r eqn:?; simpl in H; [|discriminate H]
         end.
  injection H as <- _. by rewrite !lookup_insert_ne.
Qed.

(** Only the two times change between the local variables and the
    arguments of the fetch. *)
Lemma fetch_arguments_lookup kwargs' win q :
  fetch_arguments X n s l c t1 t2 af gp gc mt kw = Ok (kwargs', win) →
  q ≠ "starttime" → q ≠ "endtime" →
  kwargs' !! q = arguments n s l c t1 t2 af gp gc mt kw !! q.
Proof.
  unfold fetch_arguments. fold (arguments n s l c t1 t2 af gp gc mt kw).
  intros H H1 H2.
  destruct (allow_time_string X (arguments n s l c t1 t2 af gp gc mt kw)
              "starttime") as [kw1|] eqn:E1; simpl in H; [|done].
  destruct (allow_time_string X kw1 "endtime") as [kw2|] eqn:E2;
    simpl in H; [|done].
  rewrite <-(allow_time_string_lookup _ _ _ q E1) by done.
  rewrite <-(allow_time_string_lookup _ _ _ q E2) by done.
  destruct (Py.truthy c).
  - by apply (expand_lookup _ _ win).
  - by injection H as <- _.
Qed.

(** [getWaveform] up to the checks on what came back, when neither
    [getPAZ] nor [getCoordinates] is set. *)
Lemma getWaveform_run kwargs' win w code msg data :
  fetch_arguments X n s l c t1 t2 af gp gc mt kw = Ok (kwargs', win) →
  Py.truthy gp = false → Py.truthy gc = false →
  let w1 := if Py.truthy c then w else warned_of no_channel_warning w in
  urlopen X (sent w) (request self kwargs') = Response code msg data →
  getWaveform X self n s l c t1 t2 af gp gc mt kw w
    = (if String.eqb data "" then Raise (Exception_ "No waveform data available")
       else match loads X data with
            | Raise e => Raise e
            | Ok stream =>
                if Nat.eqb (length stream) 0
                then Raise (Exception_ "No waveform data available")
                else if Py.truthy c then trim X stream win.1 win.2
                     else Ok stream
            end,
       issued (request self kwargs') w1).
Proof.
  intros Harg Hgp Hgc w1 Hreply. unfold getWaveform. rewrite Harg, Hgp, Hgc.
  unfold w1, request in *. RunFacts.run.
  destruct (Py.truthy c); RunFacts.run;
    (erewrite RunFacts.fetch_run by exact Hreply);
    destruct (String.eqb data ""); try done;
    destruct (loads X data) as [stream|e]; simpl; try done;
    destruct (Nat.eqb (length stream) 0); simpl; try done.
  by destruct (trim X stream win.1 win.2).
Qed.

(** X15: without a channel [getWaveform] warns once, asks for the window
    as given (no widening), and returns the unpickled stream as it is:
    [trim] is not called. *)
Theorem getWaveform_without_channel w code msg data stream :
  Py.truthy c = false →
  Py.isinstance_str t1 = false → Py.isinstance_str t2 = false →
  Py.truthy gp = false → Py.truthy gc = false →
  urlopen X (sent w) (request self (arguments n s l c t1 t2 af gp gc mt kw))
    = Response code msg data →
  data ≠ "" → loads X data = Ok stream → stream ≠ [] →
  getWaveform X self n s l c t1 t2 af gp gc mt kw w
    = (Ok stream,
       issued (request self (arguments n s l c t1 t2 af gp gc mt kw))
         (warned_of no_channel_warning w)).
Proof.
  intros Hc H1 H2 Hgp Hgc Hreply Hdata Hloads Hstream.
  pose proof (fetch_arguments_of_times H1 H2) as Harg. rewrite Hc in Harg.
  rewrite (getWaveform_run _ _ w code msg data Harg Hgp Hgc Hreply).
  rewrite Hc, (RunFacts.string_eqb_empty _ Hdata), Hloads.
  by destruct stream.
Qed.

(** An error in the arguments is raised before anything happens. *)
Lemma getWaveform_argument_error e w :
  fetch_arguments X n s l c t1 t2 af gp gc mt kw = Raise e →
  getWaveform X self n s l c t1 t2 af gp gc mt kw w = (Raise e, w).
Proof. intros H. unfold getWaveform. by rewrite H. Qed.

(** X16: a channel whose first character is not a band code of the
    table, a wildcard for instance, makes [getWaveform] raise [KeyError]
    for that character before anything is sent and before any warning. *)
Theorem getWaveform_unknown_band_code b rest w :
  c = PStr (String b rest) →
  Py.isinstance_str t1 = false → Py.isinstance_str t2 = false →
  BAND_CODE X (String b EmptyString) = None →
  getWaveform X self n s l c t1 t2 af gp gc mt kw w
    = (Raise (KeyError (String b EmptyString)), w).
Proof.
  intros Hc H1 H2 Hband. apply getWaveform_argument_error.
  rewrite (fetch_arguments_of_times H1 H2). unfold expand.
  rewrite arguments_channel, arguments_starttime, arguments_endtime, Hc.
  simpl. by rewrite Hband.
Qed.

(** X17: with a channel whose band code has sampling rate [rate],
    [getWaveform] asks the server for the window from
    [starttime - 2.0 / rate] to [endtime + 2.0 / rate], gives no warning,
    and returns the stream trimmed with the start and end times the
    caller gave. *)
Theorem getWaveform_trims_to_the_window b rest rate t1' t2' w code msg data
    stream :
  c = PStr (String b rest) →
  Py.isinstance_str t1 = false → Py.isinstance_str t2 = false →
  BAND_CODE X (String b EmptyString) = Some rate →
  PrimFloat.eqb rate 0 = false →
  time_sub X t1 (2.0 / rate)%float = Ok t1' →
  time_add X t2 (2.0 / rate)%float = Ok t2' →
  Py.truthy gp = false → Py.truthy gc = false →
  let kwargs' := <["endtime" := t2']>
                   (<["starttime" := t1']>
                      (arguments n s l c t1 t2 af gp gc mt kw)) in
  urlopen X (sent w) (request self kwargs') = Response code msg data →
  data ≠ "" → loads X data = Ok stream → stream ≠ [] →
  getWaveform X self n s l c t1 t2 af gp gc mt kw w
    = (trim X stream t1 t2, issued (request self kwargs') w).
Proof.
  intros Hc H1 H2 Hband Hrate Hsub Hadd Hgp Hgc kwargs' Hreply Hdata Hloads
    Hstream.
  pose proof (fetch_arguments_of_times H1 H2) as Harg.
  rewrite (RunFacts.expand_window X (arguments n s l c t1 t2 af gp gc mt kw)
             b rest t1 t2 rate t1' t2') in Harg;
    [|by rewrite arguments_channel, Hc|apply arguments_starttime
     |apply arguments_endtime|done..].
  assert (Py.truthy c = true) as Ht by (by rewrite Hc).
  rewrite Ht in Harg.
  rewrite (getWaveform_run _ _ w code msg data Harg Hgp Hgc Hreply).
  rewrite Ht, (RunFacts.string_eqb_empty _ Hdata), Hloads.
  by destruct stream.
Qed.

(** X18: the options [apply_filter], [getPAZ], [getCoordinates] and
    [metadata_timecheck] are copied among the keyword arguments with the
    search terms, so each one that is set travels to the server as a
    query parameter: [metadata_timecheck=True] by default. *)
Theorem getWaveform_forwards_its_options kwargs' win name v :
  fetch_arguments X n s l c t1 t2 af gp gc mt kw = Ok (kwargs', win) →
  (name, v) ∈ options af gp gc mt →
  Py.truthy v = true → Params.is_range v = false →
  Params.fetch_params kwargs' !! name = Some (Py.str v).
Proof.
  intros Harg Hin Ht Hr.
  assert (name ≠ "starttime" ∧ name ≠ "endtime" ∧
          (name ∉ KEYWORDS.*1) ∧ (name ∉ KEYWORDS.*2) ∧ Params.plain_key name)
    as (Hs & He & Hk1 & Hk2 & Hpl).
  { unfold options in Hin. rewrite !elem_of_cons, elem_of_nil in Hin.
    destruct Hin as [[= -> _]|[[= -> _]|[[= -> _]|[[= -> _]|[]]]]];
      (split; [done|]); (split; [done|]);
      (split; [apply (bool_decide_unpack _); by vm_compute|]);
      (split; [apply (bool_decide_unpack _); by vm_compute|]);
      intros j; split; simpl; discriminate. }
  apply ParamsFacts.fold_params_plain; [done| |done..].
  unfold Params.map_keywords.
  rewrite ParamsFacts.rename_lookup_other by done.
  rewrite (fetch_arguments_lookup _ _ _ Harg) by done.
  by apply arguments_option.
Qed.

(** X19: [getWaveform] raises ["No waveform data available"] for an
    empty body and for a stream without traces, right after its one
    request: no metadata is asked for. *)
Theorem getWaveform_refuses_an_empty_result kwargs' win w code msg data :
  fetch_arguments X n s l c t1 t2 af gp gc mt kw = Ok (kwargs', win) →
  urlopen X (sent w) (request self kwargs') = Response code msg data →
  data = "" ∨ loads X data = Ok [] →
  getWaveform X self n s l c t1 t2 af gp gc mt kw w
    = (Raise (Exception_ "No waveform data available"),
       issued (request self kwargs')
         (if Py.truthy c then w else warned_of no_channel_warning w)).
Proof.
  intros Harg Hreply Hempty. unfold getWaveform. rewrite Harg.
  unfold request in *. RunFacts.run.
  destruct (Py.truthy c); RunFacts.run;
    (erewrite RunFacts.fetch_run by exact Hreply);
    (destruct (String.eqb_spec data "") as [->|Hd]; [done|]);
    (destruct Hempty as [? | ->]; [done|]); done.
Qed.

End waveform.

Lemma getWaveform_without_channel_witness :
  ∃ w',
    getWaveform (Fixture.answering "pickle" Fixture.no_stations Fixture.stream)
      Sample.self (PStr "BW") (PStr "MANZ") PNone PNone Fixture.starttime
      Fixture.endtime (PBool false) (PBool false) (PBool false) (PBool true) ∅
      Sample.world0
    = (Ok Fixture.stream, w') ∧
    warned w' = [no_channel_warning].
Proof.
  eexists. split.
  - apply (getWaveform_without_channel
             (Fixture.answering "pickle" Fixture.no_stations Fixture.stream)
             Sample.self (PStr "BW") (PStr "MANZ") PNone PNone
             Fixture.starttime Fixture.endtime (PBool false) (PBool false)
             (PBool false) (PBool true) ∅ Sample.world0 200 "OK" "pickle"
             Fixture.stream);
      first [reflexivity|discriminate].
  - reflexivity.
Defined.

Lemma getWaveform_unknown_band_code_witness :
  getWaveform Sample.X Sample.self (PStr "BW") (PStr "MANZ") (PStr "")
    (PStr "*HZ") Fixture.starttime Fixture.endtime (PBool false) (PBool false)
    (PBool false) (PBool true) ∅ Sample.world0
  = (Raise (KeyError "*"), Sample.world0).
Proof.
  apply (getWaveform_unknown_band_code Sample.X Sample.self (PStr "BW")
           (PStr "MANZ") (PStr "") (PStr "*HZ") Fixture.starttime
           Fixture.endtime (PBool false) (PBool false) (PBool false)
           (PBool true) ∅ "*" "HZ" Sample.world0);
    reflexivity.
Defined.

Lemma getWaveform_trims_to_the_window_witness :
  ∃ w',
    getWaveform (Fixture.answering "pickle" Fixture.no_stations Fixture.stream)
      Sample.self (PStr "BW") (PStr "MANZ") (PStr "") (PStr "EHZ")
      Fixture.starttime Fixture.endtime (PBool false) (PBool false)
      (PBool false) (PBool true) ∅ Sample.world0
    = (Ok [Fixture.trace_of "BW.MANZ..EHZ"], w') ∧
    warned w' = [].
Proof.
  eexists. split.
  - apply (getWaveform_trims_to_the_window
             (Fixture.answering "pickle" Fixture.no_stations Fixture.stream)
             Sample.self (PStr "BW") (PStr "MANZ") (PStr "") (PStr "EHZ")
             Fixture.starttime Fixture.endtime (PBool false) (PBool false)
             (PBool false) (PBool true) ∅ "E" "HZ" 100%float
             (PObj true "2010-01-01T00:00:00 - 0.02" "")
             (PObj true "2010-01-01T00:01:00 + 0.02" "") Sample.world0
             200 "OK" "pickle" Fixture.stream);
      first [reflexivity|discriminate].
  - reflexivity.
Defined.

Lemma getWaveform_forwards_its_options_witness :
  Params.fetch_params Fixture.fetched.1 !! "getPAZ" = Some "True" ∧
  Params.fetch_params Fixture.fetched.1 !! "metadata_timecheck" = Some "True".
Proof.
  split.
  - refine (getWaveform_forwards_its_options Fixture.silent (PStr "BW")
              (PStr "MANZ") (PStr "") (PStr "EHZ") Fixture.starttime
              Fixture.endtime (PBool false) (PBool true) (PBool true)
              (PBool true) ∅ Fixture.fetched.1 Fixture.fetched.2 "getPAZ"
              (PBool true) _ _ _ _);
      [vm_compute; reflexivity|right; left|reflexivity..].
  - refine (getWaveform_forwards_its_options Fixture.silent (PStr "BW")
              (PStr "MANZ") (PStr "") (PStr "EHZ") Fixture.starttime
              Fixture.endtime (PBool false) (PBool true) (PBool true)
              (PBool true) ∅ Fixture.fetched.1 Fixture.fetched.2
              "metadata_timecheck" (PBool true) _ _ _ _);
      [vm_compute; reflexivity|do 3 right; left|reflexivity..].
Defined.

Lemma getWaveform_refuses_an_empty_result_witness :
  (getWaveform Fixture.silent Sample.self (PStr "BW") (PStr "MANZ") (PStr "")
     (PStr "EHZ") Fixture.starttime Fixture.endtime (PBool false) (PBool true)
     (PBool true) (PBool true) ∅ Sample.world0).1
  = Raise (Exception_ "No waveform data available").
Proof.
  refine (f_equal fst
            (getWaveform_refuses_an_empty_result Fixture.silent Sample.self
               (PStr "BW") (PStr "MANZ") (PStr "") (PStr "EHZ")
               Fixture.starttime Fixture.endtime (PBool false) (PBool true)
               (PBool true) (PBool true) ∅ Fixture.fetched.1 Fixture.fetched.2
               Sample.world0 200 "OK" "pickle" _ _ _));
    [vm_compute; reflexivity|reflexivity|right; reflexivity].
Defined.

Lemma join_ids_strings names :
  join_ids (PStr <$> names) = Ok (PStr (Py.join "," names)).
Proof.
  unfold join_ids.
  match goal with
  | |- rbind ?r _ = _ => assert (r = Ok names) as ->; [|done]
  end.
  induction names as [|x names IH]; [done|].
  rewrite fmap_cons. cbn [rmap rbind]. by rewrite IH.
Qed.

Lemma join_ids_other ids v :
  v ∈ ids → Py.isinstance_str v = false →
  ∃ msg, join_ids ids = Raise (TypeError msg).
Proof.
  unfold join_ids. intros Hin Hv.
  induction ids as [|x ids IH]; [by apply elem_of_nil in Hin|].
  simpl. apply elem_of_cons in Hin as [<-|Hin].
  - destruct v; try done; simpl; eauto.
  - destruct x; simpl; eauto.
    destruct (IH Hin) as [msg Hmsg].
    destruct (rmap _ ids); simpl in *; [done|]. eauto.
Qed.

(** X20: [getPreviewByIds] joins a list of ids with commas before the
    fetch, so the ids go out as the one parameter [trace_ids], also when
    there are exactly two of them; an item that is not a string raises
    [TypeError] and nothing is sent. *)
Theorem getPreviewByIds_joins_the_ids (X : externals) (self : client)
    (names : list string) (ids : list pyval) (t1 t2 : pyval)
    (kw : gmap string pyval) (w : world) :
  let locals ids := with_locals [("trace_ids", ids); ("starttime", t1);
                                 ("endtime", t2)] kw in
  let kwargs := <["trace_ids" := PStr (Py.join "," names)]>
                  (locals (PList (PStr <$> names))) in
  sent (getPreviewByIds X self (PList (PStr <$> names)) t1 t2 kw w).2
    = (sent w ++ [Client.get_request
                    (Client.remoteaddr self "/seismology/waveform/getPreview"
                       kwargs)])%list ∧
  (Py.join "," names ≠ "" →
   Params.fetch_params kwargs !! "trace_ids" = Some (Py.join "," names)) ∧
  ((∃ v, v ∈ ids ∧ Py.isinstance_str v = false) →
   ∃ msg, getPreviewByIds X self (PList ids) t1 t2 kw w
            = (Raise (TypeError msg), w)).
Proof.
  intros locals kwargs. split; [|split].
  - unfold getPreviewByIds. rewrite RunFacts.trace_ids_lookup.
    rewrite join_ids_strings. fold (locals (PList (PStr <$> names))).
    fold kwargs. RunFacts.run. unfold Client._fetch, Client.send.
    RunFacts.run.
    destruct (urlopen X _ _) as [code msg body| |]; simpl; try done.
    destruct (String.eqb body ""); simpl; [done|].
    by destruct (loads X body).
  - intros Hne. unfold Params.fetch_params.
    apply (ParamsFacts.fold_params_plain _ "trace_ids"
             (PStr (Py.join "," names))).
    + by apply ParamsFacts.plain_key_first.
    + unfold Params.map_keywords.
      rewrite ParamsFacts.rename_lookup_other
        by (apply (bool_decide_unpack _); by vm_compute).
      apply lookup_insert_eq.
    + simpl. by rewrite (RunFacts.string_eqb_empty _ Hne).
    + done.
  - intros (v & Hin & Hv). destruct (join_ids_other ids v Hin Hv) as [msg Hmsg].
    exists msg. unfold getPreviewByIds. rewrite RunFacts.trace_ids_lookup.
    by rewrite Hmsg.
Qed.

Lemma getPreviewByIds_joins_the_ids_witness :
  Params.fetch_params
    (<["trace_ids" := PStr "BW.MANZ..EHE,BW.MANZ..EHN"]>
       (with_locals [("trace_ids", PList [PStr "BW.MANZ..EHE";
                                          PStr "BW.MANZ..EHN"]);
                     ("starttime", Fixture.starttime);
                     ("endtime", Fixture.endtime)] ∅))
    !! "trace_ids" = Some "BW.MANZ..EHE,BW.MANZ..EHN" ∧
  ∃ msg, getPreviewByIds Sample.X Sample.self (PList [PStr "a"; PInt 7])
           Fixture.starttime Fixture.endtime ∅ Sample.world0
         = (Raise (TypeError msg), Sample.world0).
Proof.
  destruct (getPreviewByIds_joins_the_ids Sample.X Sample.self
              ["BW.MANZ..EHE"; "BW.MANZ..EHN"] [PStr "a"; PInt 7]
              Fixture.starttime Fixture.endtime ∅ Sample.world0)
    as (_ & H1 & H2).
  split.
  - apply H1. discriminate.
  - apply H2. exists (PInt 7). split; [right; left|reflexivity].
Defined.

End WaveformFacts.

(** ** The window of [getWaveform] *)

Module WindowFacts.
Import _WaveformMapperClient Waveform.

Lemma allow_time_string_as_time X kwargs time t a :
  kwargs !! time = Some t → as_time X t = Ok a →
  allow_time_string X kwargs time = Ok (<[time := a]> kwargs).
Proof.
  intros Hk Ha. unfold allow_time_string. rewrite Hk.
  destruct t; simpl in Ha; try (injection Ha as <-; by rewrite insert_id).
  by rewrite Ha.
Qed.

(** With a channel, the arguments of the fetch are the local variables
    with the two times moved outwards, and the window kept for [trim] is
    the one the caller named. *)
Lemma fetch_arguments_padded X n s l b rest t1 t2 af gp gc mt kw a z rate
    a' z' :
  as_time X t1 = Ok a → as_time X t2 = Ok z →
  BAND_CODE X (String b EmptyString) = Some rate →
  PrimFloat.eqb rate 0 = false →
  time_sub X a (2.0 / rate)%float = Ok a' →
  time_add X z (2.0 / rate)%float = Ok z' →
  fetch_arguments X n s l (PStr (String b rest)) t1 t2 af gp gc mt kw
  = Ok (<["endtime" := z']>
          (<["starttime" := a']>
             (arguments n s l (PStr (String b rest)) t1 t2 af gp gc mt kw)),
        (a, z)).
Proof.
  intros Ha Hz Hband Hrate Hsub Hadd. unfold fetch_arguments.
  fold (arguments n s l (PStr (String b rest)) t1 t2 af gp gc mt kw).
  set (args := arguments _ _ _ _ _ _ _ _ _ _ _).
  rewrite (allow_time_string_as_time X args "starttime" t1 a);
    [|apply WaveformFacts.arguments_starttime|done].
  cbn [rbind].
  rewrite (allow_time_string_as_time X _ "endtime" t2 z);
    [|rewrite lookup_insert_ne by done; apply WaveformFacts.arguments_endtime
     |done].
  cbn [rbind Py.truthy negb String.eqb].
  rewrite (RunFacts.expand_window X _ b rest a z rate a' z'); try done.
  - f_equal. f_equal.
    rewrite (insert_insert_ne _ "starttime" "endtime") by done.
    by rewrite !insert_insert_eq.
  - rewrite !lookup_insert_ne by done. apply WaveformFacts.arguments_channel.
  - rewrite lookup_insert_ne by done. apply lookup_insert_eq.
  - apply lookup_insert_eq.
Qed.

Lemma set_paz_pickled paz (stream : list trace) :
  tr_pickled <$> (set_paz paz <$> stream) = tr_pickled <$> stream.
Proof. induction stream as [|tr st IH]; [done|]. simpl. by f_equal. Qed.

Lemma set_coordinates_pickled coords (stream : list trace) :
  tr_pickled <$> (set_coordinates coords <$> stream) = tr_pickled <$> stream.
Proof. induction stream as [|tr st IH]; [done|]. simpl. by f_equal. Qed.

Lemma attach_paz_pickled X self n s l c t1 t2 mt stream w st w' :
  attach_paz X self n s l c t1 t2 mt stream w = (Ok st, w') →
  tr_pickled <$> st = tr_pickled <$> stream.
Proof.
  unfold attach_paz, mbind, M_bind, bind, mret, M_ret, ret, raise.
  intros H. repeat case_match; simplify_eq.
  all: apply set_paz_pickled.
Qed.

Lemma attach_coordinates_pickled X self n s l t1 t2 mt stream w st w' :
  attach_coordinates X self n s l t1 t2 mt stream w = (Ok st, w') →
  tr_pickled <$> st = tr_pickled <$> stream.
Proof.
  unfold attach_coordinates, mbind, M_bind, bind, mret, M_ret, ret, raise.
  intros H. repeat case_match; simplify_eq.
  all: apply set_coordinates_pickled.
Qed.

(** The metadata blocks leave the samples of the stream as they are. *)
Lemma enrich_pickled X self n s l c t1 t2 gp gc mt stream w st w' :
  enrich X self n s l c t1 t2 gp gc mt stream w = (Ok st, w') →
  tr_pickled <$> st = tr_pickled <$> stream.
Proof.
  unfold enrich, mbind, M_bind, bind, mret, M_ret, ret. intros H.
  destruct (Py.truthy gp).
  - destruct (attach_paz _ _ _ _ _ _ _ _ _ _ _) as [[st1|?] w1] eqn:E1;
      [|done].
    apply attach_paz_pickled in E1. rewrite <-E1.
    destruct (Py.truthy gc).
    + destruct (attach_coordinates _ _ _ _ _ _ _ _ _ _) as [[st2|?] w2] eqn:E2;
        [|done].
      apply attach_coordinates_pickled in E2. by simplify_eq.
    + by simplify_eq.
  - simpl in H. destruct (Py.truthy gc).
    + destruct (attach_coordinates _ _ _ _ _ _ _ _ _ _) as [[st2|?] w2] eqn:E2;
        [|done].
      apply attach_coordinates_pickled in E2. by simplify_eq.
    + by simplify_eq.
Qed.

(** C2: with a channel whose band code has the nominal sampling rate
    [rate], [getWaveform] asks the server for the window from
    [starttime - 2.0 / rate] to [endtime + 2.0 / rate], where [starttime]
    and [endtime] are the times the caller named, and trims what comes
    back to [starttime] and [endtime] themselves before any metadata is
    attached.  [Stream.trim] is a collaborator: whatever it guarantees
    of a stream it has trimmed to a window, here [aligned], holds of the
    returned stream and the caller's window. *)
Theorem fetched_window_is_padded_and_trimmed_back (X : externals)
    (self : client) (aligned : list string → pyval → pyval → Prop)
    (n s l c t1 t2 af gp gc mt : pyval) (kw : gmap string pyval) (w : world)
    (b : ascii) (rest : string) (rate : float) (a z a' z' : pyval)
    (code : Z) (msg data : string) (stream : list trace) :
  (∀ st from to st', trim X st from to = Ok st' →
                     aligned (tr_pickled <$> st') from to) →
  c = PStr (String b rest) →
  as_time X t1 = Ok a → as_time X t2 = Ok z →
  BAND_CODE X (String b EmptyString) = Some rate →
  PrimFloat.eqb rate 0 = false →
  time_sub X a (2.0 / rate)%float = Ok a' →
  time_add X z (2.0 / rate)%float = Ok z' →
  let kwargs' := <["endtime" := z']>
                   (<["starttime" := a']>
                      (arguments n s l c t1 t2 af gp gc mt kw)) in
  urlopen X (sent w) (request self kwargs') = Response code msg data →
  data ≠ "" → loads X data = Ok stream → stream ≠ [] →
  kwargs' !! "starttime" = Some a' ∧ kwargs' !! "endtime" = Some z' ∧
  getWaveform X self n s l c t1 t2 af gp gc mt kw w
    = (trimmed ← lift (trim X stream a z);
       enrich X self n s l c t1 t2 gp gc mt trimmed)
        (issued (request self kwargs') w) ∧
  (Py.truthy gp = false → Py.truthy gc = false →
   getWaveform X self n s l c t1 t2 af gp gc mt kw w
     = (trim X stream a z, issued (request self kwargs') w)) ∧
  (∀ st, (getWaveform X self n s l c t1 t2 af gp gc mt kw w).1 = Ok st →
     ∃ trimmed, trim X stream a z = Ok trimmed ∧
                tr_pickled <$> st = tr_pickled <$> trimmed ∧
                aligned (tr_pickled <$> st) a z).
Proof.
  intros Htrim -> Ha Hz Hband Hrate Hsub Hadd kwargs' Hreply Hdata Hloads
    Hstream.
  assert (getWaveform X self n s l (PStr (String b rest)) t1 t2 af gp gc mt
            kw w
          = (trimmed ← lift (trim X stream a z);
             enrich X self n s l (PStr (String b rest)) t1 t2 gp gc mt trimmed)
              (issued (request self kwargs') w)) as Hrun.
  { unfold getWaveform.
    rewrite (fetch_arguments_padded X n s l b rest t1 t2 af gp gc mt kw a z
               rate a' z' Ha Hz Hband Hrate Hsub Hadd).
    fold kwargs'. unfold request in *. RunFacts.run.
    erewrite RunFacts.fetch_run by exact Hreply.
    rewrite (RunFacts.string_eqb_empty _ Hdata), Hloads.
    destruct stream; [done|]. reflexivity. }
  split; [|split; [|split; [|split]]].
  - unfold kwargs'. rewrite lookup_insert_ne by done. apply lookup_insert_eq.
  - apply lookup_insert_eq.
  - exact Hrun.
  - intros Hgp Hgc. rewrite Hrun. unfold enrich. rewrite Hgp, Hgc.
    RunFacts.run. by destruct (trim X stream a z).
  - intros st Hst. rewrite Hrun in Hst.
    unfold mbind, M_bind, bind, lift in Hst.
    destruct (trim X stream a z) as [trimmed|] eqn:Et; [|done].
    exists trimmed. split; [done|].
    destruct (enrich _ _ _ _ _ _ _ _ _ _ _ _ _) as [r w'] eqn:Ee.
    simpl in Hst. subst r. apply enrich_pickled in Ee.
    split; [done|]. rewrite Ee. by eapply Htrim.
Qed.

Lemma fetched_window_is_padded_and_trimmed_back_witness :
  (getWaveform (Fixture.answering "pickle" Fixture.no_stations Fixture.stream)
     Sample.self (PStr "BW") (PStr "MANZ") (PStr "") (PStr "EHZ")
     (PStr "2010-01-01T00:00:00") Fixture.endtime (PBool false) (PBool false)
     (PBool false) (PBool true) ∅ Sample.world0).1
  = Ok [Fixture.trace_of "BW.MANZ..EHZ"].
Proof.
  refine (f_equal fst (proj1 (proj2 (proj2 (proj2
    (fetched_window_is_padded_and_trimmed_back
       (Fixture.answering "pickle" Fixture.no_stations Fixture.stream)
       Sample.self (λ ids _ _, (length ids ≤ 1)%nat)
       (PStr "BW") (PStr "MANZ") (PStr "") (PStr "EHZ")
       (PStr "2010-01-01T00:00:00") Fixture.endtime (PBool false)
       (PBool false) (PBool false) (PBool true) ∅ Sample.world0
       "E" "HZ" 100%float
       (PObj true "2010-01-01T00:00:00" "UTCDateTime(2010-01-01T00:00:00)")
       Fixture.endtime
       (PObj true "2010-01-01T00:00:00 - 0.02" "")
       (PObj true "2010-01-01T00:01:00 + 0.02" "")
       200 "OK" "pickle" Fixture.stream _ _ _ _ _ _ _ _ _ _ _ _)))) _ _));
    try reflexivity; try discriminate.
  intros st from to st' [= <-]. rewrite length_fmap, length_take. lia.
Defined.

End WindowFacts.

(** ** Events and their markers *)

Module EventFacts.
Import _EventMapperClient.

Lemma rmap_Forall2 {A B} (f : A → result B) (l : list A) (k : list B) :
  rmap f l = Ok k ↔ Forall2 (λ x y, f x = Ok y) l k.
Proof.
  revert k. induction l as [|x l IH]; intros k; simpl.
  - split; [intros [= <-]; constructor|]. by intros ->%Forall2_nil_inv_l.
  - split.
    + destruct (f x) as [y|] eqn:E; simpl; [|done].
      destruct (rmap f l) as [ys|]; simpl; [|done].
      intros [= <-]. constructor; [done|]. by apply IH.
    + intros (y & ys & Hy & Hys & ->)%Forall2_cons_inv_l.
      rewrite Hy. simpl. apply IH in Hys. by rewrite Hys.
Qed.

Lemma rmap_first_failure {A B} (f : A → result B) (pre : list A) x post e :
  (∀ a, a ∈ pre → ∃ b, f a = Ok b) → f x = Raise e →
  rmap f (pre ++ x :: post)%list = Raise e.
Proof.
  intros Hpre Hx. induction pre as [|a pre IH]; simpl.
  - by rewrite Hx.
  - destruct (Hpre a) as [b ->]; [left|]. simpl.
    rewrite IH; [done|]. intros a' Ha'. apply Hpre. by right.
Qed.

Lemma rbind_Ok {A B} (r : result A) (f : A → result B) y :
  rbind r f = Ok y → ∃ x, r = Ok x ∧ f x = Ok y.
Proof. destruct r as [x|e]; simpl; [eauto|done]. Qed.

Lemma placemark_tag X nolabels ev pm :
  placemark X nolabels ev = Ok pm → Xml.tag pm = "Placemark".
Proof.
  unfold placemark. intros H.
  apply rbind_Ok in H as (dt & _ & H). apply rbind_Ok in H as (mg & _ & H).
  apply rbind_Ok in H as ([label size] & _ & H).
  apply rbind_Ok in H as (lon & _ & H). apply rbind_Ok in H as (lat & _ & H).
  apply rbind_Ok in H as (lon_text & _ & H).
  apply rbind_Ok in H as (lat_text & _ & H).
  cbv beta zeta in H. by injection H as <-.
Qed.

Lemma filter_all {A} (P : A → Prop) `{∀ x, Decision (P x)} (l : list A) :
  (∀ x, x ∈ l → P x) → filter P l = l.
Proof.
  induction l as [|x l IH]; intros Hl; [done|].
  rewrite filter_cons_True by (apply Hl; left).
  f_equal. apply IH. intros y Hy. apply Hl. by right.
Qed.

Lemma placemarks_of_document base stamp kwargs pms :
  (∀ pm, pm ∈ pms → Xml.tag pm = "Placemark") →
  Kml.placemarks (kml_document base stamp kwargs pms) = pms.
Proof.
  intros H. unfold Kml.placemarks, kml_document, Xml.child. simpl.
  rewrite !filter_cons_False by done.
  by apply filter_all.
Qed.

Section event.
Context (X : externals) (self : client).

Lemma getKML_run nolabels kwargs w events w1 :
  getList X self kwargs w = (Ok events, w1) →
  getKML X self nolabels kwargs w
    = (rbind (rmap (placemark X nolabels) events)
         (λ pms, Ok (tostring X (kml_document (base_url self) (now w1) kwargs
                                   pms))), w1).
Proof.
  intros Hlist. unfold getKML. unfold mbind at 1, M_bind at 1, bind at 1.
  rewrite Hlist. unfold datetime_now. RunFacts.run.
  by destruct (rmap (placemark X nolabels) events).
Qed.

(** X21: when every event of the list can be rendered, [getKML]
    returns the serialised document whose folder holds, after its four
    fixed children, exactly one [Placemark] per event, in the order of
    the list; beyond the request of [getList] nothing is sent. *)
Theorem getKML_one_marker_per_event nolabels kwargs w events w1 pms :
  getList X self kwargs w = (Ok events, w1) →
  rmap (placemark X nolabels) events = Ok pms →
  let doc := kml_document (base_url self) (now w1) kwargs pms in
  getKML X self nolabels kwargs w = (Ok (tostring X doc), w1) ∧
  Kml.placemarks doc = pms ∧
  Forall2 (λ event pm, placemark X nolabels event = Ok pm) events pms.
Proof.
  intros Hlist Hpms doc. split; [|split].
  - rewrite (getKML_run _ _ _ _ _ Hlist). by rewrite Hpms.
  - apply placemarks_of_document. intros pm Hpm.
    apply rmap_Forall2 in Hpms.
    apply list_elem_of_lookup in Hpm as [i Hi].
    destruct (Forall2_lookup_r _ _ _ _ _ Hpms Hi) as (event & _ & Hev).
    by apply (placemark_tag X nolabels event).
  - by apply rmap_Forall2.
Qed.

(** X22: [getKML] renders the events in order and fails as a whole
    with the error of the first event that cannot be rendered: no
    document is returned for the events before it. *)
Theorem getKML_fails_with_its_first_bad_event nolabels kwargs w w1
    (pre : list (gmap string oval)) event post e :
  getList X self kwargs w = (Ok (pre ++ event :: post)%list, w1) →
  (∀ ev, ev ∈ pre → ∃ pm, placemark X nolabels ev = Ok pm) →
  placemark X nolabels event = Raise e →
  getKML X self nolabels kwargs w = (Raise e, w1).
Proof.
  intros Hlist Hpre Hev. rewrite (getKML_run _ _ _ _ _ Hlist).
  by rewrite (rmap_first_failure _ _ _ _ e Hpre Hev).
Qed.

(** X23: [saveKML] opens the file only after [getKML] has returned:
    when [getKML] raises, [saveKML] raises the same error and no file is
    created, truncated or changed. *)
Theorem saveKML_failure_writes_nothing filename overwrite kwargs w e w' :
  Py.truthy overwrite = true ∨ files w !! filename = None →
  getKML X self (default (PBool false) (kwargs !! "nolabels"))
    (delete "nolabels" kwargs) w = (Raise e, w') →
  saveKML X self filename overwrite kwargs w = (Raise e, w') ∧
  files w' = files w.
Proof.
  intros H Hk. split.
  - unfold saveKML, lexists.
    destruct (Py.truthy overwrite) eqn:Ho; unfold bind; simpl.
    + RunFacts.run. by rewrite Hk.
    + destruct H as [?|Hn]; [done|].
      rewrite bool_decide_eq_false_2 by (rewrite Hn; by intros [? ?]).
      RunFacts.run. by rewrite Hk.
  - pose proof (RunFacts.keeps_getKML X self
                  (default (PBool false) (kwargs !! "nolabels"))
                  (delete "nolabels" kwargs) w) as Hkeep.
    by rewrite Hk in Hkeep.
Qed.

End event.

Lemma getKML_one_marker_per_event_witness :
  let w1 := issued (Client.get_request
                      "http://localhost:8080/seismology/event/getList?")
              Sample.world0 in
  let doc := kml_document "http://localhost:8080" (now w1) ∅
               [Fixture.marker] in
  getKML Sample.X Sample.self (PBool false) ∅ Sample.world0
    = (Ok (tostring Sample.X doc), w1) ∧
  Kml.placemarks doc = [Fixture.marker].
Proof.
  intros w1 doc.
  refine (let H := getKML_one_marker_per_event Sample.X Sample.self
                     (PBool false) ∅ Sample.world0 [Fixture.event] w1
                     [Fixture.marker] _ _ in
          conj (proj1 H) (proj1 (proj2 H)));
    vm_compute; reflexivity.
Defined.

Lemma getKML_fails_with_its_first_bad_event_witness :
  (getKML (Fixture.answering "events" Fixture.events_one_bad []) Sample.self
     (PBool false) ∅ Sample.world0).1 = Raise (KeyError "magnitude").
Proof.
  erewrite (getKML_fails_with_its_first_bad_event
              (Fixture.answering "events" Fixture.events_one_bad [])
              Sample.self (PBool false) ∅ Sample.world0 _ [Fixture.event]
              Fixture.bad_event [] (KeyError "magnitude")).
  - reflexivity.
  - vm_compute. reflexivity.
  - intros ev Hev. apply list_elem_of_singleton in Hev as ->.
    eexists. vm_compute. reflexivity.
  - vm_compute. reflexivity.
Defined.

Lemma saveKML_failure_writes_nothing_witness :
  ∃ w',
    saveKML (Fixture.answering "events" Fixture.events_one_bad []) Sample.self
      "new.kml" (PBool false) ∅ Sample.world0
    = (Raise (KeyError "magnitude"), w') ∧
    files w' = files Sample.world0.
Proof.
  eexists.
  apply (saveKML_failure_writes_nothing
           (Fixture.answering "events" Fixture.events_one_bad []) Sample.self
           "new.kml" (PBool false) ∅ Sample.world0 (KeyError "magnitude")).
  - right. vm_compute. reflexivity.
  - vm_compute. reflexivity.
Defined.

(** X24: how the marker of one event fails, with labels hidden or not:
    an event without [datetime] or without [magnitude] raises
    [KeyError] for that key; a magnitude whose text is not empty and is
    no number raises [ValueError]; once the label is made, a missing
    [longitude] or [latitude] raises [KeyError], and one that is text or
    [None] raises the [TypeError] of the float format. *)
Theorem placemark_failures (X : externals) (nolabels : pyval)
    (ev : gmap string oval) :
  (ev !! "datetime" = None →
   placemark X nolabels ev = Raise (KeyError "datetime")) ∧
  (is_Some (ev !! "datetime") → ev !! "magnitude" = None →
   placemark X nolabels ev = Raise (KeyError "magnitude")) ∧
  (∀ mg, is_Some (ev !! "datetime") → ev !! "magnitude" = Some mg →
     Lib.ostr X mg ≠ "" → Lib.float_of_text X (Lib.ostr X mg) = None →
     ∃ msg, placemark X nolabels ev = Raise (ValueError msg)) ∧
  (∀ mg, is_Some (ev !! "datetime") → ev !! "magnitude" = Some mg →
     Lib.ostr X mg = "" ∨ is_Some (Lib.float_of_text X (Lib.ostr X mg)) →
     (ev !! "longitude" = None →
      placemark X nolabels ev = Raise (KeyError "longitude")) ∧
     (is_Some (ev !! "longitude") → ev !! "latitude" = None →
      placemark X nolabels ev = Raise (KeyError "latitude")) ∧
     (∀ lon lat, ev !! "longitude" = Some lon → ev !! "latitude" = Some lat →
        (∃ s, lon = OStr s) ∨ lon = ONone ∨
        (∃ s, lat = OStr s) ∨ lat = ONone →
        ∃ msg, placemark X nolabels ev = Raise (TypeError msg))).
Proof.
  unfold placemark, field. split; [|split; [|split]].
  - by intros ->.
  - by intros [dt ->] ->.
  - intros mg [dt ->] -> Hne Hf. unfold label_and_size. simpl.
    rewrite (RunFacts.string_eqb_empty _ Hne), Hf. simpl. eauto.
  - intros mg [dt ->] -> Hlabel. simpl.
    assert (∃ ls, label_and_size X (Lib.before_space (Lib.ostr X dt))
                    (Lib.ostr X mg) = Ok ls) as [[label size] ->].
    { unfold label_and_size. destruct Hlabel as [->|[mag ->]]; [by eexists|].
      destruct (Py.truthy _); by eexists. }
    simpl. split; [|split].
    + by intros ->.
    + by intros [lon ->] ->.
    + intros lon lat -> -> Hbad. simpl.
      destruct Hbad as [[s ->]|[-> |[[s ->]| ->]]]; simpl; eauto;
        destruct lon; simpl; eauto.
Qed.

Lemma placemark_failures_witness :
  placemark Sample.X (PBool true) Fixture.bad_event
    = Raise (KeyError "magnitude").
Proof.
  apply (placemark_failures Sample.X (PBool true) Fixture.bad_event).
  - eexists. vm_compute. reflexivity.
  - vm_compute. reflexivity.
Defined.

(** X25: the icon of a marker has size 0.5 when the magnitude is
    empty, and else [1.2 * log(1.5 + magnitude)], or 0.1 where that
    logarithm is not defined; the size is written with [str] as the
    scale of the icon style.  Every marker refers to the style
    [#earthquake] and limits its snippet to five lines. *)
Theorem placemark_icon_and_style (X : externals) (nolabels : pyval)
    (ev : gmap string oval) (dt mg : oval) (lon lat : float) :
  ev !! "datetime" = Some dt → ev !! "magnitude" = Some mg →
  ev !! "longitude" = Some (OFloat lon) →
  ev !! "latitude" = Some (OFloat lat) →
  let styled (size : float) :=
    ∃ pm, placemark X nolabels ev = Ok pm ∧
          Xml.text_at ["Style"; "IconStyle"; "scale"] pm
            = Some (Lib.str_of_float X size) ∧
          Xml.text_at ["styleUrl"] pm = Some "#earthquake" ∧
          Xml.text_at ["Style"; "ListStyle"; "maxSnippetLines"] pm
            = Some "5" in
  (Lib.ostr X mg = "" → styled 0.5%float) ∧
  (∀ mag, Lib.ostr X mg ≠ "" → Lib.float_of_text X (Lib.ostr X mg) = Some mag →
     styled (Kml.icon_size X mag)).
Proof.
  intros Hdt Hmg Hlon Hlat styled. split.
  - intros He. unfold styled, placemark, field, label_and_size.
    rewrite Hdt, Hmg, Hlon, Hlat. simpl. rewrite He. simpl.
    eexists. split; [reflexivity|]. repeat split; reflexivity.
  - intros mag Hne Hf. unfold styled, placemark, field, label_and_size.
    rewrite Hdt, Hmg, Hlon, Hlat. simpl.
    rewrite (RunFacts.string_eqb_empty _ Hne). simpl. rewrite Hf. simpl.
    eexists. split; [reflexivity|]. repeat split; reflexivity.
Qed.

Lemma placemark_icon_and_style_witness :
  ∃ pm, placemark Sample.X (PBool false) Fixture.event = Ok pm ∧
        Xml.text_at ["Style"; "IconStyle"; "scale"] pm = Some "2.24616261228" ∧
        Xml.text_at ["styleUrl"] pm = Some "#earthquake" ∧
        Xml.text_at ["Style"; "ListStyle"; "maxSnippetLines"] pm = Some "5".
Proof.
  destruct (placemark_icon_and_style Sample.X (PBool false) Fixture.event
              (OStr "2020-01-01 12:00:00") (OFloat 5) 11.5 48)
    as [_ H]; [reflexivity..|].
  apply (H 5%float); [discriminate|reflexivity].
Defined.

Lemma foldl_agree {A B} (f g : A → B → A) (a : A) (l : list B) :
  (∀ acc x, x ∈ l → f acc x = g acc x) → foldl f a l = foldl g a l.
Proof.
  revert a. induction l as [|x l IH]; intros a H; simpl; [done|].
  rewrite (H a x) by left. apply IH. intros acc y Hy. apply H. by right.
Qed.

(** X26: a marker depends on twelve fields of its event and on nothing
    else: two events that agree on [resource_name],
    [localisation_method], [account], [user], [public], [datetime],
    [longitude], [latitude], [depth], [magnitude], [used_p] and [used_s]
    get the same marker, or fail alike. *)
Theorem placemark_reads_only_the_listed_fields (X : externals)
    (nolabels : pyval) (ev ev' : gmap string oval) :
  (∀ key, key ∈ interesting_keys → ev !! key = ev' !! key) →
  placemark X nolabels ev = placemark X nolabels ev'.
Proof.
  intros H. unfold placemark, field.
  rewrite (foldl_agree
             (λ acc key, match ev !! key with
                         | Some v => acc +:+ Lib.nl +:+ key +:+ ": " +:+
                                     Lib.ostr X v
                         | None => acc
                         end)
             (λ acc key, match ev' !! key with
                         | Some v => acc +:+ Lib.nl +:+ key +:+ ": " +:+
                                     Lib.ostr X v
                         | None => acc
                         end) "" interesting_keys)
    by (intros acc key Hkey; by rewrite (H key Hkey)).
  rewrite (H "datetime"), (H "magnitude"), (H "longitude"), (H "latitude");
    [done|apply (bool_decide_unpack _); by vm_compute..].
Qed.

Lemma placemark_reads_only_the_listed_fields_witness :
  placemark Sample.X (PBool false) (<["comment" := OStr "felt"]> Fixture.event)
    = placemark Sample.X (PBool false) Fixture.event.
Proof.
  apply placemark_reads_only_the_listed_fields.
  intros key Hkey. apply lookup_insert_ne. intros <-.
  revert Hkey. apply (bool_decide_unpack _). vm_compute. exact I.
Defined.

End EventFacts.

(** ** Listings of ids *)

Module ListingFacts.
Import _WaveformMapperClient.

Lemma column_lists X field root ids :
  Objectify.column X field root = Ok ids ↔ Listing.lists X field root ids.
Proof.
  unfold Objectify.column, Listing.lists. rewrite EventFacts.rmap_Forall2.
  split; intros H; (eapply Forall2_impl; [exact H|]); intros node id;
    cbv beta.
  - destruct (Objectify.child field node) as [c|]; simpl; [|done].
    intros [= <-]. by exists c.
  - by intros (c & -> & ->).
Qed.

Lemma listing_run X self url kwargs field w root w1 ids :
  Client._objectify X self url kwargs w = (Ok root, w1) →
  (root ← Client._objectify X self url kwargs;
   lift (Objectify.column X field root)) w = (Ok ids, w1)
  ↔ Listing.lists X field root ids.
Proof.
  intros H. unfold mbind, M_bind, bind. rewrite H. unfold lift.
  rewrite <-column_lists. split; [by intros [= ->]|by intros ->].
Qed.

(** X27: the four listings of the waveform mapper return, for the
    document the server sent, one string per child of its root, in
    document order: [str] of the first [network], [station], [location]
    or [channel] child of that node; they return that list and no
    other, an empty list for a root without children, and fail when a
    node has no such child. *)
Theorem id_listings_follow_the_document (X : externals) (self : client)
    (n s l : pyval) (kw : gmap string pyval) (w : world) (root : oelem)
    (w1 : world) (ids : list string) :
  (Client._objectify X self "/seismology/waveform/getNetworkIds" kw w
     = (Ok root, w1) →
   getNetworkIds X self kw w = (Ok ids, w1) ↔ Listing.lists X "network" root ids) ∧
  (Client._objectify X self "/seismology/waveform/getStationIds"
     (with_locals [("network", n)] kw) w = (Ok root, w1) →
   getStationIds X self n kw w = (Ok ids, w1)
   ↔ Listing.lists X "station" root ids) ∧
  (Client._objectify X self "/seismology/waveform/getLocationIds"
     (with_locals [("network", n); ("station", s)] kw) w = (Ok root, w1) →
   getLocationIds X self n s kw w = (Ok ids, w1)
   ↔ Listing.lists X "location" root ids) ∧
  (Client._objectify X self "/seismology/waveform/getChannelIds"
     (with_locals [("network", n); ("station", s); ("location", l)] kw) w
     = (Ok root, w1) →
   getChannelIds X self n s l kw w = (Ok ids, w1)
   ↔ Listing.lists X "channel" root ids) ∧
  (Objectify.getchildren root = [] →
   ∀ field, Listing.lists X field root ids ↔ ids = []).
Proof.
  split; [|split; [|split; [|split]]];
    try (intros H; exact (listing_run _ _ _ _ _ _ _ _ _ H)).
  intros Hroot field. unfold Listing.lists. rewrite Hroot. split.
  - apply Forall2_nil_inv_l.
  - intros ->. constructor.
Qed.

Lemma id_listings_follow_the_document_witness :
  getNetworkIds (Fixture.answering "networks" Fixture.networks []) Sample.self
    ∅ Sample.world0
  = (Ok ["BW"; "GR"],
     issued (Client.get_request
               "http://localhost:8080/seismology/waveform/getNetworkIds?")
       Sample.world0).
Proof.
  refine (proj2 (proj1 (id_listings_follow_the_document
                          (Fixture.answering "networks" Fixture.networks [])
                          Sample.self PNone PNone PNone ∅ Sample.world0
                          Fixture.networks
                          (issued (Client.get_request
                                     ("http://localhost:8080/seismology/" +:+
                                      "waveform/getNetworkIds?"))
                             Sample.world0) ["BW"; "GR"]) _) _).
  - vm_compute. reflexivity.
  - repeat constructor; eexists; (split; [reflexivity|]); reflexivity.
Defined.

End ListingFacts.
